(** * modAL/models/learners.py: learners, optimizers and committees

    A shallow embedding of the active-learning orchestration layer of modAL:
    [ActiveLearner], [BayesianOptimizer], [Committee], [DeepCommittee] and
    [CommitteeRegressor].  Python objects are records, methods are
    computations in a state-and-exception monad in which a raised exception
    keeps whatever the method had already written to the object, and NumPy
    arrays are lists of rows. *)

From Stdlib Require Import String.
From Stdlib Require Import List ZArith QArith Bool Lia Floats Uint63 Sorted Permutation.
From Stdlib Require Reals Lra.
Import ListNotations.
Local Open Scope Z_scope.
Local Open Scope nat_scope.
Local Open Scope string_scope.
Local Open Scope list_scope.

Set Implicit Arguments.

(* ===================================================================== *)
(** * Numbers *)
(* ===================================================================== *)

(** The arithmetic NumPy performs on array entries.  The kernels below are
    written once over this interface and run at two instances: exact
    rationals, and the binary64 floats that [np.zeros] allocates. *)
Class Num (F : Type) : Type := {
  fzero : F;
  fadd : F -> F -> F;
  fsub : F -> F -> F;
  fmul : F -> F -> F;
  fdiv : F -> F -> F;
  of_int : Z -> F;
  fltb : F -> F -> bool
}.

(** [fltb a b]: entry [b] comes after entry [a] in the order in which
    [np.argmax] ranks entries, and [b > a] in the comparisons of the code.
    On numbers it is [a < b]; [NumOrder] asks it to be a strict weak order
    (for binary64 see [Num_float] below). *)
Class NumOrder (F : Type) {num : Num F} : Prop := {
  fltb_irrefl : forall x : F, fltb x x = false;
  fltb_trans : forall x y z : F, fltb x y = true -> fltb y z = true -> fltb x z = true;
  fltb_negtrans : forall x y z : F, fltb x y = false -> fltb y z = false -> fltb x z = false
}.
Arguments NumOrder F {num}.

Definition Qltb (x y : Q) : bool := negb (Qle_bool y x).

#[export] Instance Num_Q : Num Q := {|
  fzero := 0%Q;
  fadd := Qplus;
  fsub := Qminus;
  fmul := Qmult;
  fdiv := Qdiv;
  of_int := inject_Z;
  fltb := Qltb
|}.

(** An integer to float64, as NumPy casts an integer array (int64 or
    uint64) into a float one: the nearest binary64 value, ties to even.
    Integers of absolute value up to 2^53 are exact; -2^63, the least int64,
    gives -9223372036854775808.0, and 2^64-1 gives 2^64. *)
Definition float_of_Z (z : Z) : float :=
  SF2Prim (binary_normalize FloatOps.prec FloatOps.emax z 0 false).

(** The order of binary64 entries in [np.argmax]: its scan replaces the
    running best [mp] by the entry [x] when [!(x <= mp)], and stops for good
    once the best is a NaN; so a NaN comes after every number, and the first
    NaN of a row is its arg-max.  On two numbers this is the IEEE [a < b], as
    is Python's [b > a], and [b > a] is False when [a] is a NaN; the two
    differ only for a NaN [b] after a number [a], which no label that
    [check_X_y] has accepted shows. *)
Definition np_less (a b : float) : bool :=
  negb (PrimFloat.is_nan a) && negb (PrimFloat.leb b a).

#[export] Instance Num_float : Num float := {|
  fzero := 0%float;
  fadd := PrimFloat.add;
  fsub := PrimFloat.sub;
  fmul := PrimFloat.mul;
  fdiv := PrimFloat.div;
  of_int := float_of_Z;
  fltb := np_less
|}.

(** The rank of a binary64 value in that order: minus infinity, the
    negative numbers, the zeros, the positive numbers, plus infinity, NaN;
    among numbers of one sign, by exponent and then by mantissa. *)
Definition sf_rank (a : spec_float) : Z * Z * Z :=
  match a with
  | S754_infinity true => (0, 0, 0)%Z
  | S754_finite true m e => (1, - e, - Z.pos m)%Z
  | S754_zero _ => (2, 0, 0)%Z
  | S754_finite false m e => (3, e, Z.pos m)%Z
  | S754_infinity false => (4, 0, 0)%Z
  | S754_nan => (5, 0, 0)%Z
  end.

Definition lex_lt (r s : Z * Z * Z) : Prop :=
  let '(a, b, c) := r in
  let '(a', b', c') := s in
  (a < a' \/ (a = a' /\ (b < b' \/ (b = b' /\ c < c'))))%Z.

Definition sf_less (a b : spec_float) : bool := SFeqb a a && negb (SFleb b a).

Definition of_nat {F : Type} {num : Num F} (n : nat) : F := of_int (Z.of_nat n).

(* ===================================================================== *)
(** * Exceptions and mutable objects *)
(* ===================================================================== *)

Inductive exn : Type :=
| ValueError (msg : string)
| IndexError
| TypeError
| AttributeError
| EstimatorError.

Inductive outcome (A : Type) : Type :=
| Return (a : A)
| Raise (e : exn).
Arguments Return {A} a.
Arguments Raise {A} e.

(** A method of an object of type [S]: it returns or raises, and in both
    cases leaves the object in the state it had reached. *)
Definition M (S A : Type) : Type := S -> outcome A * S.

Definition ret {S A : Type} (a : A) : M S A := fun s => (Return a, s).

Definition bind {S A B : Type} (c : M S A) (k : A -> M S B) : M S B :=
  fun s =>
    match c s with
    | (Return a, s') => k a s'
    | (Raise e, s') => (Raise e, s')
    end.

Definition raise {S A : Type} (e : exn) : M S A := fun s => (Raise e, s).

Definition get {S : Type} : M S S := fun s => (Return s, s).

Definition put {S : Type} (s : S) : M S unit := fun _ => (Return tt, s).

(** A call that does not touch the object. *)
Definition lift {S A : Type} (o : outcome A) : M S A := fun s => (o, s).

(** [try: body except ValueError: handler]. *)
Definition try_except_ValueError {S A : Type} (body handler : M S A) : M S A :=
  fun s =>
    match body s with
    | (Raise (ValueError _), s') => handler s'
    | r => r
    end.

(** A method of a component run on the object that holds it. *)
Definition zoom {S T A : Type} (proj : S -> T) (upd : T -> S -> S) (c : M T A) : M S A :=
  fun s => let (r, t') := c (proj s) in (r, upd t' s).

Declare Scope py_scope.
Delimit Scope py_scope with py.
Notation "x <- c ;; k" := (bind c (fun x => k))
  (at level 100, c at next level, right associativity) : py_scope.
Notation "c ;; k" := (bind c (fun _ => k))
  (at level 100, right associativity) : py_scope.
Local Open Scope py_scope.

(** [for x in xs: body x]. *)
Fixpoint for_each {S A : Type} (xs : list A) (body : A -> M S unit) : M S unit :=
  match xs with
  | [] => ret tt
  | x :: rest => body x ;; for_each rest body
  end.

(** Pure counterpart, for computations that hold no object. *)
Definition obind {A B : Type} (o : outcome A) (k : A -> outcome B) : outcome B :=
  match o with
  | Return a => k a
  | Raise e => Raise e
  end.

Fixpoint omap {A B : Type} (f : A -> outcome B) (l : list A) : outcome (list B) :=
  match l with
  | [] => Return []
  | x :: t => obind (f x) (fun y => obind (omap f t) (fun ys => Return (y :: ys)))
  end.

(* ===================================================================== *)
(** * Arrays *)
(* ===================================================================== *)

(** An array with at least one axis: its rows along axis 0, and the shape
    every row has ([inner_shape = []] for a vector, [[d]] for an [n x d]
    matrix).  A row is stored flat. *)
Record ndarray (A : Type) : Type := mk_ndarray {
  inner_shape : list nat;
  rows : list (list A)
}.

Definition n_rows {A : Type} (a : ndarray A) : nat := length (rows a).

Definition vector {A : Type} (l : list A) : ndarray A :=
  {| inner_shape := []; rows := map (fun v => [v]) l |}.

Definition matrix {A : Type} (d : nat) (l : list (list A)) : ndarray A :=
  {| inner_shape := [d]; rows := l |}.

(** [a.ravel()]. *)
Definition ravel {A : Type} (a : ndarray A) : list A := concat (rows a).

(** [a[idx]] for a list of row indices. *)
Definition take_rows {A : Type} (a : ndarray A) (idx : list nat) : ndarray A :=
  {| inner_shape := inner_shape a;
     rows := flat_map (fun i => match nth_error (rows a) i with
                                | Some r => [r]
                                | None => []
                                end) idx |}.

(** Modelled from the spec: [modAL.utils.data.data_vstack] (module absent):
    row-wise concatenation of two aligned containers preserving row order,
    which fails when the shape of the new rows disagrees with the rows
    accumulated so far.  The caller below catches that failure as a
    [ValueError]. *)
Definition data_vstack {A : Type} (a b : ndarray A) : outcome (ndarray A) :=
  if list_eq_dec Nat.eq_dec (inner_shape a) (inner_shape b)
  then Return {| inner_shape := inner_shape a; rows := rows a ++ rows b |}
  else Raise (ValueError "all the input array dimensions must match").

(** The stack of two blocks whose rows have one shape. *)
Definition appended {A : Type} (old new : ndarray A) : ndarray A :=
  {| inner_shape := inner_shape old; rows := rows old ++ rows new |}.

(** Modelled from the spec: [modAL.utils.data.retrieve_rows] (module absent):
    row retrieval by integer index. *)
Definition retrieve_rows {A : Type} (a : ndarray A) (i : nat) : outcome (list A) :=
  match nth_error (rows a) i with
  | Some r => Return r
  | None => Raise IndexError
  end.

(** [sklearn.utils.check_X_y]: the row counts of [X] and [y] must agree, and
    whatever else the checking policy in force asks of the two arrays (finite
    entries unless [force_all_finite] is off, at least one sample) must
    hold. *)
Definition check_X_y {A B : Type} (policy : bool -> ndarray A -> ndarray B -> bool)
    (force_all_finite : bool) (X : ndarray A) (y : ndarray B) : outcome unit :=
  if negb (Nat.eqb (n_rows X) (n_rows y))
  then Raise (ValueError "Found input variables with inconsistent numbers of samples")
  else if policy force_all_finite X y then Return tt
  else Raise (ValueError "Input rejected by the checking policy").

(* ===================================================================== *)
(** * Collaborators *)
(* ===================================================================== *)

(** The capability contract of a trainable model.  [fit] mutates the model
    and may raise, and is handed whatever the learner holds, [None]
    included; [classes_] is absent ([None]) until the model is fitted;
    [predict] gives one label per sample and [predict_proba] one row of
    probabilities per sample, with one column per class the model knows. *)
Class Estimator (F L Est : Type) : Type := {
  est_fit : option (ndarray F) -> option (ndarray L) -> M Est unit;
  est_predict : Est -> ndarray F -> outcome (list L);
  est_predict_proba : Est -> ndarray F -> outcome (list (list F));
  est_classes_ : Est -> option (list L)
}.

(** What the surrounding libraries decide: the checks [check_X_y] applies
    besides the row count, and the indices [np.random.choice(range(n), n,
    replace=True)] draws. *)
Class Collaborators (F L : Type) : Type := {
  checking_policy : bool -> ndarray F -> ndarray L -> bool;
  np_random_choice : nat -> list nat
}.

(* ===================================================================== *)
(** * ActiveLearner *)
(* ===================================================================== *)

Module ActiveLearner.
Section Methods.
Context {F L Est : Type} {E : Estimator F L Est} {C : Collaborators F L}.

(** [force_all_finite] is the per-instance toggle of the finite-values check
    that [BaseLearner.__init__] stores. *)
Record t : Type := mk {
  estimator : Est;
  X_training : option (ndarray F);
  y_training : option (ndarray L);
  force_all_finite : bool
}.

Definition set_estimator (e : Est) (self : t) : t :=
  {| estimator := e; X_training := X_training self;
     y_training := y_training self; force_all_finite := force_all_finite self |}.

Definition set_X_training (v : option (ndarray F)) : M t unit :=
  fun self => (Return tt,
    {| estimator := estimator self; X_training := v;
       y_training := y_training self; force_all_finite := force_all_finite self |}).

Definition set_y_training (v : option (ndarray L)) : M t unit :=
  fun self => (Return tt,
    {| estimator := estimator self; X_training := X_training self;
       y_training := v; force_all_finite := force_all_finite self |}).

(** [self.estimator.fit(X, y)]. *)
Definition estimator_fit (X : option (ndarray F)) (y : option (ndarray L)) : M t unit :=
  zoom estimator set_estimator (est_fit X y).

Definition _add_training_data (X : ndarray F) (y : ndarray L) : M t unit :=
  self <- get ;;
  lift (check_X_y checking_policy (force_all_finite self) X y) ;;
  match X_training self with
  | None =>
      set_X_training (Some X) ;;
      set_y_training (Some y)
  | Some X_old =>
      try_except_ValueError
        (X_new <- lift (data_vstack X_old X) ;;
         set_X_training (Some X_new) ;;
         self <- get ;;
         match y_training self with
         | None => raise TypeError
         | Some y_old =>
             y_new <- lift (data_vstack y_old y) ;;
             set_y_training (Some y_new)
         end)
        (raise (ValueError
           "the dimensions of the new training data and label mustagree with the training data and labels provided so far"))
  end.

Definition _fit_to_known (bootstrap : bool) : M t unit :=
  self <- get ;;
  if negb bootstrap then estimator_fit (X_training self) (y_training self)
  else
    match X_training self with
    | None => raise AttributeError
    | Some X =>
        let n_instances := n_rows X in
        let bootstrap_idx := np_random_choice n_instances in
        match y_training self with
        | None => raise TypeError
        | Some y =>
            estimator_fit (Some (take_rows X bootstrap_idx))
                          (Some (take_rows y bootstrap_idx))
        end
    end.

(** Modelled from the spec: [BaseLearner._fit_on_new] (modAL/models/base.py
    is absent): a fit restricted to only the new batch, bypassing the
    buffer, on a bootstrap resample of the batch when asked. *)
Definition _fit_on_new (X : ndarray F) (y : ndarray L) (bootstrap : bool) : M t unit :=
  if negb bootstrap then estimator_fit (Some X) (Some y)
  else
    let bootstrap_idx := np_random_choice (n_rows X) in
    estimator_fit (Some (take_rows X bootstrap_idx)) (Some (take_rows y bootstrap_idx)).

Definition fit (X : ndarray F) (y : ndarray L) (bootstrap : bool) : M t unit :=
  self <- get ;;
  lift (check_X_y checking_policy (force_all_finite self) X y) ;;
  set_X_training (Some X) ;;
  set_y_training (Some y) ;;
  _fit_to_known bootstrap.

Definition teach (X : ndarray F) (y : ndarray L) (bootstrap only_new : bool) : M t unit :=
  if negb only_new then
    _add_training_data X y ;;
    _fit_to_known bootstrap
  else
    self <- get ;;
    lift (check_X_y checking_policy (force_all_finite self) X y) ;;
    _fit_on_new X y bootstrap.

(** The constructor: the object as [BaseLearner.__init__] leaves it, with
    the initial data stored unchecked and fitted at once when given. *)
Definition __init__ (estimator0 : Est) (faf : bool)
    (X_training0 : option (ndarray F)) (y_training0 : option (ndarray L))
    (bootstrap_init : bool) : outcome t :=
  let self := {| estimator := estimator0; X_training := X_training0;
                 y_training := y_training0; force_all_finite := faf |} in
  match X_training0 with
  | Some _ =>
      match _fit_to_known bootstrap_init self with
      | (Return _, self') => Return self'
      | (Raise e, _) => Raise e
      end
  | None => Return self
  end.

(** Modelled from the spec: [BaseLearner.predict] and
    [BaseLearner.predict_proba] (modAL/models/base.py is absent): a member's
    prediction is its model's. *)
Definition predict (self : t) (X : ndarray F) : outcome (list L) :=
  est_predict (estimator self) X.

Definition predict_proba (self : t) (X : ndarray F) : outcome (list (list F)) :=
  est_predict_proba (estimator self) X.

(** ** Vocabulary of the statements about the buffer *)

(** The two buffers are both absent, or hold the same number of rows. *)
Definition aligned (self : t) : Prop :=
  match X_training self, y_training self with
  | None, None => True
  | Some X, Some y => n_rows X = n_rows y
  | _, _ => False
  end.

Record call : Type := mk_call {
  call_X : ndarray F;
  call_y : ndarray L;
  call_bootstrap : bool;
  call_only_new : bool
}.

(** A sequence of [teach] calls on one learner. *)
Definition teach_all (calls : list call) : M t unit :=
  for_each calls
    (fun c => teach (call_X c) (call_y c) (call_bootstrap c) (call_only_new c)).

(** The rows the calls add to a buffer: those of the calls that do not ask
    for [only_new], in the order of the calls. *)
Definition taught_rows {A : Type} (block : call -> ndarray A) (calls : list call)
    : list (list A) :=
  flat_map (fun c => if call_only_new c then [] else rows (block c)) calls.

(** The rows a buffer holds, none while it is absent. *)
Definition buffer_rows {A : Type} (buffer : option (ndarray A)) : list (list A) :=
  match buffer with
  | Some a => rows a
  | None => []
  end.

End Methods.
Arguments t F L Est : clear implicits.
Arguments call F L : clear implicits.
End ActiveLearner.

(* ===================================================================== *)
(** * NumPy kernels *)
(* ===================================================================== *)

Class NumSqrt (F : Type) : Type := { fsqrt : F -> F }.

#[export] Instance NumSqrt_float : NumSqrt float := {| fsqrt := PrimFloat.sqrt |}.

(** The real numbers, to tell what exact arithmetic gives. *)
Definition Num_R : Num Rdefinitions.R := {|
  fzero := Rdefinitions.IZR 0;
  fadd := Rdefinitions.Rplus;
  fsub := Rdefinitions.Rminus;
  fmul := Rdefinitions.Rmult;
  fdiv := Rdefinitions.Rdiv;
  of_int := Rdefinitions.IZR;
  fltb := fun x y => if RIneq.Rlt_dec x y then true else false
|}.

Definition NumSqrt_R : NumSqrt Rdefinitions.R := {| fsqrt := R_sqrt.sqrt |}.

Section NumPy.
Context {F : Type} {num : Num F}.

(** [np.add.reduce] in the order of the entries: accumulation from the
    first entry on.  It is the order in which NumPy adds along an axis that
    is not the innermost one of the array (the learner axis of the three-axis
    array of [vote_proba]), and the order of [pairwise_sum] below on fewer
    than eight entries. *)
Definition np_sum (l : list F) : F :=
  match l with
  | [] => fzero
  | x :: t => fold_left fadd t x
  end.

(** [np.mean] along such an axis: the sum divided by the number of
    entries. *)
Definition np_mean (l : list F) : F := fdiv (np_sum l) (of_nat (length l)).

(** The unrolled loop of NumPy's [pairwise_sum] on 8 to 128 entries: eight
    accumulators [r[0..7]] start as the first eight entries and take
    [r[j] += a[i + j]] for every further full block of eight; they are then
    added as [((r0 + r1) + (r2 + r3)) + ((r4 + r5) + (r6 + r7))], and the
    entries left over, fewer than eight, are added to that one by one. *)
Fixpoint unrolled_sum (r0 r1 r2 r3 r4 r5 r6 r7 : F) (a : list F) : F :=
  match a with
  | a0 :: a1 :: a2 :: a3 :: a4 :: a5 :: a6 :: a7 :: rest =>
      unrolled_sum (fadd r0 a0) (fadd r1 a1) (fadd r2 a2) (fadd r3 a3)
                   (fadd r4 a4) (fadd r5 a5) (fadd r6 a6) (fadd r7 a7) rest
  | _ =>
      fold_left fadd a
        (fadd (fadd (fadd r0 r1) (fadd r2 r3)) (fadd (fadd r4 r5) (fadd r6 r7)))
  end.

(** [pairwise_sum] on at most 128 entries: one by one when there are fewer
    than eight (NumPy starts that loop from a zero, which changes at most the
    sign of a sum that is zero), unrolled otherwise. *)
Definition block_sum (a : list F) : F :=
  match a with
  | a0 :: a1 :: a2 :: a3 :: a4 :: a5 :: a6 :: a7 :: rest =>
      unrolled_sum a0 a1 a2 a3 a4 a5 a6 a7 rest
  | _ => np_sum a
  end.

(** The recursion of [pairwise_sum] on more than 128 entries: the row is cut
    at [n2 = n / 2 - (n / 2) % 8] and the sums of the two parts are added.
    Both parts are shorter than the row, so [fuel] turns of the recursion
    are enough for a row of [fuel] entries. *)
Fixpoint pairwise_sum_rec (fuel : nat) (a : list F) : F :=
  match fuel with
  | O => block_sum a
  | S fuel' =>
      if Nat.leb (length a) 128 then block_sum a
      else
        let n2 := length a / 2 - (length a / 2) mod 8 in
        fadd (pairwise_sum_rec fuel' (firstn n2 a)) (pairwise_sum_rec fuel' (skipn n2 a))
  end.

(** [np.add.reduce] along the innermost axis of a C-ordered array, the
    order of [np.mean(vote, axis=1)] and [np.std(vote, axis=1)] on the
    two-axis array of [CommitteeRegressor.vote]: NumPy's pairwise
    summation of the row.  (NumPy adds the result to the zero the reduction
    starts from, which changes at most the sign of a sum that is zero.) *)
Definition pairwise_sum (a : list F) : F := pairwise_sum_rec (length a) a.

(** [np.mean] of a row along its innermost axis. *)
Definition np_mean_contiguous (l : list F) : F :=
  fdiv (pairwise_sum l) (of_nat (length l)).

(** [np.std] of a row along its innermost axis, with the default [ddof=0]:
    the deviations from the mean, squared, averaged over the number of
    entries, and the root of that. *)
Definition np_std {sq : NumSqrt F} (l : list F) : F :=
  let arrmean := np_mean_contiguous l in
  let x := map (fun a => fsub a arrmean) l in
  let x := map (fun d => fmul d d) x in
  fsqrt (fdiv (pairwise_sum x) (of_nat (length l))).

(** The scan of [np.argmax] over entries that are numbers: the running best
    entry is replaced only by a strictly greater one, so the first index of
    the maximum wins. *)
Fixpoint argmax_from (best : F) (best_idx idx : nat) (l : list F) : nat :=
  match l with
  | [] => best_idx
  | x :: t =>
      if fltb best x then argmax_from x idx (S idx) t
      else argmax_from best best_idx (S idx) t
  end.

Definition np_argmax (l : list F) : outcome nat :=
  match l with
  | [] => Raise (ValueError "attempt to get argmax of an empty sequence")
  | x :: t => Return (argmax_from x 0 1 t)
  end.

(** [i] is the first index at which [l] attains its maximum [m]. *)
Definition first_max_at (l : list F) (i : nat) (m : F) : Prop :=
  nth_error l i = Some m /\
  (forall v, In v l -> fltb m v = false) /\
  (forall j w, j < i -> nth_error l j = Some w -> fltb w m = true).

(** [np.zeros(shape=(n, m))]. *)
Definition np_zeros2 (n m : nat) : list (list F) := repeat (repeat fzero m) n.

End NumPy.

(** Broadcasting of a value along one axis of length [n]: it has [n] entries,
    or one entry that is repeated. *)
Definition broadcast_to {A : Type} (n : nat) (v : list A) : outcome (list A) :=
  if Nat.eqb (length v) n then Return v
  else match v with
       | [x] => Return (repeat x n)
       | _ => Raise (ValueError "could not broadcast input array")
       end.

(** [r[j] = x] for an index inside the row. *)
Fixpoint set_nth {A : Type} (r : list A) (j : nat) (x : A) : list A :=
  match r, j with
  | [], _ => []
  | _ :: t, O => x :: t
  | h :: t, S j' => h :: set_nth t j' x
  end.

(** Entry [j] of the [i]-th row becomes the [i]-th value, for every [i]. *)
Definition place_at {A : Type} (P : list (list A)) (j : nat) (vals : list A)
    : list (list A) :=
  map (fun rv => set_nth (fst rv) j (snd rv)) (combine P vals).

(** [P[:, j] = col]. *)
Definition assign_column {A : Type} (P : list (list A)) (j : nat) (col : list A)
    : outcome (list (list A)) :=
  obind (broadcast_to (length P) col) (fun col' => Return (place_at P j col')).

Fixpoint enumerate_from {A : Type} (i : nat) (l : list A) : list (nat * A) :=
  match l with
  | [] => []
  | x :: t => (i, x) :: enumerate_from (S i) t
  end.

Definition enumerate {A : Type} (l : list A) : list (nat * A) := enumerate_from 0 l.

(** One turn of a loop [for idx, learner in enumerate(learner_list)] that
    stores the values computed for [learner] at position [idx] of every
    row. *)
Definition fill_step {A Lrn : Type} (column_of : Lrn -> outcome (list A))
    (acc : outcome (list (list A))) (il : nat * Lrn) : outcome (list (list A)) :=
  obind acc (fun P =>
  obind (column_of (snd il)) (fun vals => Return (place_at P (fst il) vals))).

(* ===================================================================== *)
(** * BayesianOptimizer *)
(* ===================================================================== *)

Module BayesianOptimizer.
Section Methods.
Context {F Est : Type} {num : Num F} {E : Estimator F F Est} {C : Collaborators F F}.

(** The running maximum: [-np.inf], or an entry [y[max_idx]] of a label
    array (a scalar is a one-entry row). *)
Inductive ymax : Type :=
| NegInf
| Val (v : list F).

Record t : Type := mk {
  base : ActiveLearner.t F F Est;
  X_max : option (list F);
  y_max : ymax
}.

Definition set_base (b : ActiveLearner.t F F Est) (self : t) : t :=
  {| base := b; X_max := X_max self; y_max := y_max self |}.

Definition set_X_max (v : option (list F)) : M t unit :=
  fun self => (Return tt, {| base := base self; X_max := v; y_max := y_max self |}).

Definition set_y_max (v : ymax) : M t unit :=
  fun self => (Return tt, {| base := base self; X_max := X_max self; y_max := v |}).

(** A method inherited from [ActiveLearner]. *)
Definition inherited {A : Type} (c : M (ActiveLearner.t F F Est) A) : M t A :=
  zoom base set_base c.

(** The truth value of [y_max > self.y_max]: defined when the comparison
    yields a single entry. *)
Definition gt_truth (new : list F) (old : ymax) : outcome bool :=
  match new, old with
  | [_], NegInf => Return true
  | [v], Val [v0] => Return (fltb v0 v)
  | _, _ => Raise (ValueError
      "The truth value of an array with more than one element is ambiguous")
  end.

Definition __init__ (estimator0 : Est) (faf : bool)
    (X_training0 : option (ndarray F)) (y_training0 : option (ndarray F))
    (bootstrap_init : bool) : outcome t :=
  obind (ActiveLearner.__init__ estimator0 faf X_training0 y_training0 bootstrap_init)
    (fun b =>
  match ActiveLearner.y_training b with
  | Some y_tr =>
      obind (np_argmax (ravel y_tr)) (fun max_idx =>
      obind (match ActiveLearner.X_training b with
             | Some X_tr => retrieve_rows X_tr max_idx
             | None => Raise TypeError
             end) (fun x_row =>
      obind (retrieve_rows y_tr max_idx) (fun y_row =>
      Return {| base := b; X_max := Some x_row; y_max := Val y_row |})))
  | None => Return {| base := b; X_max := None; y_max := NegInf |}
  end).

Definition _set_max (X y : ndarray F) : M t unit :=
  max_idx <- lift (np_argmax (ravel y)) ;;
  y_max_new <- lift (retrieve_rows y max_idx) ;;
  self <- get ;;
  greater <- lift (gt_truth y_max_new (y_max self)) ;;
  if (greater : bool) then
    set_y_max (Val y_max_new) ;;
    x_row <- lift (retrieve_rows X max_idx) ;;
    set_X_max (Some x_row)
  else ret tt.

Definition get_max (self : t) : option (list F) * ymax := (X_max self, y_max self).

Definition teach (X y : ndarray F) (bootstrap only_new : bool) : M t unit :=
  inherited (ActiveLearner._add_training_data X y) ;;
  (if negb only_new then inherited (ActiveLearner._fit_to_known bootstrap)
   else inherited (ActiveLearner._fit_on_new X y bootstrap)) ;;
  _set_max X y.

(** ** Vocabulary of the statements about the running maximum *)

(** One scalar label per sample: a label vector or a one-column matrix. *)
Definition scalar_labels (y : ndarray F) : Prop :=
  Forall (fun r => length r = 1) (rows y).

(** The (sample, label) pairs a batch shows. *)
Definition observed (X y : ndarray F) : list (list F * F) :=
  combine (rows X) (ravel y).

(** [(X_max, y_max)] is unknown and [-inf] while no label was observed;
    afterwards it is an observed sample with its label, and no observed
    label exceeds that label. *)
Definition running_max (pairs : list (list F * F)) (labels : list F) (self : t) : Prop :=
  match labels with
  | [] => get_max self = (None, NegInf)
  | _ :: _ =>
      exists x v, In (x, v) pairs /\ In v labels /\
                  get_max self = (Some x, Val [v]) /\
                  forall w, In w labels -> fltb v w = false
  end.

Record call : Type := mk_call {
  call_X : ndarray F;
  call_y : ndarray F;
  call_bootstrap : bool;
  call_only_new : bool
}.

(** A sequence of [teach] calls on one optimizer. *)
Definition teach_all (calls : list call) : M t unit :=
  for_each calls
    (fun c => teach (call_X c) (call_y c) (call_bootstrap c) (call_only_new c)).

Definition history_of (calls : list call) : list (list F * F) :=
  flat_map (fun c => observed (call_X c) (call_y c)) calls.

Definition labels_of (calls : list call) : list F :=
  flat_map (fun c => ravel (call_y c)) calls.

(** [(X_max, y_max)] is the first of the observed pairs whose label is the
    maximum of all the labels, in the order of observation; unknown and
    [-inf] while nothing was observed. *)
Definition earliest_max (pairs : list (list F * F)) (self : t) : Prop :=
  match pairs with
  | [] => get_max self = (None, NegInf)
  | _ :: _ =>
      exists i x v, nth_error pairs i = Some (x, v) /\
                    first_max_at (map snd pairs) i v /\
                    get_max self = (Some x, Val [v])
  end.

End Methods.
Arguments t F Est : clear implicits.
Arguments ymax F : clear implicits.
Arguments call F : clear implicits.
End BayesianOptimizer.

(* ===================================================================== *)
(** * Class labels *)
(* ===================================================================== *)

(** Class labels are compared for equality and sorted. *)
Class Label (L : Type) : Type := {
  lab_eqb : L -> L -> bool;
  lab_ltb : L -> L -> bool
}.

Class LabelLaws (L : Type) {lab : Label L} : Prop := {
  lab_eqb_eq : forall a b : L, lab_eqb a b = true <-> a = b;
  lab_ltb_irrefl : forall a : L, lab_ltb a a = false;
  lab_ltb_trans : forall a b c : L, lab_ltb a b = true -> lab_ltb b c = true -> lab_ltb a c = true;
  lab_ltb_total : forall a b : L, lab_ltb a b = true \/ a = b \/ lab_ltb b a = true
}.
Arguments LabelLaws L {lab}.

(** The cast NumPy applies when a label array is stored into a float64
    array; [None] for a label that has no float value. *)
Class FloatCast (F L : Type) : Type := { to_float : L -> option F }.

#[export] Instance Label_Z : Label Z := {| lab_eqb := Z.eqb; lab_ltb := Z.ltb |}.

#[export] Instance FloatCast_Z {F : Type} {num : Num F} : FloatCast F Z :=
  {| to_float := fun z => Some (of_int z) |}.

Section Labels.
Context {F L : Type} {num : Num F} {lab : Label L}.

Fixpoint insert_sorted (x : L) (l : list L) : list L :=
  match l with
  | [] => [x]
  | h :: t =>
      if lab_eqb x h then l
      else if lab_ltb x h then x :: l
      else h :: insert_sorted x t
  end.

(** The sorted union of label sets. *)
Definition sorted_union (sets : list (list L)) : list L :=
  fold_right insert_sorted [] (concat sets).

Fixpoint index_of (c : L) (known : list L) : option nat :=
  match known with
  | [] => None
  | h :: t => if lab_eqb c h then Some 0 else option_map S (index_of c t)
  end.

Definition same_label_set (a b : list L) : bool :=
  forallb (fun x => existsb (lab_eqb x) b) a && forallb (fun x => existsb (lab_eqb x) a) b.

(** One probability row scattered into the full class space: the entry for
    a class is the member's probability for it when the member knows the
    class, and 0 otherwise. *)
Definition scatter_row (known_labels all_labels : list L) (p : list F) : list F :=
  map (fun c => match index_of c known_labels with
                | Some j => nth j p fzero
                | None => fzero
                end) all_labels.

(** Modelled from the spec: [modAL.utils.validation.check_class_proba]
    (module absent): each probability row is scattered into the full class
    space; a class unknown to the member receives probability 0, a known
    class keeps its predicted probability at the position of that class in
    [all_labels]. *)
Definition check_class_proba (proba : list (list F)) (known_labels all_labels : list L)
    : list (list F) :=
  map (scatter_row known_labels all_labels) proba.

(** Modelled from the spec: [modAL.utils.validation.check_class_labels]
    (module absent): whether all members share an identical class-label set,
    order-insensitive.  It is handed the label sets of the members' models. *)
Definition check_class_labels (known : list (list L)) : bool :=
  match known with
  | [] => true
  | first :: rest => forallb (same_label_set first) rest
  end.

End Labels.

(* ===================================================================== *)
(** * Committee *)
(* ===================================================================== *)

(** A three-axis float array of shape [(n_samples, n_learners, n_classes)]. *)
Record ndarray3 (F : Type) : Type := mk_ndarray3 {
  shape3 : nat * nat * nat;
  cells : list (list (list F))
}.

Section Voting.
Context {F L : Type} {num : Num F} {cast : FloatCast F L}.

Definition cast_labels (labels : list L) : outcome (list F) :=
  omap (fun l => match to_float l with
                 | Some v => Return v
                 | None => Raise (ValueError "could not convert string to float")
                 end) labels.

(** The body shared by [Committee.vote] and [DeepCommittee.vote]:
    [prediction = np.zeros(shape=(X.shape[0], len(learner_list)))], then
    [prediction[:, learner_idx] = learner.predict(X)] for each learner. *)
Definition vote_loop {Lrn : Type} (predict : Lrn -> ndarray F -> outcome (list L))
    (learner_list : list Lrn) (X : ndarray F) : outcome (list (list F)) :=
  fold_left
    (fun acc il =>
       obind acc (fun prediction =>
       obind (predict (snd il) X) (fun labels =>
       obind (cast_labels labels) (fun col =>
       assign_column prediction (fst il) col))))
    (enumerate learner_list)
    (Return (np_zeros2 (n_rows X) (length learner_list))).

(** The float values [vote_loop] stores for one learner. *)
Definition vote_column {Lrn : Type} (predict : Lrn -> ndarray F -> outcome (list L))
    (X : ndarray F) (lrn : Lrn) : outcome (list F) :=
  obind (predict lrn X) (fun labels =>
  obind (cast_labels labels) (broadcast_to (n_rows X))).

(** [col] holds the float value of each label of [labels]. *)
Definition casts_to (labels : list L) (col : list F) : Prop :=
  Forall2 (fun l v => to_float l = Some v) labels col.

(** [V] is the vote matrix of the learners on [X]: one row per sample, one
    column per learner, and column [j] holds the float values of the labels
    the [j]-th learner predicts (one per sample, or one for all). *)
Definition float_votes_of {Lrn : Type} (predict : Lrn -> ndarray F -> outcome (list L))
    (learner_list : list Lrn) (X : ndarray F) (V : list (list F)) : Prop :=
  length V = n_rows X /\
  Forall (fun r => length r = length learner_list) V /\
  forall j lrn, nth_error learner_list j = Some lrn ->
    exists labels col col',
      predict lrn X = Return labels /\
      casts_to labels col /\
      broadcast_to (n_rows X) col = Return col' /\
      forall i, i < n_rows X ->
        exists row v, nth_error V i = Some row /\ nth_error col' i = Some v /\
                      nth_error row j = Some v.

Definition np_zeros3 (n m c : nat) : ndarray3 F :=
  {| shape3 := (n, m, c); cells := repeat (repeat (repeat fzero c) m) n |}.

(** [T[:, j, :] = m]. *)
Definition assign_slice (T : ndarray3 F) (j : nat) (m : list (list F)) : outcome (ndarray3 F) :=
  let '(n, _, c) := shape3 T in
  obind (broadcast_to n m) (fun m1 =>
  obind (omap (broadcast_to c) m1) (fun m2 =>
  Return {| shape3 := shape3 T; cells := place_at (cells T) j m2 |})).

(** The cells of a three-axis array with their shape. *)
Definition with_shape (sh : nat * nat * nat) (o : outcome (list (list (list F))))
    : outcome (ndarray3 F) :=
  match o with
  | Return c => Return {| shape3 := sh; cells := c |}
  | Raise e => Raise e
  end.

(** A two-axis block broadcast to [n] rows of [c] entries. *)
Definition broadcast_block (n c : nat) (blk : list (list F)) : outcome (list (list F)) :=
  obind (broadcast_to n blk) (fun m1 => omap (broadcast_to c) m1).

(** One turn of a loop that stores the block computed for a learner. *)
Definition slice_step {Lrn : Type} (block : Lrn -> outcome (list (list F)))
    (acc : outcome (ndarray3 F)) (il : nat * Lrn) : outcome (ndarray3 F) :=
  obind acc (fun T => obind (block (snd il)) (assign_slice T (fst il))).

(** [np.mean(T, axis=1)]. *)
Definition np_mean_axis1 (T : ndarray3 F) : list (list F) :=
  let '(_, _, c) := shape3 T in
  map (fun sample => map (fun k => np_mean (map (fun r => nth k r fzero) sample)) (seq 0 c))
      (cells T).

End Voting.

Module Committee.
Section Methods.
Context {F L Est : Type} {num : Num F} {lab : Label L} {cast : FloatCast F L}
        {E : Estimator F L Est} {C : Collaborators F L}.

Local Abbreviation learner := (ActiveLearner.t F L Est).

Record t : Type := mk {
  learner_list : list learner;
  classes_ : list L;
  n_classes_ : nat;
  X_training : option (ndarray F)
}.

Definition set_learner_list (ls : list learner) (self : t) : t :=
  {| learner_list := ls; classes_ := classes_ self;
     n_classes_ := n_classes_ self; X_training := X_training self |}.

(** [for learner in self.learner_list: body(learner)]: the learners are
    mutated in place, in order, up to the first one that raises. *)
Fixpoint each_learner (body : M learner unit) (ls : list learner) : outcome unit * list learner :=
  match ls with
  | [] => (Return tt, [])
  | l :: rest =>
      match body l with
      | (Return _, l') => let (r, rest') := each_learner body rest in (r, l' :: rest')
      | (Raise e, l') => (Raise e, l' :: rest)
      end
  end.

Definition for_learners (body : M learner unit) : M t unit :=
  zoom learner_list set_learner_list (each_learner body).

(** The labels a member knows: its model's [classes_], none before a fit. *)
Definition known_classes (l : learner) : list L :=
  match est_classes_ (ActiveLearner.estimator l) with
  | Some cs => cs
  | None => []
  end.

(** Modelled from the spec: [BaseCommittee._set_classes]
    (modAL/models/base.py is absent): [classes_] is the sorted union of every
    member's known class labels and [n_classes_] its cardinality. *)
Definition _set_classes : M t unit :=
  fun self =>
    let cs := sorted_union (map known_classes (learner_list self)) in
    (Return tt, {| learner_list := learner_list self; classes_ := cs;
                   n_classes_ := length cs; X_training := X_training self |}).

(** The constructor: [BaseCommittee.__init__] stores the learners, then
    [_set_classes] gives [classes_] and [n_classes_] their first values. *)
Definition __init__ (learners : list learner) : t :=
  let self := {| learner_list := learners; classes_ := []; n_classes_ := 0;
                 X_training := None |} in
  let self := snd (_set_classes self) in
  {| learner_list := learner_list self; classes_ := classes_ self;
     n_classes_ := n_classes_ self; X_training := None |}.

Definition _add_training_data (X : ndarray F) (y : ndarray L) : M t unit :=
  for_learners (ActiveLearner._add_training_data X y).

Definition _fit_to_known (bootstrap : bool) : M t unit :=
  for_learners (ActiveLearner._fit_to_known bootstrap).

(** Modelled from the spec: [BaseCommittee._fit_on_new]
    (modAL/models/base.py is absent): every member is fitted on the new
    batch only. *)
Definition _fit_on_new (X : ndarray F) (y : ndarray L) (bootstrap : bool) : M t unit :=
  for_learners (ActiveLearner._fit_on_new X y bootstrap).

(** [bootstrap] is the keyword that [**fit_kwargs] hands on to
    [ActiveLearner.fit]; it is [False] when the caller passes none. *)
Definition fit (X : ndarray F) (y : ndarray L) (bootstrap : bool) : M t unit :=
  for_learners (ActiveLearner.fit X y bootstrap) ;;
  _set_classes.


Definition teach (X : ndarray F) (y : ndarray L) (bootstrap only_new : bool) : M t unit :=
  _add_training_data X y ;;
  (if negb only_new then _fit_to_known bootstrap
   else _fit_on_new X y bootstrap) ;;
  _set_classes.

Definition vote (self : t) (X : ndarray F) : outcome (list (list F)) :=
  vote_loop ActiveLearner.predict (learner_list self) X.

Definition vote_proba (self : t) (X : ndarray F) : outcome (ndarray3 F) :=
  let n_samples := n_rows X in
  let n_learners := length (learner_list self) in
  let proba := np_zeros3 n_samples n_learners (n_classes_ self) in
  if check_class_labels (map known_classes (learner_list self)) then
    fold_left
      (fun acc il =>
         obind acc (fun proba =>
         obind (ActiveLearner.predict_proba (snd il) X) (fun p =>
         assign_slice proba (fst il) p)))
      (enumerate (learner_list self)) (Return proba)
  else
    fold_left
      (fun acc il =>
         obind acc (fun proba =>
         obind (ActiveLearner.predict_proba (snd il) X) (fun p =>
         match est_classes_ (ActiveLearner.estimator (snd il)) with
         | None => Raise AttributeError
         | Some known_labels =>
             assign_slice proba (fst il)
               (check_class_proba p known_labels (classes_ self))
         end)))
      (enumerate (learner_list self)) (Return proba).

(** The block [vote_proba] stores for a member when the members know
    different label sets. *)
Definition scattered_block (self : t) (X : ndarray F) (lrn : learner)
    : outcome (list (list F)) :=
  obind (ActiveLearner.predict_proba lrn X) (fun p =>
  match est_classes_ (ActiveLearner.estimator lrn) with
  | None => Raise AttributeError
  | Some known_labels => Return (check_class_proba p known_labels (classes_ self))
  end).

Definition predict_proba (self : t) (X : ndarray F) : outcome (list (list F)) :=
  obind (vote_proba self X) (fun votes => Return (np_mean_axis1 votes)).

Definition predict (self : t) (X : ndarray F) : outcome (list L) :=
  obind (predict_proba self X) (fun proba =>
  obind (omap np_argmax proba) (fun max_proba_idx =>
  omap (fun i => match nth_error (classes_ self) i with
                 | Some c => Return c
                 | None => Raise IndexError
                 end) max_proba_idx)).

(** ** Vocabulary of the statements about the members *)

(** The buffers of a member hold the batch after what they held. *)
Definition grown_by (X : ndarray F) (y : ndarray L) (l l' : learner) : Prop :=
  match ActiveLearner.X_training l with
  | None => ActiveLearner.X_training l' = Some X /\ ActiveLearner.y_training l' = Some y
  | Some X_old =>
      exists y_old, ActiveLearner.y_training l = Some y_old /\
        ActiveLearner.X_training l' = Some (appended X_old X) /\
        ActiveLearner.y_training l' = Some (appended y_old y)
  end.

(** ** Vocabulary of the statements about [classes_] *)

(** [classes_] is the sorted union of the members' label sets: it is what
    [sorted_union] computes from them, strictly increasing, free of
    repetitions, with exactly the labels some member knows, and
    [n_classes_] is its length. *)
Definition classes_are_union (self : t) : Prop :=
  classes_ self = sorted_union (map known_classes (learner_list self)) /\
  n_classes_ self = length (classes_ self) /\
  StronglySorted (fun a b => lab_ltb a b = true) (classes_ self) /\
  NoDup (classes_ self) /\
  (forall l, In l (classes_ self) <->
             exists m, In m (learner_list self) /\ In l (known_classes m)).

End Methods.
Arguments t F L Est : clear implicits.
End Committee.

(* ===================================================================== *)
(** * DeepActiveLearner and DeepCommittee *)
(* ===================================================================== *)

Module DeepActiveLearner.
Section Methods.
Context {F L Est : Type} {E : Estimator F L Est}.

(** Data is no member of this class: the object is its model. *)
Record t : Type := mk { estimator : Est }.

(** Modelled from the spec: [BaseLearner.predict] (modAL/models/base.py is
    absent): a member's prediction is its model's. *)
Definition predict (self : t) (X : ndarray F) : outcome (list L) :=
  est_predict (estimator self) X.

End Methods.
Arguments t Est : clear implicits.

Section Fitting.
Context {F L Est : Type} {E : Estimator F L Est} {C : Collaborators F L}.

(** [self.estimator.fit(X, y)]. *)
Definition estimator_fit (X : option (ndarray F)) (y : option (ndarray L)) : M (t Est) unit :=
  fun self => let (r, e) := est_fit X y (estimator self) in (r, {| estimator := e |}).

(** Modelled from the spec: [BaseLearner._fit_on_new] (modAL/models/base.py
    is absent): a fit restricted to only the new batch, on a bootstrap
    resample of the batch when asked. *)
Definition _fit_on_new (X : ndarray F) (y : ndarray L) (bootstrap : bool) : M (t Est) unit :=
  if negb bootstrap then estimator_fit (Some X) (Some y)
  else
    let bootstrap_idx := np_random_choice (n_rows X) in
    estimator_fit (Some (take_rows X bootstrap_idx)) (Some (take_rows y bootstrap_idx)).

Definition fit (X : ndarray F) (y : ndarray L) (bootstrap : bool) : M (t Est) unit :=
  _fit_on_new X y bootstrap.

(** Modelled from the spec: [BaseLearner.predict_proba]
    (modAL/models/base.py is absent): a member's probabilities are its
    model's. *)
Definition predict_proba (self : t Est) (X : ndarray F) : outcome (list (list F)) :=
  est_predict_proba (estimator self) X.

End Fitting.
End DeepActiveLearner.

Module DeepCommittee.
Section Methods.
Context {F L Est : Type} {num : Num F} {cast : FloatCast F L} {E : Estimator F L Est}.

Record t : Type := mk {
  learner_list : list (DeepActiveLearner.t Est);
  classes_ : list L;
  n_classes_ : nat
}.

Definition vote (self : t) (X : ndarray F) : outcome (list (list F)) :=
  vote_loop DeepActiveLearner.predict (learner_list self) X.

End Methods.
Arguments t L Est : clear implicits.

Section Training.
Context {F L Est : Type} {num : Num F} {lab : Label L} {cast : FloatCast F L}
        {E : Estimator F L Est} {C : Collaborators F L}.

Local Abbreviation learner := (DeepActiveLearner.t Est).

(** [for learner in self.learner_list: body(learner)]. *)
Fixpoint each_learner (body : M learner unit) (ls : list learner) : outcome unit * list learner :=
  match ls with
  | [] => (Return tt, [])
  | l :: rest =>
      match body l with
      | (Return _, l') => let (r, rest') := each_learner body rest in (r, l' :: rest')
      | (Raise e, l') => (Raise e, l' :: rest)
      end
  end.

Definition for_learners (body : M learner unit) : M (t L Est) unit :=
  fun self =>
    let (r, ls) := each_learner body (learner_list self) in
    (r, {| learner_list := ls; classes_ := classes_ self; n_classes_ := n_classes_ self |}).

(** The labels a member knows: its model's [classes_], none before a fit. *)
Definition known_classes (l : learner) : list L :=
  match est_classes_ (DeepActiveLearner.estimator l) with
  | Some cs => cs
  | None => []
  end.

(** Modelled from the spec: [BaseCommittee._set_classes]
    (modAL/models/base.py is absent): [classes_] is the sorted union of every
    member's known class labels and [n_classes_] its cardinality. *)
Definition _set_classes : M (t L Est) unit :=
  fun self =>
    let cs := sorted_union (map known_classes (learner_list self)) in
    (Return tt, {| learner_list := learner_list self; classes_ := cs;
                   n_classes_ := length cs |}).

Definition __init__ (learners : list learner) : t L Est :=
  snd (_set_classes {| learner_list := learners; classes_ := []; n_classes_ := 0 |}).

(** Modelled from the spec: [BaseCommittee._fit_on_new]
    (modAL/models/base.py is absent): every member is fitted on the new
    batch only. *)
Definition _fit_on_new (X : ndarray F) (y : ndarray L) (bootstrap : bool) : M (t L Est) unit :=
  for_learners (DeepActiveLearner._fit_on_new X y bootstrap).

(** [bootstrap] is the keyword that [**fit_kwargs] hands on to
    [DeepActiveLearner.fit]; it is [False] when the caller passes none. *)
Definition fit (X : ndarray F) (y : ndarray L) (bootstrap : bool) : M (t L Est) unit :=
  for_learners (DeepActiveLearner.fit X y bootstrap) ;;
  _set_classes.

Definition teach (X : ndarray F) (y : ndarray L) (bootstrap : bool) : M (t L Est) unit :=
  _fit_on_new X y bootstrap ;;
  _set_classes.

Definition vote_proba (self : t L Est) (X : ndarray F) : outcome (ndarray3 F) :=
  let n_samples := n_rows X in
  let n_learners := length (learner_list self) in
  let proba := np_zeros3 n_samples n_learners (n_classes_ self) in
  if check_class_labels (map known_classes (learner_list self)) then
    fold_left
      (fun acc il =>
         obind acc (fun proba =>
         obind (DeepActiveLearner.predict_proba (snd il) X) (fun p =>
         assign_slice proba (fst il) p)))
      (enumerate (learner_list self)) (Return proba)
  else
    fold_left
      (fun acc il =>
         obind acc (fun proba =>
         obind (DeepActiveLearner.predict_proba (snd il) X) (fun p =>
         match est_classes_ (DeepActiveLearner.estimator (snd il)) with
         | None => Raise AttributeError
         | Some known_labels =>
             assign_slice proba (fst il)
               (check_class_proba p known_labels (classes_ self))
         end)))
      (enumerate (learner_list self)) (Return proba).

Definition predict_proba (self : t L Est) (X : ndarray F) : outcome (list (list F)) :=
  obind (vote_proba self X) (fun votes => Return (np_mean_axis1 votes)).

Definition predict (self : t L Est) (X : ndarray F) : outcome (list L) :=
  obind (predict_proba self X) (fun proba =>
  obind (omap np_argmax proba) (fun max_proba_idx =>
  omap (fun i => match nth_error (classes_ self) i with
                 | Some c => Return c
                 | None => Raise IndexError
                 end) max_proba_idx)).

(** [classes_] is the sorted union of the members' label sets and
    [n_classes_] its length. *)
Definition classes_are_union (self : t L Est) : Prop :=
  classes_ self = sorted_union (map known_classes (learner_list self)) /\
  n_classes_ self = length (classes_ self) /\
  StronglySorted (fun a b => lab_ltb a b = true) (classes_ self) /\
  NoDup (classes_ self) /\
  (forall l, In l (classes_ self) <->
             exists m, In m (learner_list self) /\ In l (known_classes m)).

(** A committee of batch learners and a committee of deep learners built
    on the same models, with the same classes. *)
Definition same_models (c : Committee.t F L Est) (d : t L Est) : Prop :=
  map ActiveLearner.estimator (Committee.learner_list c)
    = map DeepActiveLearner.estimator (learner_list d) /\
  Committee.classes_ c = classes_ d /\
  Committee.n_classes_ c = n_classes_ d.

End Training.
End DeepCommittee.

(* ===================================================================== *)
(** * CommitteeRegressor *)
(* ===================================================================== *)

Module CommitteeRegressor.
Section Methods.
Context {F Est : Type} {num : Num F} {sq : NumSqrt F}
        {E : Estimator F F Est} {C : Collaborators F F}.

Record t : Type := mk { learner_list : list (ActiveLearner.t F F Est) }.

(** What [predict] returns: the mean alone, or the pair with the standard
    deviation when [return_std] is set. *)
Inductive prediction : Type :=
| Mean (mean : list F)
| MeanStd (mean std : list F).

(** [prediction[:, learner_idx] = learner.predict(X).reshape(-1, )]. *)
Definition vote (self : t) (X : ndarray F) : outcome (list (list F)) :=
  fold_left
    (fun acc il =>
       obind acc (fun prediction =>
       obind (ActiveLearner.predict (snd il) X) (fun values =>
       assign_column prediction (fst il) values)))
    (enumerate (learner_list self))
    (Return (np_zeros2 (n_rows X) (length (learner_list self)))).

(** The values [vote] stores for one regressor. *)
Definition regressor_column (X : ndarray F) (lrn : ActiveLearner.t F F Est)
    : outcome (list F) :=
  obind (ActiveLearner.predict lrn X) (broadcast_to (n_rows X)).

Definition predict (self : t) (X : ndarray F) (return_std : bool) : outcome prediction :=
  obind (vote self X) (fun vote =>
  if negb return_std then Return (Mean (map np_mean_contiguous vote))
  else Return (MeanStd (map np_mean_contiguous vote) (map np_std vote))).

(** ** Vocabulary of the statements about [vote] *)

(** [V] is the vote matrix of the regressors on [X]: one row per sample, one
    column per regressor, column [j] holding what regressor [j] predicts. *)
Definition votes_of (self : t) (X : ndarray F) (V : list (list F)) : Prop :=
  length V = n_rows X /\
  Forall (fun r => length r = length (learner_list self)) V /\
  forall j lrn, nth_error (learner_list self) j = Some lrn ->
    exists values col,
      ActiveLearner.predict lrn X = Return values /\
      broadcast_to (n_rows X) values = Return col /\
      forall i, i < n_rows X ->
        exists row v, nth_error V i = Some row /\ nth_error col i = Some v /\
                      nth_error row j = Some v.

End Methods.
Arguments t F Est : clear implicits.
Arguments prediction F : clear implicits.
End CommitteeRegressor.

(* ===================================================================== *)
(** * Sample models and data *)
(* ===================================================================== *)

Module Samples.

(** A classifier that predicts the class frequencies of its training labels
    for every sample, and the first most frequent class as the label. *)
Record PriorClassifier (L : Type) : Type := { prior_labels : option (list L) }.

(** A regressor that predicts the mean of its training targets. *)
Record MeanRegressor (F : Type) : Type := { mean_targets : option (list F) }.

Section Models.
Context {F L : Type} {num : Num F} {lab : Label L}.

Definition count_label (c : L) (ys : list L) : nat := length (filter (lab_eqb c) ys).

Definition prior_proba (ys : list L) : list F :=
  map (fun c => fdiv (of_nat (count_label c ys)) (of_nat (length ys)))
      (sorted_union [ys]).

#[global] Instance Estimator_Prior : Estimator F L (PriorClassifier L) := {|
  est_fit := fun _ y e =>
    match y with
    | Some y => (Return tt, {| prior_labels := Some (ravel y) |})
    | None => (Raise (ValueError "This classifier requires y to be passed"), e)
    end;
  est_predict := fun e X =>
    match prior_labels e with
    | None => Raise EstimatorError
    | Some ys =>
        obind (np_argmax (prior_proba ys)) (fun i =>
        match nth_error (sorted_union [ys]) i with
        | Some c => Return (repeat c (n_rows X))
        | None => Raise IndexError
        end)
    end;
  est_predict_proba := fun e X =>
    match prior_labels e with
    | None => Raise EstimatorError
    | Some ys => Return (repeat (prior_proba ys) (n_rows X))
    end;
  est_classes_ := fun e => option_map (fun ys => sorted_union [ys]) (prior_labels e)
|}.

#[global] Instance Estimator_Mean : Estimator F F (MeanRegressor F) := {|
  est_fit := fun _ y e =>
    match y with
    | Some y => (Return tt, {| mean_targets := Some (ravel y) |})
    | None => (Raise (ValueError "This regressor requires y to be passed"), e)
    end;
  est_predict := fun e X =>
    match mean_targets e with
    | None => Raise EstimatorError
    | Some ys => Return (repeat (np_mean ys) (n_rows X))
    end;
  est_predict_proba := fun _ _ => Raise AttributeError;
  est_classes_ := fun _ => None
|}.

(** At least one sample is asked for; the bootstrap draw is a fixed one. *)
#[global] Instance Collaborators_sample {A B : Type} : Collaborators A B := {|
  checking_policy := fun _ X _ => negb (Nat.eqb (n_rows X) 0);
  np_random_choice := fun n => repeat 0 n
|}.

End Models.

(** Species names: labels that are not numbers. *)
Inductive species : Type := setosa | versicolor | virginica.

Definition species_rank (s : species) : nat :=
  match s with setosa => 0 | versicolor => 1 | virginica => 2 end.

#[global] Instance Label_species : Label species := {|
  lab_eqb := fun a b => Nat.eqb (species_rank a) (species_rank b);
  lab_ltb := fun a b => Nat.ltb (species_rank a) (species_rank b)
|}.

#[global] Instance FloatCast_species {F : Type} : FloatCast F species :=
  {| to_float := fun _ => None |}.

Definition unfitted_regressor {F : Type} : MeanRegressor F := {| mean_targets := None |}.

(** ** A learner and batches to teach it *)

(** A learner over rationals that has seen one two-column sample with a
    scalar label. *)
Definition learner0 : ActiveLearner.t Q Z (PriorClassifier Z) :=
  {| ActiveLearner.estimator := {| prior_labels := Some [0%Z] |};
     ActiveLearner.X_training := Some (matrix 2 [[1%Q; 2%Q]]);
     ActiveLearner.y_training := Some (vector [0%Z]);
     ActiveLearner.force_all_finite := true |}.

Definition X_one : ndarray Q := matrix 2 [[3%Q; 4%Q]].
Definition X_two : ndarray Q := matrix 2 [[3%Q; 4%Q]; [5%Q; 6%Q]].
Definition y_one : ndarray Z := vector [1%Z].
(** The same label as a one-row, one-column block, [y.reshape(1, -1)]. *)
Definition y_one_column : ndarray Z := matrix 1 [[1%Z]].

(** ** An optimizer and single-sample calls *)

(** An optimizer over rationals built without data, and single-sample
    [teach] calls: the sample at [x] has the value [v]. *)
Definition optimizer0 : BayesianOptimizer.t Q (MeanRegressor Q) :=
  {| BayesianOptimizer.base :=
       {| ActiveLearner.estimator := unfitted_regressor;
          ActiveLearner.X_training := None;
          ActiveLearner.y_training := None;
          ActiveLearner.force_all_finite := true |};
     BayesianOptimizer.X_max := None;
     BayesianOptimizer.y_max := BayesianOptimizer.NegInf |}.

Definition point (xv : Q * Q) : BayesianOptimizer.call Q :=
  BayesianOptimizer.mk_call (matrix 1 [[fst xv]]) (vector [snd xv]) false false.

Definition points_3_1_5_2 : list (Q * Q) :=
  [(30%Q, 3%Q); (10%Q, 1%Q); (50%Q, 5%Q); (20%Q, 2%Q)].

(** ** Committees of classifiers *)

(** A member fitted on the labels [ys], one one-column sample per label. *)
Definition fitted_member {F L : Type} {num : Num F} (ys : list L)
    : ActiveLearner.t F L (PriorClassifier L) :=
  {| ActiveLearner.estimator := {| prior_labels := Some ys |};
     ActiveLearner.X_training := Some (matrix 1 (map (fun _ => [fzero]) ys));
     ActiveLearner.y_training := Some (vector ys);
     ActiveLearner.force_all_finite := true |}.

(** Two members over binary64 floats: one has seen the classes 0 and 1
    (three times 0, seven times 1), the other the classes 1 and 2. *)
Definition member_01 : ActiveLearner.t float Z (PriorClassifier Z) :=
  fitted_member [0; 1; 1; 0; 1; 1; 1; 0; 1; 1]%Z.

Definition member_12 : ActiveLearner.t float Z (PriorClassifier Z) :=
  fitted_member [2; 1; 2; 2]%Z.

Definition committee_012 : Committee.t float Z (PriorClassifier Z) :=
  Committee.__init__ [member_01; member_12].

Definition pool : ndarray float := matrix 1 [[1%float]; [2%float]].

(** What the two members vote on the two samples of [pool]: the binary64
    values of 0.3 and 0.7 for the first member, 0.25 and 0.75 for the
    second. *)
Definition votes_012 : ndarray3 float :=
  {| shape3 := (2, 2, 3);
     cells := repeat [[(3 / 10)%float; (7 / 10)%float; 0%float];
                      [0%float; (1 / 4)%float; (3 / 4)%float]] 2 |}.

(** The same two members over the rationals. *)
Definition committee_012_Q : Committee.t Q Z (PriorClassifier Z) :=
  Committee.__init__
    [fitted_member [0; 1; 1; 0; 1; 1; 1; 0; 1; 1]%Z; fitted_member [2; 1; 2; 2]%Z].

Definition pool_Q : ndarray Q := matrix 1 [[1%Q]; [2%Q]].

(** A committee whose only member predicts a species name. *)
Definition member_species : ActiveLearner.t float species (PriorClassifier species) :=
  fitted_member [versicolor].

Definition committee_species : Committee.t float species (PriorClassifier species) :=
  Committee.__init__ [member_species].

Definition deep_committee_012 : DeepCommittee.t Z (PriorClassifier Z) :=
  {| DeepCommittee.learner_list :=
       [{| DeepActiveLearner.estimator := ActiveLearner.estimator member_01 |};
        {| DeepActiveLearner.estimator := ActiveLearner.estimator member_12 |}];
     DeepCommittee.classes_ := [0; 1; 2]%Z;
     DeepCommittee.n_classes_ := 3 |}.

(** ** Committees of regressors *)

Definition regressor_member (ys : list float)
    : ActiveLearner.t float float (MeanRegressor float) :=
  {| ActiveLearner.estimator := {| mean_targets := Some ys |};
     ActiveLearner.X_training := Some (matrix 1 (map (fun _ => [0%float]) ys));
     ActiveLearner.y_training := Some (vector ys);
     ActiveLearner.force_all_finite := true |}.

(** The binary64 value of 0.1. *)
Definition tenth : float := (1 / 10)%float.

(** Three regressors that each predict [tenth], and two that each predict
    0.5. *)
Definition regressors_tenth : CommitteeRegressor.t float (MeanRegressor float) :=
  {| CommitteeRegressor.learner_list :=
       [regressor_member [tenth]; regressor_member [tenth]; regressor_member [tenth]] |}.

Definition regressors_half : CommitteeRegressor.t float (MeanRegressor float) :=
  {| CommitteeRegressor.learner_list :=
       [regressor_member [0.5%float]; regressor_member [0.5%float]] |}.

(** ** Further learners, batches and calls *)

Definition y_two : ndarray Z := vector [1%Z; 0%Z].

(** A learner built without data. *)
Definition empty_learner : ActiveLearner.t Q Z (PriorClassifier Z) :=
  {| ActiveLearner.estimator := {| prior_labels := None |};
     ActiveLearner.X_training := None;
     ActiveLearner.y_training := None;
     ActiveLearner.force_all_finite := true |}.

(** Three calls: a plain one, one with [only_new], one with [bootstrap]. *)
Definition lessons : list (ActiveLearner.call Q Z) :=
  [ActiveLearner.mk_call X_one y_one false false;
   ActiveLearner.mk_call X_two y_two false true;
   ActiveLearner.mk_call X_two y_two true false].

(** Labels for the two samples of [pool] and [pool_Q]. *)
Definition y_pool : ndarray Z := vector [0%Z; 2%Z].

(** A committee whose second member holds two-column samples, so that the
    one-column samples of [pool_Q] cannot be added to it. *)
Definition committee_mixed_Q : Committee.t Q Z (PriorClassifier Z) :=
  Committee.__init__ [fitted_member [0; 1]%Z; learner0].

(** Two members that know the same two classes. *)
Definition committee_01 : Committee.t float Z (PriorClassifier Z) :=
  Committee.__init__ [member_01; fitted_member [1; 0; 1; 1]%Z].

(** A committee with a member that was never fitted. *)
Definition unfitted_member : ActiveLearner.t float Z (PriorClassifier Z) :=
  {| ActiveLearner.estimator := {| prior_labels := None |};
     ActiveLearner.X_training := None;
     ActiveLearner.y_training := None;
     ActiveLearner.force_all_finite := true |}.

Definition committee_unfitted : Committee.t float Z (PriorClassifier Z) :=
  Committee.__init__ [member_01; unfitted_member].

(** Calls on an optimizer in which the maximum 5 is observed twice, first
    at 10 and then at 50. *)
Definition points_3_5_5_2 : list (Q * Q) :=
  [(30%Q, 3%Q); (10%Q, 5%Q); (50%Q, 5%Q); (20%Q, 2%Q)].

(** One sample with two outputs. *)
Definition y_two_outputs : ndarray Q := matrix 2 [[1%Q; 2%Q]].

End Samples.

(* ===================================================================== *)
(** * Validation *)
(* ===================================================================== *)

Unset Implicit Arguments.

Ltac run_py :=
  repeat (unfold bind, get, put, lift, ret, raise, zoom, try_except_ValueError in *;
          cbn [negb fst snd] in *).

Lemma check_X_y_rows_differ {A B : Type} (policy : bool -> ndarray A -> ndarray B -> bool)
    (faf : bool) (X : ndarray A) (y : ndarray B) :
  n_rows X <> n_rows y ->
  check_X_y policy faf X y =
    Raise (ValueError "Found input variables with inconsistent numbers of samples").
Proof.
  intros Hne. unfold check_X_y.
  destruct (Nat.eqb_spec (n_rows X) (n_rows y)) as [Heq | _]; [contradiction | reflexivity].
Qed.

Lemma check_X_y_passes {A B : Type} (policy : bool -> ndarray A -> ndarray B -> bool)
    (faf : bool) (X : ndarray A) (y : ndarray B) :
  check_X_y policy faf X y = Return tt ->
  n_rows X = n_rows y /\ policy faf X y = true.
Proof.
  unfold check_X_y.
  destruct (Nat.eqb_spec (n_rows X) (n_rows y)) as [Heq | Hne]; cbn; [| discriminate].
  destruct (policy faf X y); [auto | discriminate].
Qed.

Lemma check_X_y_raises_ValueError {A B : Type} (policy : bool -> ndarray A -> ndarray B -> bool)
    (faf : bool) (X : ndarray A) (y : ndarray B) (e : exn) :
  check_X_y policy faf X y = Raise e -> exists msg, e = ValueError msg.
Proof.
  unfold check_X_y.
  destruct (negb (Nat.eqb (n_rows X) (n_rows y))); [intros [= <-]; eauto |].
  destruct (policy faf X y); [discriminate | intros [= <-]; eauto].
Qed.

(* ===================================================================== *)
(** * ActiveLearner: the training buffer *)
(* ===================================================================== *)

Section ActiveLearnerFacts.
Context {F L Est : Type} {E : Estimator F L Est} {C : Collaborators F L}.
Import ActiveLearner.

Local Abbreviation learner := (ActiveLearner.t F L Est).

(** A model fit touches the model only. *)
Lemma estimator_fit_frame (X : option (ndarray F)) (y : option (ndarray L))
    (self : learner) :
  X_training (snd (estimator_fit X y self)) = X_training self /\
  y_training (snd (estimator_fit X y self)) = y_training self /\
  force_all_finite (snd (estimator_fit X y self)) = force_all_finite self.
Proof.
  unfold estimator_fit, zoom. destruct (est_fit X y (estimator self)); cbn; auto.
Qed.

Lemma _fit_to_known_frame (bootstrap : bool) (self : learner) :
  X_training (snd (_fit_to_known bootstrap self)) = X_training self /\
  y_training (snd (_fit_to_known bootstrap self)) = y_training self.
Proof.
  unfold _fit_to_known. run_py.
  destruct bootstrap; cbn [negb].
  - destruct (X_training self) eqn:HX; [| cbn; auto].
    destruct (y_training self) eqn:Hy; [| cbn; auto].
    match goal with
    | |- context [estimator_fit ?a ?b self] =>
        destruct (estimator_fit_frame a b self) as (H1 & H2 & _);
        rewrite H1, H2; auto
    end.
  - destruct (estimator_fit_frame (X_training self) (y_training self) self)
      as (H1 & H2 & _); auto.
Qed.

Lemma _fit_on_new_frame (X : ndarray F) (y : ndarray L) (bootstrap : bool) (self : learner) :
  X_training (snd (_fit_on_new X y bootstrap self)) = X_training self /\
  y_training (snd (_fit_on_new X y bootstrap self)) = y_training self.
Proof.
  unfold _fit_on_new. destruct bootstrap; cbn;
    match goal with
    | |- context [estimator_fit ?a ?b self] =>
        destruct (estimator_fit_frame a b self) as (H1 & H2 & _); auto
    end.
Qed.

(** A call rejected by [check_X_y] leaves the whole learner as it was,
    whichever of [fit] and [teach] was called. *)
Lemma rejected_call_keeps_learner (X : ndarray F) (y : ndarray L)
    (bootstrap only_new : bool) (self : learner) (e : exn) :
  check_X_y checking_policy (force_all_finite self) X y = Raise e ->
  fit X y bootstrap self = (Raise e, self) /\
  teach X y bootstrap only_new self = (Raise e, self).
Proof.
  intros Hc. unfold fit, teach, _add_training_data.
  destruct only_new; run_py; rewrite Hc; auto.
Qed.

(** New samples whose shape disagrees with the buffered samples are refused
    before anything is written. *)
Lemma teach_sample_shape_mismatch_keeps_learner (X X_old : ndarray F) (y : ndarray L)
    (bootstrap : bool) (self : learner) :
  check_X_y checking_policy (force_all_finite self) X y = Return tt ->
  X_training self = Some X_old ->
  inner_shape X_old <> inner_shape X ->
  exists msg, teach X y bootstrap false self = (Raise (ValueError msg), self).
Proof.
  intros Hc HX Hne. unfold teach, _add_training_data. run_py.
  rewrite Hc, HX. unfold data_vstack.
  destruct (list_eq_dec Nat.eq_dec (inner_shape X_old) (inner_shape X)); [contradiction |].
  cbn. eauto.
Qed.

(** New labels whose shape disagrees with the buffered labels, on samples
    that do stack: the call raises after [X_training] was assigned the
    stack, and [y_training] keeps the old labels. *)
Lemma teach_label_shape_mismatch_grows_samples (X X_old : ndarray F) (y y_old : ndarray L)
    (bootstrap : bool) (self : learner) :
  check_X_y checking_policy (force_all_finite self) X y = Return tt ->
  X_training self = Some X_old ->
  y_training self = Some y_old ->
  inner_shape X_old = inner_shape X ->
  inner_shape y_old <> inner_shape y ->
  exists msg self',
    teach X y bootstrap false self = (Raise (ValueError msg), self') /\
    X_training self' = Some (appended X_old X) /\
    y_training self' = Some y_old.
Proof.
  intros Hc HX Hy HsX Hsy. unfold teach, _add_training_data. run_py.
  rewrite Hc, HX. unfold data_vstack.
  destruct (list_eq_dec Nat.eq_dec (inner_shape X_old) (inner_shape X)); [| contradiction].
  cbn. rewrite Hy.
  destruct (list_eq_dec Nat.eq_dec (inner_shape y_old) (inner_shape y)); [contradiction |].
  cbn. eauto.
Qed.

(** C8: [fit(X, y)] validates first and then replaces the accumulated
    training data: once the check passes, [X_training] is [X] and
    [y_training] is [y] whatever the buffer held before; when the row counts
    of [X] and [y] differ the call raises a [ValueError] and the learner,
    its buffer included, is the one before the call. *)
Theorem fit_replaces_training_data (X : ndarray F) (y : ndarray L) (bootstrap : bool)
    (self : learner) :
  (check_X_y checking_policy (force_all_finite self) X y = Return tt ->
   X_training (snd (fit X y bootstrap self)) = Some X /\
   y_training (snd (fit X y bootstrap self)) = Some y) /\
  (n_rows X <> n_rows y ->
   exists msg, fit X y bootstrap self = (Raise (ValueError msg), self)).
Proof.
  split.
  - intros Hc. unfold fit. run_py. rewrite Hc. unfold set_X_training, set_y_training. cbn.
    destruct bootstrap; cbn [negb];
      match goal with
      | |- context [estimator_fit ?a ?b ?s] =>
          destruct (estimator_fit_frame a b s) as (H1 & H2 & _); rewrite H1, H2; auto
      end.
  - intros Hne.
    pose proof (check_X_y_rows_differ checking_policy (force_all_finite self) X y Hne) as Hc.
    eexists. apply (rejected_call_keeps_learner X y bootstrap false self _ Hc).
Qed.

(** C7: [teach(X, y, only_new=True)] leaves [X_training] and [y_training]
    as they were, and for a valid batch it is one fit of the model on the
    new batch alone (on the bootstrap resample of the batch when asked). *)
Theorem teach_only_new_keeps_buffer (X : ndarray F) (y : ndarray L) (bootstrap : bool)
    (self : learner) :
  X_training (snd (teach X y bootstrap true self)) = X_training self /\
  y_training (snd (teach X y bootstrap true self)) = y_training self /\
  (check_X_y checking_policy (force_all_finite self) X y = Return tt ->
   teach X y bootstrap true self =
     if bootstrap
     then estimator_fit (Some (take_rows X (np_random_choice (n_rows X))))
                        (Some (take_rows y (np_random_choice (n_rows X)))) self
     else estimator_fit (Some X) (Some y) self).
Proof.
  unfold teach. run_py.
  destruct (check_X_y checking_policy (force_all_finite self) X y) eqn:Hc; cbn.
  - destruct (_fit_on_new_frame X y bootstrap self) as [H1 H2].
    repeat split; auto.
    intros _. unfold _fit_on_new. destruct bootstrap; reflexivity.
  - repeat split; auto. discriminate.
Qed.

Lemma data_vstack_returns {A : Type} (a b c : ndarray A) :
  data_vstack a b = Return c -> inner_shape a = inner_shape b /\ c = appended a b.
Proof.
  unfold data_vstack.
  destruct (list_eq_dec Nat.eq_dec (inner_shape a) (inner_shape b)); [| discriminate].
  intros [= <-]. auto.
Qed.

(** What a successful [_add_training_data] has done: the check passed, the
    model is untouched and both buffers hold the new rows after the old. *)
Lemma _add_training_data_returns (X : ndarray F) (y : ndarray L) (self self' : learner) :
  _add_training_data X y self = (Return tt, self') ->
  check_X_y checking_policy (force_all_finite self) X y = Return tt /\
  estimator self' = estimator self /\
  force_all_finite self' = force_all_finite self /\
  match X_training self with
  | None => X_training self' = Some X /\ y_training self' = Some y
  | Some X_old =>
      exists y_old, y_training self = Some y_old /\
        X_training self' = Some (appended X_old X) /\
        y_training self' = Some (appended y_old y)
  end.
Proof.
  unfold _add_training_data. run_py.
  destruct (check_X_y checking_policy (force_all_finite self) X y) as [[] | e] eqn:Hc;
    [| discriminate].
  destruct (X_training self) as [X_old |] eqn:HX.
  - destruct (data_vstack X_old X) as [X_new | e] eqn:HvX; cbn.
    + destruct (y_training self) as [y_old |] eqn:Hy; cbn; [| discriminate].
      destruct (data_vstack y_old y) as [y_new | e] eqn:Hvy; cbn.
      * intros [= <-]. cbn.
        apply data_vstack_returns in HvX, Hvy. destruct HvX as [_ ->], Hvy as [_ ->].
        repeat split; eauto.
      * destruct e; discriminate.
    + destruct e; discriminate.
  - cbn. intros [= <-]. cbn. auto.
Qed.

End ActiveLearnerFacts.

(** The learner [Samples.learner0] holds one sample and a label vector; it
    is taught one more sample whose label comes as a one-column block.  The
    row counts agree, the samples stack, the labels do not. *)
Lemma teach_label_shape_mismatch_run :
  ActiveLearner.teach Samples.X_one Samples.y_one_column false false Samples.learner0 =
  (Raise (ValueError
     "the dimensions of the new training data and label mustagree with the training data and labels provided so far"),
   {| ActiveLearner.estimator := ActiveLearner.estimator Samples.learner0;
      ActiveLearner.X_training := Some (matrix 2 [[1%Q; 2%Q]; [3%Q; 4%Q]]);
      ActiveLearner.y_training := Some (vector [0%Z]);
      ActiveLearner.force_all_finite := true |}).
Proof. reflexivity. Qed.

(** C1 (the code departs from it): the failed [teach] above raised the
    dimension-mismatch [ValueError] and yet [X_training] has grown by the
    new row while [y_training] has not: the buffers are not the ones before
    the call, and they no longer have the same number of rows. *)
Theorem teach_failure_mutates_buffer :
  let before := Samples.learner0 in
  let r := ActiveLearner.teach Samples.X_one Samples.y_one_column false false before in
  check_X_y checking_policy true Samples.X_one Samples.y_one_column = Return tt /\
  (exists msg, fst r = Raise (ValueError msg)) /\
  ActiveLearner.X_training (snd r) <> ActiveLearner.X_training before /\
  ActiveLearner.y_training (snd r) = ActiveLearner.y_training before /\
  option_map n_rows (ActiveLearner.X_training (snd r)) = Some 2 /\
  option_map n_rows (ActiveLearner.y_training (snd r)) = Some 1.
Proof.
  cbv zeta. rewrite teach_label_shape_mismatch_run. cbn.
  repeat split; try reflexivity.
  - eauto.
  - discriminate.
Qed.

Lemma fit_replaces_training_data_witness :
  (ActiveLearner.X_training
     (snd (ActiveLearner.fit Samples.X_two (vector [1%Z; 0%Z]) false Samples.learner0))
     = Some Samples.X_two /\
   ActiveLearner.y_training
     (snd (ActiveLearner.fit Samples.X_two (vector [1%Z; 0%Z]) false Samples.learner0))
     = Some (vector [1%Z; 0%Z])) /\
  (exists msg,
     ActiveLearner.fit Samples.X_two Samples.y_one false Samples.learner0
     = (Raise (ValueError msg), Samples.learner0)).
Proof.
  split.
  - apply (proj1 (fit_replaces_training_data Samples.X_two (vector [1%Z; 0%Z]) false
                    Samples.learner0)).
    reflexivity.
  - apply (proj2 (fit_replaces_training_data Samples.X_two Samples.y_one false
                    Samples.learner0)).
    cbn. lia.
Defined.

Lemma teach_only_new_keeps_buffer_witness :
  ActiveLearner.X_training
    (snd (ActiveLearner.teach Samples.X_two (vector [1%Z; 0%Z]) false true Samples.learner0))
    = Some (matrix 2 [[1%Q; 2%Q]]) /\
  ActiveLearner.teach Samples.X_two (vector [1%Z; 0%Z]) false true Samples.learner0
    = ActiveLearner.estimator_fit (Some Samples.X_two) (Some (vector [1%Z; 0%Z]))
        Samples.learner0.
Proof.
  pose proof (teach_only_new_keeps_buffer Samples.X_two (vector [1%Z; 0%Z]) false
                Samples.learner0) as (HX & _ & Hfit).
  split; [exact HX | apply Hfit; reflexivity].
Defined.

(* ===================================================================== *)
(** * np.argmax *)
(* ===================================================================== *)

Section ArgMax.
Context {F : Type} {num : Num F} {ord : NumOrder F}.

Lemma argmax_from_first_max (t p : list F) (best : F) (bi : nat) :
  first_max_at p bi best ->
  exists m, first_max_at (p ++ t) (argmax_from best bi (length p) t) m.
Proof.
  revert p best bi. induction t as [| x t IH]; intros p best bi (Hnth & Hmax & Hfirst).
  - cbn. rewrite app_nil_r. exists best. repeat split; assumption.
  - cbn [argmax_from].
    assert (Hlen : length (p ++ [x]) = S (length p))
      by (rewrite length_app; cbn; lia).
    replace (p ++ x :: t) with ((p ++ [x]) ++ t) by (rewrite <- app_assoc; reflexivity).
    rewrite <- Hlen.
    destruct (fltb best x) eqn:Hbx; apply IH; repeat split.
    + rewrite nth_error_app2 by lia. rewrite Nat.sub_diag. reflexivity.
    + intros v Hin. apply in_app_or in Hin. destruct Hin as [Hin | [<- | []]].
      * destruct (fltb x v) eqn:Hxv; [| reflexivity].
        specialize (Hmax v Hin). rewrite (fltb_trans _ _ _ Hbx Hxv) in Hmax. discriminate.
      * apply fltb_irrefl.
    + intros j w Hj Hw. rewrite nth_error_app1 in Hw by lia.
      destruct (fltb w x) eqn:Hwx; [reflexivity |].
      assert (Hbw : fltb best w = false) by (apply Hmax; eapply nth_error_In; eauto).
      rewrite (fltb_negtrans _ _ _ Hbw Hwx) in Hbx. discriminate.
    + rewrite nth_error_app1 by (apply nth_error_Some; congruence). assumption.
    + intros v Hin. apply in_app_or in Hin. destruct Hin as [Hin | [<- | []]]; auto.
    + intros j w Hj Hw.
      assert (j < length p) by (apply Nat.lt_trans with bi; [assumption |];
                                apply nth_error_Some; congruence).
      rewrite nth_error_app1 in Hw by assumption. eauto.
Qed.

Lemma np_argmax_first_max (l : list F) (i : nat) :
  np_argmax l = Return i -> exists m, first_max_at l i m.
Proof.
  destruct l as [| x t]; cbn; [discriminate |].
  intros [= <-].
  apply (argmax_from_first_max t [x] x 0).
  repeat split.
  - intros v [<- | []]. apply fltb_irrefl.
  - intros j w Hj. lia.
Qed.

Lemma np_argmax_nonempty (x : F) (t : list F) : exists i, np_argmax (x :: t) = Return i.
Proof. cbn. eauto. Qed.

End ArgMax.

(* ===================================================================== *)
(** * BayesianOptimizer: the running maximum *)
(* ===================================================================== *)

Lemma scalar_rows_ravel {A : Type} (rs : list (list A)) :
  Forall (fun r => length r = 1) rs ->
  forall i r, nth_error rs i = Some r ->
  exists v, r = [v] /\ nth_error (concat rs) i = Some v.
Proof.
  induction 1 as [| r0 rs Hr0 _ IH]; intros i r Hi.
  - destruct i; discriminate.
  - destruct r0 as [| v0 [| ? ?]]; try discriminate.
    destruct i as [| i]; cbn in *.
    + injection Hi as <-. eauto.
    + apply IH. assumption.
Qed.

Lemma nth_error_combine_In {A B : Type} (a : list A) (b : list B) (i : nat) (x : A) (y : B) :
  nth_error a i = Some x -> nth_error b i = Some y -> In (x, y) (combine a b).
Proof.
  revert b i. induction a as [| a0 a IH]; intros b i Ha Hb.
  - destruct i; discriminate.
  - destruct b as [| b0 b]; [destruct i; discriminate |].
    destruct i as [| i]; cbn in *.
    + injection Ha as <-. injection Hb as <-. auto.
    + right. eapply IH; eauto.
Qed.

Section BayesianOptimizerFacts.
Context {F Est : Type} {num : Num F} {E : Estimator F F Est} {C : Collaborators F F}.
Import BayesianOptimizer.

Local Abbreviation optimizer := (BayesianOptimizer.t F Est).

(** What a successful [_set_max] has done: it looked at the new batch and
    at the current [y_max] only. *)
Lemma _set_max_returns (X y : ndarray F) (self self' : optimizer) :
  _set_max X y self = (Return tt, self') ->
  base self' = base self /\
  exists max_idx y_row greater,
    np_argmax (ravel y) = Return max_idx /\
    retrieve_rows y max_idx = Return y_row /\
    gt_truth y_row (y_max self) = Return greater /\
    if greater
    then exists x_row, retrieve_rows X max_idx = Return x_row /\
                       get_max self' = (Some x_row, Val y_row)
    else get_max self' = get_max self.
Proof.
  unfold _set_max. run_py.
  destruct (np_argmax (ravel y)) as [max_idx | e] eqn:Hi; [| discriminate].
  destruct (retrieve_rows y max_idx) as [y_row | e] eqn:Hy; [| discriminate].
  destruct (gt_truth y_row (y_max self)) as [greater | e] eqn:Hg; [| discriminate].
  destruct greater; cbn.
  - destruct (retrieve_rows X max_idx) as [x_row | e] eqn:Hx; cbn; [| discriminate].
    intros [= <-]. cbn. split; [reflexivity |].
    exists max_idx, y_row, true. rewrite Hx. repeat split; eauto.
  - intros [= <-]. split; [reflexivity |].
    exists max_idx, y_row, false. repeat split; auto.
Qed.

(** The three steps of a successful [teach], in their order. *)
Lemma teach_returns (X y : ndarray F) (bootstrap only_new : bool) (self self' : optimizer) :
  teach X y bootstrap only_new self = (Return tt, self') ->
  exists b1 b2,
    ActiveLearner._add_training_data X y (base self) = (Return tt, b1) /\
    (if only_new then ActiveLearner._fit_on_new X y bootstrap b1
     else ActiveLearner._fit_to_known bootstrap b1) = (Return tt, b2) /\
    _set_max X y (set_base b2 self) = (Return tt, self').
Proof.
  unfold teach, inherited. run_py.
  destruct (ActiveLearner._add_training_data X y (base self)) as [[[] | e] b1] eqn:Ha;
    [| discriminate].
  intros H. exists b1.
  destruct only_new; cbn [negb] in H;
    change (base (set_base b1 self)) with b1 in H.
  - destruct (ActiveLearner._fit_on_new X y bootstrap b1) as [[[] | e] b2] eqn:Hf;
      [| discriminate].
    exists b2. auto.
  - destruct (ActiveLearner._fit_to_known bootstrap b1) as [[[] | e] b2] eqn:Hf;
      [| discriminate].
    exists b2. auto.
Qed.


Lemma running_max_intro (pairs : list (list F * F)) (labels : list F) (self : optimizer)
    (x : list F) (v : F) :
  In (x, v) pairs ->
  In v labels ->
  get_max self = (Some x, Val [v]) ->
  (forall w, In w labels -> fltb v w = false) ->
  running_max pairs labels self.
Proof.
  intros Hin Hv Hget Hmax. destruct labels as [| w labels]; [destruct Hv |].
  cbn. exists x, v. auto.
Qed.

Context {ord : NumOrder F}.

(** The entry [_set_max] reads off a batch of scalar labels is a label of
    the batch that no label of the batch exceeds. *)
Lemma batch_maximum (y : ndarray F) (max_idx : nat) (y_row : list F) :
  scalar_labels y ->
  np_argmax (ravel y) = Return max_idx ->
  retrieve_rows y max_idx = Return y_row ->
  exists v, y_row = [v] /\ nth_error (ravel y) max_idx = Some v /\
            forall w, In w (ravel y) -> fltb v w = false.
Proof.
  intros Hsc Hi Hy.
  apply np_argmax_first_max in Hi. destruct Hi as (m & Hnth & Hmax & _).
  unfold retrieve_rows in Hy.
  destruct (nth_error (rows y) max_idx) as [r |] eqn:Hr; [| discriminate].
  injection Hy as ->.
  destruct (scalar_rows_ravel (rows y) Hsc max_idx y_row Hr) as (v & -> & Hv).
  unfold ravel in *. rewrite Hv in Hnth. injection Hnth as ->.
  exists m. auto.
Qed.

(** One successful [teach] extends the history by its batch. *)
Lemma teach_running_max (pairs : list (list F * F)) (labels : list F) (X y : ndarray F)
    (bootstrap only_new : bool) (self self' : optimizer) :
  running_max pairs labels self ->
  scalar_labels y ->
  teach X y bootstrap only_new self = (Return tt, self') ->
  running_max (pairs ++ observed X y) (labels ++ ravel y) self'.
Proof.
  intros Hinv Hsc Ht.
  apply teach_returns in Ht. destruct Ht as (b1 & b2 & _ & _ & Hset).
  apply _set_max_returns in Hset.
  destruct Hset as (_ & max_idx & y_row & greater & Hi & Hy & Hg & Hres).
  destruct (batch_maximum y max_idx y_row Hsc Hi Hy) as (v & -> & Hv & Hvmax).
  change (y_max (set_base b2 self)) with (y_max self) in Hg.
  change (get_max (set_base b2 self)) with (get_max self) in Hres.
  assert (Hpair : forall x_row, retrieve_rows X max_idx = Return x_row ->
                                In (x_row, v) (pairs ++ observed X y)).
  { intros x_row Hx. apply in_or_app. right. unfold retrieve_rows in Hx.
    destruct (nth_error (rows X) max_idx) as [r |] eqn:Hr; [| discriminate].
    injection Hx as ->. eapply nth_error_combine_In; eauto. }
  assert (Hvin : In v (labels ++ ravel y))
    by (apply in_or_app; right; eapply nth_error_In; eauto).
  destruct labels as [| w0 labels].
  - cbn in Hinv. injection Hinv as HX Hymax. rewrite Hymax in Hg. cbn in Hg.
    injection Hg as <-. destruct Hres as (x_row & Hx & Hget).
    apply running_max_intro with (x := x_row) (v := v); auto.
  - destruct Hinv as (x0 & v0 & Hin0 & Hv0 & Hget0 & Hmax0).
    injection Hget0 as HX0 Hy0. rewrite Hy0 in Hg. cbn in Hg. injection Hg as <-.
    destruct (fltb v0 v) eqn:Hlt.
    + destruct Hres as (x_row & Hx & Hget).
      apply running_max_intro with (x := x_row) (v := v); auto.
      intros w Hin. apply in_app_or in Hin. destruct Hin as [Hin | Hin]; auto.
      destruct (fltb v w) eqn:Hvw; [| reflexivity].
      rewrite <- (Hmax0 w Hin). symmetry. eapply fltb_trans; eauto.
    + apply running_max_intro with (x := x0) (v := v0).
      * apply in_or_app. left. exact Hin0.
      * apply in_or_app. left. exact Hv0.
      * rewrite Hres. unfold get_max. rewrite HX0, Hy0. reflexivity.
      * intros w Hin. apply in_app_or in Hin. destruct Hin as [Hin | Hin]; auto.
        eapply fltb_negtrans; eauto.
Qed.

Lemma teach_all_running_max (calls : list (call F)) (pairs : list (list F * F))
    (labels : list F) (self self' : optimizer) :
  running_max pairs labels self ->
  Forall (fun c => scalar_labels (call_y c)) calls ->
  teach_all calls self = (Return tt, self') ->
  running_max (pairs ++ history_of calls) (labels ++ labels_of calls) self'.
Proof.
  revert pairs labels self.
  induction calls as [| c calls IH]; intros pairs labels self Hinv Hsc Hrun.
  - cbn in Hrun. injection Hrun as <-. cbn. rewrite !app_nil_r. exact Hinv.
  - unfold teach_all in Hrun. cbn [for_each] in Hrun. unfold bind in Hrun.
    destruct (teach (call_X c) (call_y c) (call_bootstrap c) (call_only_new c) self)
      as [[[] | e] s1] eqn:Ht; [| discriminate].
    inversion Hsc as [| ? ? Hc Hcs]; subst.
    cbn [history_of labels_of flat_map]. rewrite !app_assoc.
    apply (IH _ _ s1); auto.
    eapply teach_running_max; eauto.
Qed.

(** An optimizer built on initial data starts from the maximum of that
    data. *)
Lemma init_running_max (est : Est) (faf bootstrap_init : bool) (X0 y0 : ndarray F)
    (self : optimizer) :
  scalar_labels y0 ->
  __init__ est faf (Some X0) (Some y0) bootstrap_init = Return self ->
  running_max (observed X0 y0) (ravel y0) self.
Proof.
  intros Hsc. unfold __init__, ActiveLearner.__init__.
  match goal with
  | |- context [ActiveLearner._fit_to_known ?b ?s] =>
      pose proof (_fit_to_known_frame b s) as [HfX Hfy];
      destruct (ActiveLearner._fit_to_known b s) as [[[] | e] b1]
  end; cbn [obind]; [| discriminate].
  cbn in HfX, Hfy. rewrite HfX, Hfy.
  destruct (np_argmax (ravel y0)) as [max_idx | e] eqn:Hi; cbn [obind]; [| discriminate].
  destruct (retrieve_rows X0 max_idx) as [x_row | e] eqn:Hx; cbn [obind]; [| discriminate].
  destruct (retrieve_rows y0 max_idx) as [y_row | e] eqn:Hy; cbn [obind]; [| discriminate].
  intros [= <-].
  destruct (batch_maximum y0 max_idx y_row Hsc Hi Hy) as (v & -> & Hv & Hvmax).
  apply running_max_intro with (x := x_row) (v := v); auto.
  - unfold retrieve_rows in Hx.
    destruct (nth_error (rows X0) max_idx) as [r |] eqn:Hr; [| discriminate].
    injection Hx as ->. eapply nth_error_combine_In; eauto.
  - eapply nth_error_In; eauto.
Qed.

(** [teach] replaces the maximum only by a strictly greater label. *)
Lemma teach_replaces_only_by_greater (X y : ndarray F) (bootstrap only_new : bool)
    (self self' : optimizer) :
  teach X y bootstrap only_new self = (Return tt, self') ->
  get_max self' = get_max self \/
  exists x_new y_new, get_max self' = (Some x_new, Val y_new) /\
                      gt_truth y_new (y_max self) = Return true.
Proof.
  intros Ht. apply teach_returns in Ht. destruct Ht as (b1 & b2 & _ & _ & Hset).
  apply _set_max_returns in Hset.
  destruct Hset as (_ & max_idx & y_row & greater & _ & _ & Hg & Hres).
  destruct greater.
  - right. destruct Hres as (x_row & _ & Hget). eauto.
  - left. exact Hres.
Qed.

(** C2: [y_max] starts at minus infinity with [X_max] unknown when the
    optimizer is built without data; after any sequence of [teach] calls that
    returned, [(X_max, y_max)] is a sample observed in the initial data or in
    one of the calls together with its label, and no label of the initial
    data or of any call exceeds that label; and a single [teach] replaces the
    pair only when the new label is strictly greater than the running
    maximum. *)
Theorem y_max_is_maximum_observed (est : Est) (faf bootstrap_init : bool)
    (init : option (ndarray F * ndarray F)) (calls : list (call F))
    (self0 self : optimizer) :
  __init__ est faf (option_map fst init) (option_map snd init) bootstrap_init = Return self0 ->
  (forall X0 y0, init = Some (X0, y0) -> scalar_labels y0) ->
  Forall (fun c => scalar_labels (call_y c)) calls ->
  teach_all calls self0 = (Return tt, self) ->
  (init = None -> get_max self0 = (None, NegInf)) /\
  running_max
    (match init with
     | Some (X0, y0) => observed X0 y0
     | None => []
     end ++ history_of calls)
    (match init with
     | Some (_, y0) => ravel y0
     | None => []
     end ++ labels_of calls) self /\
  (forall X y bootstrap only_new s s',
     teach X y bootstrap only_new s = (Return tt, s') ->
     get_max s' = get_max s \/
     exists x_new y_new, get_max s' = (Some x_new, Val y_new) /\
                         gt_truth y_new (y_max s) = Return true).
Proof.
  intros Hinit Hsc0 Hsc Hrun.
  assert (Hstart : running_max
                     (match init with
                      | Some (X0, y0) => observed X0 y0
                      | None => []
                      end)
                     (match init with
                      | Some (_, y0) => ravel y0
                      | None => []
                      end) self0).
  { destruct init as [[X0 y0] |]; cbn in Hinit.
    - eapply init_running_max; eauto.
    - injection Hinit as <-. reflexivity. }
  repeat split.
  - intros ->. exact Hstart.
  - eapply teach_all_running_max; eauto.
  - intros X y bootstrap only_new s s'. apply teach_replaces_only_by_greater.
Qed.

End BayesianOptimizerFacts.

(** ** The rationals are ordered as the statements ask *)

Lemma Qltb_lt (x y : Q) : Qltb x y = true <-> (x < y)%Q.
Proof.
  unfold Qltb. rewrite negb_true_iff, <- not_true_iff_false, Qle_bool_iff.
  split; [apply Qnot_le_lt | apply Qlt_not_le].
Qed.

Lemma Qltb_ge (x y : Q) : Qltb x y = false <-> (y <= x)%Q.
Proof. unfold Qltb. rewrite negb_false_iff. apply Qle_bool_iff. Qed.

#[global] Instance NumOrder_Q : NumOrder Q.
Proof.
  split; cbn [fltb Num_Q].
  - intros x. apply Qltb_ge. apply Qle_refl.
  - intros x y z Hxy Hyz. rewrite Qltb_lt in *. eapply Qlt_trans; eauto.
  - intros x y z Hxy Hyz. rewrite Qltb_ge in *. eapply Qle_trans; eauto.
Defined.

(** ** Binary64 entries are ordered as the statements ask, NaN included *)

Lemma np_less_spec (a b : float) : np_less a b = sf_less (Prim2SF a) (Prim2SF b).
Proof.
  unfold np_less, sf_less, PrimFloat.is_nan.
  rewrite FloatAxioms.eqb_spec, FloatAxioms.leb_spec, negb_involutive. reflexivity.
Qed.

Lemma compare_cont_Eq (m1 m2 : positive) :
  PosDef.Pos.compare_cont Eq m1 m2 = (Z.pos m1 ?= Z.pos m2)%Z.
Proof. reflexivity. Qed.

Lemma sf_less_rank (a b : spec_float) :
  sf_less a b = true <-> lex_lt (sf_rank a) (sf_rank b).
Proof.
  unfold sf_less, SFeqb, SFleb.
  destruct a as [[|] | [|] | | [|] m1 e1], b as [[|] | [|] | | [|] m2 e2];
    cbn [SFcompare sf_rank lex_lt andb negb];
    rewrite ?Z.compare_refl, ?compare_cont_Eq, ?Z.compare_refl;
    cbn [CompOpp andb negb];
    try (split; [discriminate | lia]);
    try (split; [lia | reflexivity]);
    try (destruct (Z.compare_spec e2 e1);
         try destruct (Z.compare_spec (Z.pos m2) (Z.pos m1));
         cbn [CompOpp andb negb];
         (split; [try discriminate; lia | try reflexivity; lia])).
Qed.

Lemma sf_less_false (a b : spec_float) :
  sf_less a b = false <-> ~ lex_lt (sf_rank a) (sf_rank b).
Proof.
  rewrite <- sf_less_rank. destruct (sf_less a b); split; congruence.
Qed.

#[global] Instance NumOrder_float : NumOrder float.
Proof.
  split; cbn [fltb Num_float].
  - intros x. rewrite np_less_spec. apply sf_less_false.
    destruct (sf_rank (Prim2SF x)) as [[a b] c]. cbn. lia.
  - intros x y z. rewrite !np_less_spec, !sf_less_rank.
    destruct (sf_rank (Prim2SF x)) as [[a b] c], (sf_rank (Prim2SF y)) as [[a1 b1] c1],
      (sf_rank (Prim2SF z)) as [[a2 b2] c2]. cbn. lia.
  - intros x y z. rewrite !np_less_spec, !sf_less_false.
    destruct (sf_rank (Prim2SF x)) as [[a b] c], (sf_rank (Prim2SF y)) as [[a1 b1] c1],
      (sf_rank (Prim2SF z)) as [[a2 b2] c2]. cbn. lia.
Qed.

(** The first NaN of a row is its arg-max, as for [np.argmax]. *)
Lemma np_argmax_first_nan :
  np_argmax [1%float; nan; 2%float; nan] = Return 1 /\
  np_argmax [nan; 1%float] = Return 0 /\
  np_argmax [1%float; 3%float; 3%float; 2%float] = Return 1.
Proof. split; [| split]; reflexivity. Qed.

(** The statements about the first maximum hold of rows with NaN. *)
Lemma first_max_of_a_row_with_nan :
  exists m, first_max_at [1%float; nan; 2%float; nan] 1 m.
Proof. apply np_argmax_first_max. reflexivity. Qed.

(** The integer cast at the ends of the int64 and uint64 ranges. *)
Lemma float_of_Z_at_the_ends :
  float_of_Z (- 2 ^ 63) = (-9223372036854775808)%float /\
  float_of_Z (2 ^ 64 - 1) = 18446744073709551616%float /\
  float_of_Z (2 ^ 53 + 1) = 9007199254740992%float /\
  float_of_Z 0 = 0%float.
Proof. split; [| split; [| split]]; reflexivity. Qed.

Lemma y_max_is_maximum_observed_witness :
  let calls := map Samples.point Samples.points_3_1_5_2 in
  let final := snd (BayesianOptimizer.teach_all calls Samples.optimizer0) in
  (None = @None (ndarray Q * ndarray Q) ->
   BayesianOptimizer.get_max Samples.optimizer0 = (None, BayesianOptimizer.NegInf)) /\
  BayesianOptimizer.running_max ([] ++ BayesianOptimizer.history_of calls)
    ([] ++ BayesianOptimizer.labels_of calls) final /\
  (forall (X y : ndarray Q) bootstrap only_new
          (s s' : BayesianOptimizer.t Q (Samples.MeanRegressor Q)),
     BayesianOptimizer.teach X y bootstrap only_new s = (Return tt, s') ->
     BayesianOptimizer.get_max s' = BayesianOptimizer.get_max s \/
     exists x_new y_new,
       BayesianOptimizer.get_max s' = (Some x_new, BayesianOptimizer.Val y_new) /\
       BayesianOptimizer.gt_truth y_new (BayesianOptimizer.y_max s) = Return true).
Proof.
  cbv zeta.
  apply (y_max_is_maximum_observed Samples.unfitted_regressor true false None
           (map Samples.point Samples.points_3_1_5_2) Samples.optimizer0).
  - reflexivity.
  - intros X0 y0 H. discriminate H.
  - repeat constructor.
  - reflexivity.
Defined.


(** The run of the spec's example: values 3, 1, 5, 2 taught one sample at a
    time leave the sample that carries 5, and 5. *)
Lemma get_max_after_3_1_5_2 :
  BayesianOptimizer.teach_all (map Samples.point Samples.points_3_1_5_2) Samples.optimizer0
    = (Return tt,
       snd (BayesianOptimizer.teach_all (map Samples.point Samples.points_3_1_5_2)
              Samples.optimizer0)) /\
  BayesianOptimizer.get_max
    (snd (BayesianOptimizer.teach_all (map Samples.point Samples.points_3_1_5_2)
            Samples.optimizer0))
    = (Some [50%Q], BayesianOptimizer.Val [5%Q]).
Proof. split; reflexivity. Qed.

Lemma history_of_points (order : list (Q * Q)) :
  BayesianOptimizer.history_of (map Samples.point order)
    = map (fun xv => ([fst xv], snd xv)) order /\
  BayesianOptimizer.labels_of (map Samples.point order) = map snd order.
Proof.
  unfold BayesianOptimizer.history_of, BayesianOptimizer.labels_of.
  induction order as [| xv order [IH1 IH2]]; [split; reflexivity |].
  cbn [map flat_map]. rewrite IH1, IH2. split; reflexivity.
Qed.

(** The same in any order of the four calls: whenever the four calls
    return, [get_max] is the sample carrying 5 and the value 5. *)
Lemma get_max_3_1_5_2_any_order (order : list (Q * Q))
    (final : BayesianOptimizer.t Q (Samples.MeanRegressor Q)) :
  Permutation Samples.points_3_1_5_2 order ->
  BayesianOptimizer.teach_all (map Samples.point order) Samples.optimizer0
    = (Return tt, final) ->
  BayesianOptimizer.get_max final = (Some [50%Q], BayesianOptimizer.Val [5%Q]).
Proof.
  intros Hperm Hrun.
  assert (Hinv : BayesianOptimizer.running_max
                   ([] ++ BayesianOptimizer.history_of (map Samples.point order))
                   ([] ++ BayesianOptimizer.labels_of (map Samples.point order)) final).
  { apply (teach_all_running_max (map Samples.point order) [] [] Samples.optimizer0 final);
      [reflexivity | | exact Hrun].
    apply Forall_forall. intros c Hc. apply in_map_iff in Hc.
    destruct Hc as (xv & <- & _). repeat constructor. }
  cbn [app] in Hinv. destruct (history_of_points order) as [H1 H2].
  rewrite H1, H2 in Hinv. clear H1 H2.
  assert (H5 : In (50%Q, 5%Q) order)
    by (eapply Permutation_in; [exact Hperm | cbn; auto]).
  assert (H5' : In 5%Q (map snd order)) by (apply (in_map snd) in H5; exact H5).
  unfold BayesianOptimizer.running_max in Hinv.
  destruct (map snd order) as [| w ws] eqn:Hlabels; [destruct H5' |].
  rewrite <- Hlabels in *. clear Hlabels w ws.
  destruct Hinv as (x & v & Hin & _ & Hget & Hmax).
  assert (Hv5 : fltb v 5%Q = false) by (apply Hmax; exact H5').
  apply in_map_iff in Hin. destruct Hin as ([x1 v1] & [= <- <-] & Hin).
  apply (Permutation_in _ (Permutation_sym Hperm)) in Hin.
  cbn in Hin.
  destruct Hin as [[= <- <-] | [[= <- <-] | [[= <- <-] | [[= <- <-] | []]]]];
    try (cbn in Hv5; discriminate Hv5).
  exact Hget.
Qed.

(* ===================================================================== *)
(** * Filling an array one learner at a time *)
(* ===================================================================== *)

Section Filling.
Context {A : Type}.

Lemma set_nth_length (r : list A) (j : nat) (x : A) : length (set_nth r j x) = length r.
Proof.
  revert j. induction r as [| h t IH]; intros [| j]; cbn; auto.
Qed.

Lemma nth_error_set_nth_same (r : list A) (j : nat) (x : A) :
  j < length r -> nth_error (set_nth r j x) j = Some x.
Proof.
  revert j. induction r as [| h t IH]; intros [| j] Hj; cbn in *; try lia; auto.
  apply IH. lia.
Qed.

Lemma nth_error_set_nth_other (r : list A) (j k : nat) (x : A) :
  j <> k -> nth_error (set_nth r j x) k = nth_error r k.
Proof.
  revert j k. induction r as [| h t IH]; intros [| j] [| k] Hjk; cbn; auto; try lia.
Qed.

Lemma place_at_length (P : list (list A)) (j : nat) (vals : list A) :
  length vals = length P -> length (place_at P j vals) = length P.
Proof.
  intros H. unfold place_at. rewrite length_map, length_combine. lia.
Qed.

Lemma nth_error_place_at (P : list (list A)) (j : nat) (vals : list A) (i : nat) :
  nth_error (place_at P j vals) i =
  match nth_error P i, nth_error vals i with
  | Some r, Some v => Some (set_nth r j v)
  | _, _ => None
  end.
Proof.
  unfold place_at. revert vals i.
  induction P as [| r P IH]; intros vals i.
  - destruct i; reflexivity.
  - destruct vals as [| v vals]; cbn.
    + destruct i; cbn; [reflexivity |]. destruct (nth_error P i); reflexivity.
    + destruct i; cbn; [reflexivity | apply IH].
Qed.

Lemma place_at_widths (P : list (list A)) (j : nat) (vals : list A) (m : nat) :
  Forall (fun r => length r = m) P -> Forall (fun r => length r = m) (place_at P j vals).
Proof.
  intros HP. apply Forall_forall. intros r Hr.
  apply In_nth_error in Hr. destruct Hr as [i Hi].
  rewrite nth_error_place_at in Hi.
  destruct (nth_error P i) as [r0 |] eqn:Hr0; [| discriminate].
  destruct (nth_error vals i); [| discriminate].
  injection Hi as <-. rewrite set_nth_length.
  rewrite Forall_forall in HP. apply HP. eapply nth_error_In; eauto.
Qed.

Lemma broadcast_to_length (n : nat) (v v' : list A) :
  broadcast_to n v = Return v' -> length v' = n.
Proof.
  unfold broadcast_to. destruct (Nat.eqb_spec (length v) n) as [Heq | Hne].
  - intros [= <-]. exact Heq.
  - destruct v as [| x [| ? ?]]; try discriminate.
    intros [= <-]. apply repeat_length.
Qed.

Lemma broadcast_to_same (n : nat) (v : list A) :
  length v = n -> broadcast_to n v = Return v.
Proof.
  intros H. unfold broadcast_to. rewrite H, Nat.eqb_refl. reflexivity.
Qed.

Lemma fill_after_raise {Lrn : Type} (column_of : Lrn -> outcome (list A))
    (l : list (nat * Lrn)) (e : exn) :
  fold_left (fill_step column_of) l (Raise e) = Raise e.
Proof. induction l as [| il l IH]; cbn; auto. Qed.

(** After the loop, position [s + j] of every row holds the value computed
    for the [j]-th learner, and the positions before [s] are untouched. *)
Lemma fill_spec {Lrn : Type} (column_of : Lrn -> outcome (list A)) (n m : nat) :
  (forall lrn vals, column_of lrn = Return vals -> length vals = n) ->
  forall (ls : list Lrn) (s : nat) (P P' : list (list A)),
    length P = n ->
    Forall (fun r => length r = m) P ->
    s + length ls <= m ->
    fold_left (fill_step column_of) (enumerate_from s ls) (Return P) = Return P' ->
    length P' = n /\
    Forall (fun r => length r = m) P' /\
    (forall j lrn, nth_error ls j = Some lrn ->
       exists vals, column_of lrn = Return vals /\
         forall i, i < n ->
           exists row' v, nth_error P' i = Some row' /\ nth_error vals i = Some v /\
                          nth_error row' (s + j) = Some v) /\
    (forall i k row, k < s -> nth_error P i = Some row ->
       exists row', nth_error P' i = Some row' /\ nth_error row' k = nth_error row k).
Proof.
  intros Hcol. induction ls as [| lrn ls IH]; intros s P P' Hlen Hw Hs Hfold.
  - cbn in Hfold. injection Hfold as <-. repeat split; auto.
    + intros j lrn Hj. destruct j; discriminate.
    + intros i k row _ Hi. eauto.
  - cbn [enumerate_from fold_left] in Hfold. cbn [length] in Hs.
    unfold fill_step at 2 in Hfold. cbn [obind fst snd] in Hfold.
    destruct (column_of lrn) as [vals | e] eqn:Hvals; cbn [obind] in Hfold;
      [| rewrite fill_after_raise in Hfold; discriminate].
    pose proof (Hcol lrn vals Hvals) as Hvlen.
    assert (Hlen1 : length (place_at P s vals) = n)
      by (rewrite place_at_length; congruence).
    destruct (IH (S s) (place_at P s vals) P' Hlen1 (place_at_widths P s vals m Hw)
                ltac:(lia) Hfold) as (HlenP' & HwP' & Hcols & Hkeep).
    repeat split; auto.
    + intros [| j] lrn' Hj; cbn in Hj.
      * injection Hj as <-. exists vals. split; [assumption |].
        intros i Hi.
        destruct (nth_error P i) as [r |] eqn:Hr;
          [| apply nth_error_None in Hr; lia].
        destruct (nth_error vals i) as [v |] eqn:Hv;
          [| apply nth_error_None in Hv; lia].
        destruct (Hkeep i s (set_nth r s v) ltac:(lia)) as (row' & Hrow' & Heq).
        { rewrite nth_error_place_at, Hr, Hv. reflexivity. }
        exists row', v. repeat split; auto.
        rewrite Nat.add_0_r, Heq. apply nth_error_set_nth_same.
        rewrite Forall_forall in Hw. rewrite (Hw r); [lia |].
        eapply nth_error_In; eauto.
      * destruct (Hcols j lrn' Hj) as (vals' & Hv' & Hall).
        exists vals'. split; [assumption |].
        intros i Hi. destruct (Hall i Hi) as (row' & v & H1 & H2 & H3).
        exists row', v. repeat split; auto.
        replace (s + S j) with (S s + j) by lia. assumption.
    + intros i k row Hk Hi.
      destruct (nth_error vals i) as [v |] eqn:Hv.
      * destruct (Hkeep i k (set_nth row s v) ltac:(lia)) as (row' & Hrow' & Heq).
        { rewrite nth_error_place_at, Hi, Hv. reflexivity. }
        exists row'. split; [assumption |].
        rewrite Heq. apply nth_error_set_nth_other. lia.
      * apply nth_error_None in Hv.
        assert (i < length P) by (apply nth_error_Some; congruence). lia.
Qed.

(** A learner whose values cannot be computed makes the loop raise. *)
Lemma fill_raises {Lrn : Type} (column_of : Lrn -> outcome (list A))
    (ls : list Lrn) (s : nat) (P : list (list A)) (lrn : Lrn) (e : exn) :
  In lrn ls -> column_of lrn = Raise e ->
  exists e', fold_left (fill_step column_of) (enumerate_from s ls) (Return P) = Raise e'.
Proof.
  revert s P. induction ls as [| l0 ls IH]; intros s P Hin He; [destruct Hin |].
  cbn [enumerate_from fold_left]. unfold fill_step at 2. cbn [obind fst snd].
  destruct (column_of l0) as [vals | e0] eqn:H0; cbn [obind].
  - destruct Hin as [-> | Hin]; [congruence |]. apply IH; assumption.
  - rewrite fill_after_raise. eauto.
Qed.

End Filling.

(* ===================================================================== *)
(** * vote: a float matrix *)
(* ===================================================================== *)

Section VoteFacts.
Context {F L : Type} {num : Num F} {cast : FloatCast F L}.

Lemma cast_labels_returns (labels : list L) (col : list F) :
  cast_labels labels = Return col -> casts_to labels col.
Proof.
  unfold cast_labels, casts_to. revert col.
  induction labels as [| l labels IH]; intros col; cbn.
  - intros [= <-]. constructor.
  - destruct (to_float l) as [v |] eqn:Hv; cbn; [| discriminate].
    destruct (omap _ labels) as [vs | e]; cbn; [| discriminate].
    intros [= <-]. constructor; auto.
Qed.

Lemma cast_labels_raises (labels : list L) (l : L) :
  In l labels -> to_float l = None -> exists e, cast_labels labels = Raise e.
Proof.
  unfold cast_labels. induction labels as [| l0 labels IH]; intros Hin Hl; [destruct Hin |].
  cbn. destruct (to_float l0) as [v |] eqn:Hv; cbn; [| eauto].
  destruct Hin as [-> | Hin]; [congruence |].
  destruct (IH Hin Hl) as [e He]. rewrite He. cbn. eauto.
Qed.

Lemma vote_loop_fill_from {Lrn : Type} (predict : Lrn -> ndarray F -> outcome (list L))
    (X : ndarray F) (ls : list Lrn) (s : nat) (acc : outcome (list (list F))) :
  (forall P, acc = Return P -> length P = n_rows X) ->
  fold_left
    (fun acc il =>
       obind acc (fun prediction =>
       obind (predict (snd il) X) (fun labels =>
       obind (cast_labels labels) (fun col =>
       assign_column prediction (fst il) col))))
    (enumerate_from s ls) acc
  = fold_left (fill_step (vote_column predict X)) (enumerate_from s ls) acc.
Proof.
  revert s acc. induction ls as [| lrn ls IH]; intros s acc Hacc; [reflexivity |].
  cbn [enumerate_from fold_left]. rewrite IH.
  - f_equal. unfold fill_step, vote_column, assign_column. cbn [fst snd].
    destruct acc as [P | e]; cbn [obind]; [| reflexivity].
    rewrite (Hacc P eq_refl).
    destruct (predict lrn X) as [labels | e]; cbn [obind]; [| reflexivity].
    destruct (cast_labels labels) as [col | e]; cbn [obind]; reflexivity.
  - intros P' HP'. unfold assign_column in HP'.
    destruct acc as [P | e]; cbn [obind fst snd] in HP'; [| discriminate].
    destruct (predict lrn X) as [labels | e]; cbn [obind] in HP'; [| discriminate].
    destruct (cast_labels labels) as [col | e]; cbn [obind] in HP'; [| discriminate].
    destruct (broadcast_to (length P) col) as [col' | e] eqn:Hb; cbn [obind] in HP';
      [| discriminate].
    injection HP' as <-. apply broadcast_to_length in Hb.
    rewrite place_at_length; [apply Hacc; reflexivity | assumption].
Qed.

Lemma np_zeros2_shape (n m : nat) :
  length (np_zeros2 (F := F) n m) = n /\
  Forall (fun r => length r = m) (np_zeros2 (F := F) n m).
Proof.
  unfold np_zeros2. split; [apply repeat_length |].
  apply Forall_forall. intros r Hr. apply repeat_spec in Hr. subst. apply repeat_length.
Qed.

Lemma vote_loop_is_fill {Lrn : Type} (predict : Lrn -> ndarray F -> outcome (list L))
    (ls : list Lrn) (X : ndarray F) :
  vote_loop predict ls X
  = fold_left (fill_step (vote_column predict X)) (enumerate ls)
      (Return (np_zeros2 (n_rows X) (length ls))).
Proof.
  unfold vote_loop, enumerate. apply vote_loop_fill_from.
  intros P [= <-]. apply np_zeros2_shape.
Qed.

Lemma vote_column_length {Lrn : Type} (predict : Lrn -> ndarray F -> outcome (list L))
    (X : ndarray F) (lrn : Lrn) (vals : list F) :
  vote_column predict X lrn = Return vals -> length vals = n_rows X.
Proof.
  unfold vote_column.
  destruct (predict lrn X) as [labels | e]; cbn [obind]; [| discriminate].
  destruct (cast_labels labels) as [col | e]; cbn [obind]; [| discriminate].
  apply broadcast_to_length.
Qed.

(** What [vote_loop] returns is the float matrix of the learners' votes. *)
Lemma vote_loop_returns {Lrn : Type} (predict : Lrn -> ndarray F -> outcome (list L))
    (ls : list Lrn) (X : ndarray F) (V : list (list F)) :
  vote_loop predict ls X = Return V -> float_votes_of predict ls X V.
Proof.
  rewrite vote_loop_is_fill. unfold enumerate. intros HV.
  destruct (np_zeros2_shape (n_rows X) (length ls)) as [Hn Hm].
  destruct (fill_spec (vote_column predict X) (n_rows X) (length ls)
              (vote_column_length predict X) ls 0 _ V Hn Hm ltac:(lia) HV)
    as (HlenV & HwV & Hcols & _).
  repeat split; auto.
  intros j lrn Hj. destruct (Hcols j lrn Hj) as (vals & Hvals & Hall).
  unfold vote_column in Hvals.
  destruct (predict lrn X) as [labels | e]; cbn [obind] in Hvals; [| discriminate].
  destruct (cast_labels labels) as [col | e] eqn:Hcast; cbn [obind] in Hvals;
    [| discriminate].
  exists labels, col, vals. repeat split; auto using cast_labels_returns.
Qed.

(** A predicted label without a float value makes [vote_loop] raise. *)
Lemma vote_loop_raises {Lrn : Type} (predict : Lrn -> ndarray F -> outcome (list L))
    (ls : list Lrn) (X : ndarray F) (lrn : Lrn) (labels : list L) (l : L) :
  In lrn ls -> predict lrn X = Return labels -> In l labels -> to_float l = None ->
  exists e, vote_loop predict ls X = Raise e.
Proof.
  intros Hin Hp Hl Hnone. rewrite vote_loop_is_fill. unfold enumerate.
  destruct (cast_labels_raises labels l Hl Hnone) as [e He].
  apply (fill_raises (vote_column predict X) ls 0 _ lrn e Hin).
  unfold vote_column. rewrite Hp. cbn. rewrite He. reflexivity.
Qed.

End VoteFacts.

Section CommitteeVote.
Context {F L Est : Type} {num : Num F} {lab : Label L} {cast : FloatCast F L}
        {E : Estimator F L Est} {C : Collaborators F L}.

(** C10: [vote] of a [Committee] and of a [DeepCommittee] starts from the
    float zero matrix of shape [(n_samples, n_learners)] and stores each
    member's predictions in its column, so what it returns is a matrix of
    floats of that shape whose column [j] holds the float values of member
    [j]'s predicted labels; and when a member predicts a label that has no
    float value, [vote] raises instead of returning. *)
Theorem vote_returns_float_matrix (X : ndarray F) :
  (forall self : Committee.t F L Est,
     (forall V, Committee.vote self X = Return V ->
        float_votes_of ActiveLearner.predict (Committee.learner_list self) X V) /\
     (Committee.learner_list self = [] ->
        Committee.vote self X = Return (np_zeros2 (n_rows X) 0)) /\
     (forall lrn labels l,
        In lrn (Committee.learner_list self) ->
        ActiveLearner.predict lrn X = Return labels ->
        In l labels -> to_float l = None ->
        exists e, Committee.vote self X = Raise e)) /\
  (forall self : DeepCommittee.t L Est,
     (forall V, DeepCommittee.vote self X = Return V ->
        float_votes_of DeepActiveLearner.predict (DeepCommittee.learner_list self) X V) /\
     (DeepCommittee.learner_list self = [] ->
        DeepCommittee.vote self X = Return (np_zeros2 (n_rows X) 0)) /\
     (forall lrn labels l,
        In lrn (DeepCommittee.learner_list self) ->
        DeepActiveLearner.predict lrn X = Return labels ->
        In l labels -> to_float l = None ->
        exists e, DeepCommittee.vote self X = Raise e)).
Proof.
  split; intros self; (split; [| split]).
  - apply vote_loop_returns.
  - unfold Committee.vote. intros ->. reflexivity.
  - apply vote_loop_raises.
  - apply vote_loop_returns.
  - unfold DeepCommittee.vote. intros ->. reflexivity.
  - apply vote_loop_raises.
Qed.

End CommitteeVote.

Lemma vote_returns_float_matrix_witness :
  float_votes_of ActiveLearner.predict
    (Committee.learner_list Samples.committee_012) Samples.pool
    [[1%float; 2%float]; [1%float; 2%float]] /\
  float_votes_of DeepActiveLearner.predict
    (DeepCommittee.learner_list Samples.deep_committee_012) Samples.pool
    [[1%float; 2%float]; [1%float; 2%float]] /\
  exists e, Committee.vote Samples.committee_species Samples.pool = Raise e.
Proof.
  destruct (vote_returns_float_matrix (L := Z) (Est := Samples.PriorClassifier Z) Samples.pool)
    as [HC HD].
  destruct (vote_returns_float_matrix (L := Samples.species)
              (Est := Samples.PriorClassifier Samples.species) Samples.pool)
    as [HS _].
  split; [| split].
  - apply (proj1 (HC Samples.committee_012)). reflexivity.
  - apply (proj1 (HD Samples.deep_committee_012)). reflexivity.
  - apply (proj2 (proj2 (HS Samples.committee_species))
             Samples.member_species [Samples.versicolor; Samples.versicolor]
             Samples.versicolor).
    + left. reflexivity.
    + reflexivity.
    + left. reflexivity.
    + reflexivity.
Defined.

(* ===================================================================== *)
(** * Committee: classes_ *)
(* ===================================================================== *)

Section SortedUnion.
Context {L : Type} {lab : Label L} {laws : LabelLaws L}.

Local Abbreviation lt := (fun a b : L => lab_ltb a b = true).

Lemma In_insert_sorted (x a : L) (l : list L) :
  In x (insert_sorted a l) <-> x = a \/ In x l.
Proof.
  induction l as [| h t IH]; cbn.
  - intuition auto.
  - destruct (lab_eqb a h) eqn:Heq.
    + apply lab_eqb_eq in Heq. subst. cbn. intuition auto.
    + destruct (lab_ltb a h); cbn; [intuition auto |].
      rewrite IH. intuition auto.
Qed.

Lemma insert_sorted_sorted (a : L) (l : list L) :
  StronglySorted lt l -> StronglySorted lt (insert_sorted a l).
Proof.
  induction 1 as [| h t Hsorted IH Hall]; cbn.
  - repeat constructor.
  - destruct (lab_eqb a h) eqn:Heq; [constructor; assumption |].
    destruct (lab_ltb a h) eqn:Hlt.
    + constructor; [constructor; assumption |].
      constructor; [assumption |].
      eapply Forall_impl; [| exact Hall]. cbn. intros b Hb. eapply lab_ltb_trans; eauto.
    + constructor; [assumption |].
      apply Forall_forall. intros b Hb. apply In_insert_sorted in Hb.
      destruct Hb as [-> | Hb].
      * destruct (lab_ltb_total a h) as [H | [H | H]]; [congruence | | assumption].
        apply lab_eqb_eq in H. congruence.
      * rewrite Forall_forall in Hall. auto.
Qed.

Lemma sorted_union_In (sets : list (list L)) (l : L) :
  In l (sorted_union sets) <-> exists s, In s sets /\ In l s.
Proof.
  unfold sorted_union. rewrite <- in_concat.
  induction (concat sets) as [| a rest IH]; cbn; [reflexivity |].
  rewrite In_insert_sorted, IH. intuition auto.
Qed.

Lemma sorted_union_sorted (sets : list (list L)) : StronglySorted lt (sorted_union sets).
Proof.
  unfold sorted_union. induction (concat sets) as [| a rest IH]; cbn.
  - constructor.
  - apply insert_sorted_sorted. exact IH.
Qed.

Lemma strictly_sorted_NoDup (l : list L) : StronglySorted lt l -> NoDup l.
Proof.
  induction 1 as [| h t _ IH Hall]; constructor; [| assumption].
  intros Hin. rewrite Forall_forall in Hall. specialize (Hall h Hin).
  cbn in Hall. rewrite lab_ltb_irrefl in Hall. discriminate.
Qed.

End SortedUnion.

#[global] Instance LabelLaws_Z : LabelLaws Z.
Proof.
  split; cbn [lab_eqb lab_ltb Label_Z].
  - apply Z.eqb_eq.
  - apply Z.ltb_irrefl.
  - intros a b c. rewrite !Z.ltb_lt. lia.
  - intros a b. rewrite !Z.ltb_lt. lia.
Defined.

Section CommitteeClasses.
Context {F L Est : Type} {num : Num F} {lab : Label L} {cast : FloatCast F L}
        {E : Estimator F L Est} {C : Collaborators F L} {laws : LabelLaws L}.
Import Committee.

Local Abbreviation committee := (Committee.t F L Est).

Lemma _set_classes_establishes (self : committee) :
  fst (_set_classes self) = Return tt /\
  learner_list (snd (_set_classes self)) = learner_list self /\
  classes_are_union (snd (_set_classes self)).
Proof.
  unfold _set_classes, classes_are_union. cbn.
  do 4 (split; [reflexivity |]).
  split; [apply sorted_union_sorted |].
  split; [apply strictly_sorted_NoDup, sorted_union_sorted |].
  intros l. split.
  - intros Hin. apply sorted_union_In in Hin. destruct Hin as (s & Hs & Hl).
    apply in_map_iff in Hs. destruct Hs as (m & <- & Hm). eauto.
  - intros (m & Hm & Hl). apply sorted_union_In.
    exists (known_classes m). split; [apply in_map; assumption | assumption].
Qed.

(** C4: after construction, after a [fit] that returned and after a
    [teach] that returned, [classes_] is the sorted union of the label sets
    of the members as they are then, and [n_classes_] its cardinality. *)
Theorem classes_is_sorted_union_of_members :
  (forall learners : list (ActiveLearner.t F L Est),
     learner_list (__init__ learners) = learners /\
     classes_are_union (__init__ learners)) /\
  (forall X y bootstrap (self self' : committee),
     fit X y bootstrap self = (Return tt, self') -> classes_are_union self') /\
  (forall X y bootstrap only_new (self self' : committee),
     teach X y bootstrap only_new self = (Return tt, self') -> classes_are_union self').
Proof.
  split; [| split].
  - intros learners. unfold __init__.
    match goal with
    | |- context [_set_classes ?s] =>
        destruct (_set_classes_establishes s) as (_ & Hl & Hc1 & Hc2 & Hc3 & Hc4 & Hc5)
    end.
    split; [exact Hl |]. unfold classes_are_union. cbn [learner_list classes_ n_classes_].
    repeat split; try assumption; apply Hc5.
  - intros X y bootstrap self self'. unfold fit. run_py.
    destruct (for_learners (ActiveLearner.fit X y bootstrap) self) as [[[] | e] s1];
      [| discriminate].
    intros H. pose proof (_set_classes_establishes s1) as (_ & _ & Hc).
    rewrite H in Hc. exact Hc.
  - intros X y bootstrap only_new self self'. unfold teach. run_py.
    destruct (_add_training_data X y self) as [[[] | e] s1]; [| discriminate].
    assert (Hend : forall (fitted : outcome unit * committee),
               match fitted with
               | (Return _, s2) => _set_classes s2
               | (Raise e, s2) => (Raise e, s2)
               end = (Return tt, self') -> classes_are_union self').
    { intros [[[] | e] s2]; [| discriminate].
      intros H. pose proof (_set_classes_establishes s2) as (_ & _ & Hc).
      rewrite H in Hc. exact Hc. }
    destruct only_new; cbn [negb]; apply Hend.
Qed.

End CommitteeClasses.

Lemma classes_is_sorted_union_of_members_witness :
  Committee.classes_are_union Samples.committee_012 /\
  Committee.classes_are_union
    (snd (Committee.teach Samples.pool (vector [3%Z; 0%Z]) false false Samples.committee_012)).
Proof.
  destruct (classes_is_sorted_union_of_members (F := float) (L := Z)
              (Est := Samples.PriorClassifier Z)) as (Hinit & _ & Hteach).
  split.
  - apply Hinit.
  - apply (Hteach Samples.pool (vector [3%Z; 0%Z]) false false Samples.committee_012).
    reflexivity.
Defined.

(** Members knowing {0, 1} and {1, 2} give the classes 0, 1, 2; taught the
    labels 3 and 0 on top, every member knows more and the committee knows
    0, 1, 2, 3. *)
Lemma classes_of_overlapping_members :
  Committee.classes_ Samples.committee_012 = [0; 1; 2]%Z /\
  Committee.n_classes_ Samples.committee_012 = 3 /\
  Committee.classes_
    (snd (Committee.teach Samples.pool (vector [3%Z; 0%Z]) false false Samples.committee_012))
    = [0; 1; 2; 3]%Z.
Proof. repeat split. Qed.

(* ===================================================================== *)
(** * Committee: vote_proba *)
(* ===================================================================== *)

Lemma omap_Forall2 {A B : Type} (f : A -> outcome B) (l : list A) (l' : list B) :
  omap f l = Return l' -> Forall2 (fun x y => f x = Return y) l l'.
Proof.
  revert l'. induction l as [| x l IH]; intros l'; cbn.
  - intros [= <-]. constructor.
  - destruct (f x) as [y | e] eqn:Hy; cbn; [| discriminate].
    destruct (omap f l) as [ys | e]; cbn; [| discriminate].
    intros [= <-]. constructor; auto.
Qed.

Lemma omap_fixed {A : Type} (f : A -> outcome A) (l : list A) :
  Forall (fun x => f x = Return x) l -> omap f l = Return l.
Proof.
  induction 1 as [| x l Hx _ IH]; cbn; [reflexivity |].
  rewrite Hx. cbn. rewrite IH. reflexivity.
Qed.

Lemma fold_left_pointwise {A B : Type} (f g : A -> B -> A) (l : list B) (a : A) :
  (forall x y, f x y = g x y) -> fold_left f l a = fold_left g l a.
Proof.
  intros Hfg. revert a. induction l as [| b l IH]; intros a; cbn; [reflexivity |].
  rewrite Hfg. apply IH.
Qed.

Section Scatter.
Context {F L : Type} {num : Num F} {lab : Label L} {laws : LabelLaws L}.

Lemma index_of_None (c : L) (known : list L) :
  ~ In c known -> index_of c known = None.
Proof.
  induction known as [| h t IH]; cbn; [reflexivity |].
  intros Hnot. destruct (lab_eqb c h) eqn:Heq.
  - apply lab_eqb_eq in Heq. subst. exfalso. auto.
  - rewrite IH by auto. reflexivity.
Qed.

Lemma index_of_NoDup (c : L) (known : list L) (k : nat) :
  NoDup known -> nth_error known k = Some c -> index_of c known = Some k.
Proof.
  intros Hnd. revert k. induction Hnd as [| h t Hh _ IH]; intros k Hk.
  - destruct k; discriminate.
  - destruct k as [| k]; cbn in *.
    + injection Hk as ->.
      assert (H : lab_eqb c c = true) by (apply lab_eqb_eq; reflexivity).
      rewrite H. reflexivity.
    + destruct (lab_eqb c h) eqn:Heq.
      * apply lab_eqb_eq in Heq. subst. exfalso. apply Hh. eapply nth_error_In; eauto.
      * rewrite (IH k Hk). reflexivity.
Qed.

(** The entries of a scattered row: 0 at the rank of a class the member
    does not know, the member's probability at the rank of a class it
    knows. *)
Lemma scatter_row_entries (known all_labels : list L) (p : list F) (r : nat) (c : L) :
  nth_error all_labels r = Some c ->
  (~ In c known -> nth_error (scatter_row known all_labels p) r = Some fzero) /\
  (NoDup known -> forall k, nth_error known k = Some c ->
     nth_error (scatter_row known all_labels p) r = Some (nth k p fzero)).
Proof.
  intros Hr. unfold scatter_row. rewrite nth_error_map, Hr. cbn. split.
  - intros Hnot. rewrite index_of_None by assumption. reflexivity.
  - intros Hnd k Hk. rewrite (index_of_NoDup c known k Hnd Hk). reflexivity.
Qed.

End Scatter.

Section VoteProba.
Context {F L Est : Type} {num : Num F} {lab : Label L} {cast : FloatCast F L}
        {E : Estimator F L Est} {C : Collaborators F L}.
Import Committee.

Local Abbreviation committee := (Committee.t F L Est).
Local Abbreviation learner := (ActiveLearner.t F L Est).

Lemma slice_after_raise (block : learner -> outcome (list (list F)))
    (l : list (nat * learner)) (e : exn) :
  fold_left (slice_step block) l (Raise e) = Raise e.
Proof. induction l as [| il l IH]; cbn; auto. Qed.

(** The loop over the three-axis array is the loop over its cells. *)
Lemma slice_loop_is_fill (block : learner -> outcome (list (list F))) (n m c : nat)
    (ls : list learner) (s : nat) (T0 : ndarray3 F) :
  shape3 T0 = (n, m, c) ->
  fold_left (slice_step block) (enumerate_from s ls) (Return T0)
  = with_shape (n, m, c)
      (fold_left (fill_step (fun lrn => obind (block lrn) (broadcast_block n c)))
         (enumerate_from s ls) (Return (cells T0))).
Proof.
  revert s T0. induction ls as [| lrn ls IH]; intros s T0 Hsh.
  - cbn. rewrite <- Hsh. destruct T0; reflexivity.
  - cbn [enumerate_from fold_left].
    unfold slice_step at 2, fill_step at 2. cbn [obind fst snd].
    destruct (block lrn) as [blk | e]; cbn [obind];
      [| rewrite slice_after_raise, fill_after_raise; reflexivity].
    unfold assign_slice, broadcast_block. rewrite Hsh.
    destruct (broadcast_to n blk) as [m1 | e]; cbn [obind];
      [| rewrite slice_after_raise, fill_after_raise; reflexivity].
    destruct (omap (broadcast_to c) m1) as [m2 | e]; cbn [obind];
      [| rewrite slice_after_raise, fill_after_raise; reflexivity].
    rewrite IH; [reflexivity | reflexivity].
Qed.

Lemma vote_proba_scatter_branch (self : committee) (X : ndarray F) :
  check_class_labels (map known_classes (learner_list self)) = false ->
  vote_proba self X
  = with_shape (n_rows X, length (learner_list self), n_classes_ self)
      (fold_left
         (fill_step (fun lrn => obind (scattered_block self X lrn)
                                  (broadcast_block (n_rows X) (n_classes_ self))))
         (enumerate (learner_list self))
         (Return (cells (np_zeros3 (n_rows X) (length (learner_list self))
                           (n_classes_ self))))).
Proof.
  intros Hdiff. unfold vote_proba. rewrite Hdiff. unfold enumerate.
  rewrite <- slice_loop_is_fill by reflexivity.
  apply fold_left_pointwise. intros acc il.
  unfold slice_step, scattered_block.
  destruct acc as [T |]; cbn [obind]; [| reflexivity].
  destruct (ActiveLearner.predict_proba (snd il) X); cbn [obind]; [| reflexivity].
  destruct (est_classes_ (ActiveLearner.estimator (snd il))); reflexivity.
Qed.

Lemma vote_proba_direct_branch (self : committee) (X : ndarray F) :
  check_class_labels (map known_classes (learner_list self)) = true ->
  vote_proba self X
  = with_shape (n_rows X, length (learner_list self), n_classes_ self)
      (fold_left
         (fill_step (fun lrn => obind (ActiveLearner.predict_proba lrn X)
                                  (broadcast_block (n_rows X) (n_classes_ self))))
         (enumerate (learner_list self))
         (Return (cells (np_zeros3 (n_rows X) (length (learner_list self))
                           (n_classes_ self))))).
Proof.
  intros Hsame. unfold vote_proba. rewrite Hsame. unfold enumerate.
  rewrite <- slice_loop_is_fill by reflexivity. reflexivity.
Qed.

Lemma broadcast_block_length (n c : nat) (blk vals : list (list F)) :
  broadcast_block n c blk = Return vals -> length vals = n.
Proof.
  unfold broadcast_block.
  destruct (broadcast_to n blk) as [m1 |] eqn:Hb; cbn [obind]; [| discriminate].
  intros Ho. apply omap_Forall2 in Ho. apply Forall2_length in Ho.
  apply broadcast_to_length in Hb. congruence.
Qed.

Lemma broadcast_block_same (n c : nat) (blk : list (list F)) :
  length blk = n -> Forall (fun r => length r = c) blk ->
  broadcast_block n c blk = Return blk.
Proof.
  intros Hn Hc. unfold broadcast_block. rewrite broadcast_to_same by assumption.
  cbn. apply omap_fixed.
  eapply Forall_impl; [| exact Hc]. cbn. intros r Hr. apply broadcast_to_same. exact Hr.
Qed.

Lemma scattered_column_length (self : committee) (X : ndarray F) (lrn : learner)
    (vals : list (list F)) :
  obind (scattered_block self X lrn) (broadcast_block (n_rows X) (n_classes_ self))
    = Return vals ->
  length vals = n_rows X.
Proof.
  destruct (scattered_block self X lrn) as [blk | e]; cbn [obind]; [| discriminate].
  apply broadcast_block_length.
Qed.

Lemma np_zeros3_cells (n m c : nat) :
  length (cells (np_zeros3 (F := F) n m c)) = n /\
  Forall (fun r => length r = m) (cells (np_zeros3 (F := F) n m c)).
Proof.
  cbn. split; [apply repeat_length |].
  apply Forall_forall. intros r Hr. apply repeat_spec in Hr. subst. apply repeat_length.
Qed.

(** What [vote_proba] returns has one block per sample and, in each block,
    one row per member. *)
Lemma vote_proba_shape (self : committee) (X : ndarray F) (T : ndarray3 F) :
  vote_proba self X = Return T ->
  shape3 T = (n_rows X, length (learner_list self), n_classes_ self) /\
  length (cells T) = n_rows X /\
  Forall (fun sample => length sample = length (learner_list self)) (cells T).
Proof.
  destruct (np_zeros3_cells (n_rows X) (length (learner_list self)) (n_classes_ self))
    as [Hzn Hzm].
  destruct (check_class_labels (map known_classes (learner_list self))) eqn:Hc.
  - rewrite (vote_proba_direct_branch self X Hc). unfold with_shape, enumerate.
    match goal with
    | |- match ?fold with _ => _ end = _ -> _ => destruct fold as [cells' | e] eqn:Hfold
    end; [| discriminate].
    intros [= <-]. cbn [shape3 cells]. split; [reflexivity |].
    assert (Hcol : forall lrn vals,
               obind (ActiveLearner.predict_proba lrn X)
                 (broadcast_block (n_rows X) (n_classes_ self)) = Return vals ->
               length vals = n_rows X).
    { intros lrn vals. destruct (ActiveLearner.predict_proba lrn X); cbn [obind];
        [apply broadcast_block_length | discriminate]. }
    destruct (fill_spec _ (n_rows X) (length (learner_list self)) Hcol
                (learner_list self) 0 _ cells' Hzn Hzm ltac:(lia) Hfold)
      as (Hn & Hm & _). auto.
  - rewrite (vote_proba_scatter_branch self X Hc). unfold with_shape, enumerate.
    match goal with
    | |- match ?fold with _ => _ end = _ -> _ => destruct fold as [cells' | e] eqn:Hfold
    end; [| discriminate].
    intros [= <-]. cbn [shape3 cells]. split; [reflexivity |].
    destruct (fill_spec _ (n_rows X) (length (learner_list self))
                (scattered_column_length self X)
                (learner_list self) 0 _ cells' Hzn Hzm ltac:(lia) Hfold)
      as (Hn & Hm & _). auto.
Qed.

Context {laws : LabelLaws L}.

(** C3: when the members know different label sets, the row of
    [vote_proba] for sample [i] and member [j] is that member's predicted
    row scattered into the committee's [classes_]: probability 0 at the rank
    of every class the member does not know, and the member's predicted
    probability, unchanged, at the rank of every class it knows. *)
Theorem vote_proba_scatters_into_classes (self : committee) (X : ndarray F) (T : ndarray3 F) :
  check_class_labels (map known_classes (learner_list self)) = false ->
  n_classes_ self = length (classes_ self) ->
  vote_proba self X = Return T ->
  shape3 T = (n_rows X, length (learner_list self), n_classes_ self) /\
  forall j m, nth_error (learner_list self) j = Some m ->
    exists p known,
      ActiveLearner.predict_proba m X = Return p /\
      est_classes_ (ActiveLearner.estimator m) = Some known /\
      (length p = n_rows X ->
       forall i p_i, nth_error p i = Some p_i ->
         exists sample row,
           nth_error (cells T) i = Some sample /\
           nth_error sample j = Some row /\
           row = scatter_row known (classes_ self) p_i /\
           forall r c, nth_error (classes_ self) r = Some c ->
             (~ In c known -> nth_error row r = Some fzero) /\
             (NoDup known -> forall k, nth_error known k = Some c ->
                nth_error row r = Some (nth k p_i fzero))).
Proof.
  intros Hdiff Hncls HT. rewrite (vote_proba_scatter_branch self X Hdiff) in HT.
  unfold with_shape in HT.
  match type of HT with
  | match ?fold with _ => _ end = _ => destruct fold as [cells' | e] eqn:Hfold
  end; [| discriminate].
  injection HT as <-. cbn [shape3 cells]. split; [reflexivity |].
  unfold enumerate in Hfold.
  assert (Hz : length (cells (np_zeros3 (n_rows X) (length (learner_list self))
                                (n_classes_ self))) = n_rows X /\
               Forall (fun r => length r = length (learner_list self))
                 (cells (np_zeros3 (n_rows X) (length (learner_list self))
                           (n_classes_ self)))).
  { cbn. split; [apply repeat_length |].
    apply Forall_forall. intros r Hr. apply repeat_spec in Hr. subst. apply repeat_length. }
  destruct Hz as [Hzn Hzm].
  destruct (fill_spec _ (n_rows X) (length (learner_list self))
              (scattered_column_length self X)
              (learner_list self) 0 _ cells' Hzn Hzm ltac:(lia) Hfold)
    as (_ & _ & Hcols & _).
  intros j m Hj. destruct (Hcols j m Hj) as (vals & Hvals & Hall).
  unfold scattered_block in Hvals.
  destruct (ActiveLearner.predict_proba m X) as [p | e]; cbn [obind] in Hvals;
    [| discriminate].
  destruct (est_classes_ (ActiveLearner.estimator m)) as [known |]; cbn [obind] in Hvals;
    [| discriminate].
  exists p, known. repeat split.
  intros Hp i p_i Hi.
  assert (Hsame : broadcast_block (n_rows X) (n_classes_ self)
                    (check_class_proba p known (classes_ self))
                  = Return (check_class_proba p known (classes_ self))).
  { apply broadcast_block_same.
    - unfold check_class_proba. rewrite length_map. exact Hp.
    - unfold check_class_proba. apply Forall_forall. intros r Hr.
      apply in_map_iff in Hr. destruct Hr as (q & <- & _).
      unfold scatter_row. rewrite length_map. symmetry. exact Hncls. }
  rewrite Hsame in Hvals. injection Hvals as <-.
  assert (Hin : i < n_rows X) by (rewrite <- Hp; apply nth_error_Some; congruence).
  destruct (Hall i Hin) as (sample & row & Hsample & Hrow & Hentry).
  unfold check_class_proba in Hrow. rewrite nth_error_map, Hi in Hrow. cbn in Hrow.
  injection Hrow as <-.
  exists sample, (scatter_row known (classes_ self) p_i).
  repeat split; auto; intros; eapply scatter_row_entries; eauto.
Qed.

End VoteProba.

Lemma vote_proba_012 :
  Committee.vote_proba Samples.committee_012 Samples.pool = Return Samples.votes_012.
Proof. reflexivity. Qed.

Lemma vote_proba_scatters_into_classes_witness :
  exists sample,
    nth_error (cells Samples.votes_012) 0 = Some sample /\
    nth_error sample 0 = Some [(3 / 10)%float; (7 / 10)%float; 0%float] /\
    nth_error [(3 / 10)%float; (7 / 10)%float; 0%float] 2 = Some 0%float.
Proof.
  assert (Hdiff : check_class_labels
                    (map Committee.known_classes
                       (Committee.learner_list Samples.committee_012)) = false)
    by reflexivity.
  destruct (vote_proba_scatters_into_classes Samples.committee_012 Samples.pool
              Samples.votes_012 Hdiff eq_refl vote_proba_012) as [_ Hrows].
  destruct (Hrows 0 Samples.member_01 eq_refl) as (p & known & Hp & Hknown & Hscatter).
  injection Hp as <-. injection Hknown as <-.
  destruct (Hscatter eq_refl 0 [(3 / 10)%float; (7 / 10)%float] eq_refl)
    as (sample & row & Hsample & Hrow & -> & Hentries).
  exists sample. split; [exact Hsample | split; [exact Hrow |]].
  apply (proj1 (Hentries 2 2%Z eq_refl)).
  cbn. intros [H | [H | []]]; discriminate H.
Defined.

(* ===================================================================== *)
(** * Committee: predict_proba and predict *)
(* ===================================================================== *)

Lemma omap_compose {A B D : Type} (f : A -> outcome B) (g : B -> outcome D)
    (l : list A) (m : list B) (n : list D) :
  omap f l = Return m -> omap g m = Return n ->
  Forall2 (fun x z => exists y, f x = Return y /\ g y = Return z) l n.
Proof.
  intros Hf Hg. apply omap_Forall2 in Hf, Hg. revert n Hg.
  induction Hf as [| x y l m Hxy _ IH]; intros n Hg; inversion Hg; subst; constructor; eauto.
Qed.

Section PredictFacts.
Context {F L Est : Type} {num : Num F} {lab : Label L} {cast : FloatCast F L}
        {E : Estimator F L Est} {C : Collaborators F L} {ord : NumOrder F}.
Import Committee.

Local Abbreviation committee := (Committee.t F L Est).

(** C5: [predict_proba] is the mean of [vote_proba] across the learner
    axis: entry [k] of the row of a sample is the sum of the members'
    entries [k] for that sample divided by the number of members; and
    [predict] gives, for every sample, the class of [classes_] at the first
    index at which the mean row of the sample attains its maximum. *)
Theorem predict_is_first_argmax_of_mean (self : committee) (X : ndarray F) :
  (forall T, vote_proba self X = Return T ->
     predict_proba self X = Return (np_mean_axis1 T) /\
     forall i sample, nth_error (cells T) i = Some sample ->
       length sample = length (learner_list self) /\
       exists row, nth_error (np_mean_axis1 T) i = Some row /\
         length row = n_classes_ self /\
         forall k, k < n_classes_ self ->
           nth_error row k =
             Some (fdiv (np_sum (map (fun r => nth k r fzero) sample))
                        (of_nat (length (learner_list self))))) /\
  (forall e, vote_proba self X = Raise e -> predict_proba self X = Raise e) /\
  (forall labels, predict self X = Return labels ->
     exists proba, predict_proba self X = Return proba /\
       Forall2 (fun row label =>
                  exists i m, first_max_at row i m /\
                              nth_error (classes_ self) i = Some label)
               proba labels).
Proof.
  split; [| split].
  - intros T HT. unfold predict_proba. rewrite HT. cbn [obind]. split; [reflexivity |].
    destruct (vote_proba_shape self X T HT) as (Hshape & _ & Hwidth).
    intros i sample Hi.
    assert (Hlen : length sample = length (learner_list self)).
    { rewrite Forall_forall in Hwidth. apply Hwidth. eapply nth_error_In; eauto. }
    split; [exact Hlen |].
    unfold np_mean_axis1. rewrite Hshape.
    rewrite nth_error_map, Hi. cbn [option_map]. eexists. split; [reflexivity |].
    split; [rewrite length_map; apply length_seq |].
    intros k Hk. rewrite nth_error_map.
    rewrite (nth_error_nth' (seq 0 (n_classes_ self)) 0) by (rewrite length_seq; exact Hk).
    rewrite seq_nth by exact Hk. cbn [option_map plus].
    unfold np_mean. rewrite length_map, Hlen. reflexivity.
  - intros e HT. unfold predict_proba. rewrite HT. reflexivity.
  - intros labels. unfold predict.
    destruct (predict_proba self X) as [proba | e]; cbn [obind]; [| discriminate].
    destruct (omap np_argmax proba) as [idx | e] eqn:Hidx; cbn [obind]; [| discriminate].
    intros Hlab. exists proba. split; [reflexivity |].
    pose proof (omap_compose _ _ _ _ _ Hidx Hlab) as H.
    eapply Forall2_impl; [| exact H]. cbn.
    intros row label (i & Hi & Hl).
    destruct (np_argmax_first_max row i Hi) as [m Hm].
    exists i, m. split; [exact Hm |].
    destruct (nth_error (classes_ self) i); [injection Hl as ->; reflexivity | discriminate].
Qed.

End PredictFacts.

Lemma predict_is_first_argmax_of_mean_witness :
  (exists row,
     nth_error (np_mean_axis1 (F := Q)
                  {| shape3 := (2, 2, 3);
                     cells := repeat [[3 # 10; 7 # 10; 0]; [0; 1 # 4; 3 # 4]]%Q 2 |}) 0
       = Some row /\
     nth_error row 1 = Some (((7 # 10) + (1 # 4)) / 2)%Q) /\
  (exists proba,
     Committee.predict_proba Samples.committee_012_Q Samples.pool_Q = Return proba /\
     Forall2 (fun row label =>
                exists i m, first_max_at row i m /\
                            nth_error (Committee.classes_ Samples.committee_012_Q) i
                              = Some label)
             proba [1%Z; 1%Z]).
Proof.
  destruct (predict_is_first_argmax_of_mean Samples.committee_012_Q Samples.pool_Q)
    as (Hmean & _ & Hpred).
  split.
  - destruct (Hmean {| shape3 := (2, 2, 3);
                       cells := repeat [[3 # 10; 7 # 10; 0]; [0; 1 # 4; 3 # 4]]%Q 2 |}
                eq_refl) as [_ Hrows].
    destruct (Hrows 0 [[3 # 10; 7 # 10; 0]; [0; 1 # 4; 3 # 4]]%Q eq_refl)
      as (_ & row & Hrow & _ & Hentry).
    exists row. split; [exact Hrow |]. apply (Hentry 1). cbn. lia.
  - apply Hpred. reflexivity.
Defined.

(* ===================================================================== *)
(** * NumPy's pairwise summation *)
(* ===================================================================== *)

Lemma cut_point (n : nat) :
  128 < n -> 0 < n / 2 - (n / 2) mod 8 /\ n / 2 - (n / 2) mod 8 < n.
Proof.
  intros H.
  assert (H1 : 64 <= n / 2) by (apply Nat.div_le_lower_bound; lia).
  assert (H2 : (n / 2) mod 8 < 8) by (apply Nat.mod_upper_bound; lia).
  assert (H3 : n / 2 < n) by (apply Nat.div_lt; lia).
  lia.
Qed.

Lemma Forall_cut {A : Type} (P : A -> Prop) (k : nat) (l : list A) :
  Forall P l -> Forall P (firstn k l) /\ Forall P (skipn k l).
Proof.
  intros H. rewrite <- (firstn_skipn k l) in H. apply Forall_app in H. exact H.
Qed.

Section PairwiseSum.
Context {F : Type} {num : Num F}.

(** The recursion has fuel to spare: any two amounts that cover the length
    of the row give the same sum. *)
Lemma pairwise_sum_rec_enough (fuel1 fuel2 : nat) (a : list F) :
  length a <= fuel1 -> length a <= fuel2 ->
  pairwise_sum_rec fuel1 a = pairwise_sum_rec fuel2 a.
Proof.
  revert fuel2 a. induction fuel1 as [| f1 IH]; intros fuel2 a H1 H2.
  - destruct a; [| cbn in H1; lia]. destruct fuel2; reflexivity.
  - destruct fuel2 as [| f2].
    + destruct a; [reflexivity | cbn in H2; lia].
    + cbn [pairwise_sum_rec]. destruct (Nat.leb_spec (length a) 128) as [| Hlong];
        [reflexivity |].
      destruct (cut_point (length a) Hlong) as [Hpos Hlt].
      f_equal; apply IH; rewrite ?length_firstn, ?length_skipn; lia.
Qed.

(** [pairwise_sum] is the function NumPy's recursion defines. *)
Lemma pairwise_sum_unfold (a : list F) :
  pairwise_sum a =
    if Nat.leb (length a) 128 then block_sum a
    else fadd (pairwise_sum (firstn (length a / 2 - (length a / 2) mod 8) a))
              (pairwise_sum (skipn (length a / 2 - (length a / 2) mod 8) a)).
Proof.
  unfold pairwise_sum at 1.
  destruct (Nat.leb_spec (length a) 128) as [Hshort | Hlong].
  - destruct (length a) eqn:Hn; cbn [pairwise_sum_rec]; [reflexivity |].
    rewrite Hn. destruct (Nat.leb_spec (S n) 128); [reflexivity | lia].
  - destruct (cut_point (length a) Hlong) as [Hpos Hlt].
    remember (length a) as n eqn:Hn. destruct n as [| n]; [lia |].
    cbn [pairwise_sum_rec]. rewrite <- Hn.
    destruct (Nat.leb_spec (S n) 128); [lia |].
    cbv zeta. unfold pairwise_sum.
    f_equal; apply pairwise_sum_rec_enough;
      rewrite ?length_firstn, ?length_skipn; lia.
Qed.

(** On fewer than eight entries it is the accumulation in order. *)
Lemma pairwise_sum_short (a : list F) :
  length a < 8 -> pairwise_sum a = np_sum a.
Proof.
  intros H. rewrite pairwise_sum_unfold.
  destruct (Nat.leb_spec (length a) 128); [| lia].
  do 8 (destruct a as [| ? a]; [reflexivity |]). cbn in H. lia.
Qed.

(** On eight entries it adds neighbours first. *)
Lemma pairwise_sum_eight (a0 a1 a2 a3 a4 a5 a6 a7 : F) :
  pairwise_sum [a0; a1; a2; a3; a4; a5; a6; a7]
  = fadd (fadd (fadd a0 a1) (fadd a2 a3)) (fadd (fadd a4 a5) (fadd a6 a7)).
Proof. reflexivity. Qed.

Section Closed.
Variable P : F -> Prop.
Hypothesis P_zero : P fzero.
Hypothesis P_add : forall a b, P a -> P b -> P (fadd a b).

Lemma fold_left_closed (l : list F) (acc : F) :
  P acc -> Forall P l -> P (fold_left fadd l acc).
Proof.
  revert acc. induction l as [| x l IH]; intros acc Hacc Hl; cbn; [exact Hacc |].
  inversion Hl; subst. apply IH; auto.
Qed.

Lemma unrolled_sum_closed (n : nat) :
  forall (a : list F), length a <= n -> Forall P a ->
  forall r0 r1 r2 r3 r4 r5 r6 r7,
    P r0 -> P r1 -> P r2 -> P r3 -> P r4 -> P r5 -> P r6 -> P r7 ->
    P (unrolled_sum r0 r1 r2 r3 r4 r5 r6 r7 a).
Proof.
  induction n as [| n IH]; intros a Hlen Ha r0 r1 r2 r3 r4 r5 r6 r7 H0 H1 H2 H3 H4 H5 H6 H7.
  - destruct a; [cbn; auto 7 | cbn in Hlen; lia].
  - destruct a as [| a0 [| a1 [| a2 [| a3 [| a4 [| a5 [| a6 [| a7 rest]]]]]]]];
      cbn [unrolled_sum]; try (apply fold_left_closed; auto 7).
    repeat match goal with
           | H : Forall _ (_ :: _) |- _ => inversion H; clear H; subst
           end.
    apply IH; auto. cbn in Hlen. lia.
Qed.

Lemma block_sum_closed (a : list F) : Forall P a -> P (block_sum a).
Proof.
  intros Ha.
  destruct a as [| a0 [| a1 [| a2 [| a3 [| a4 [| a5 [| a6 [| a7 rest]]]]]]]];
    cbn [block_sum np_sum]; try exact P_zero;
    try (inversion Ha; subst; apply fold_left_closed; assumption).
  repeat match goal with
         | H : Forall _ (_ :: _) |- _ => inversion H; clear H; subst
         end.
  apply (unrolled_sum_closed (length rest)); auto.
Qed.

(** Whatever holds of the entries and is kept by addition holds of the
    sum. *)
Lemma pairwise_sum_closed (a : list F) : Forall P a -> P (pairwise_sum a).
Proof.
  unfold pairwise_sum. generalize (length a) as fuel. intros fuel. revert a.
  induction fuel as [| fuel IH]; intros a Ha; cbn [pairwise_sum_rec].
  - apply block_sum_closed. exact Ha.
  - destruct (Nat.leb (length a) 128); [apply block_sum_closed; exact Ha |].
    destruct (Forall_cut P (length a / 2 - (length a / 2) mod 8) a Ha) as [H1 H2].
    apply P_add; apply IH; assumption.
Qed.

End Closed.

End PairwiseSum.

(* ===================================================================== *)
(** * CommitteeRegressor: mean and standard deviation *)
(* ===================================================================== *)

Section RegressorFacts.
Context {F Est : Type} {num : Num F} {sq : NumSqrt F}
        {E : Estimator F F Est} {C : Collaborators F F}.
Import CommitteeRegressor.

Local Abbreviation regressor := (CommitteeRegressor.t F Est).

Lemma regressor_vote_fill_from (X : ndarray F) (ls : list (ActiveLearner.t F F Est))
    (s : nat) (acc : outcome (list (list F))) :
  (forall P, acc = Return P -> length P = n_rows X) ->
  fold_left
    (fun acc il =>
       obind acc (fun prediction =>
       obind (ActiveLearner.predict (snd il) X) (fun values =>
       assign_column prediction (fst il) values)))
    (enumerate_from s ls) acc
  = fold_left (fill_step (regressor_column X)) (enumerate_from s ls) acc.
Proof.
  revert s acc. induction ls as [| lrn ls IH]; intros s acc Hacc; [reflexivity |].
  cbn [enumerate_from fold_left]. rewrite IH.
  - f_equal. unfold fill_step, regressor_column, assign_column. cbn [fst snd].
    destruct acc as [P | e]; cbn [obind]; [| reflexivity].
    rewrite (Hacc P eq_refl).
    destruct (ActiveLearner.predict lrn X) as [values | e]; cbn [obind]; reflexivity.
  - intros P' HP'. unfold assign_column in HP'.
    destruct acc as [P | e]; cbn [obind fst snd] in HP'; [| discriminate].
    destruct (ActiveLearner.predict lrn X) as [values | e]; cbn [obind] in HP';
      [| discriminate].
    destruct (broadcast_to (length P) values) as [col | e] eqn:Hb; cbn [obind] in HP';
      [| discriminate].
    injection HP' as <-. apply broadcast_to_length in Hb.
    rewrite place_at_length; [apply Hacc; reflexivity | assumption].
Qed.

Lemma regressor_vote_returns (self : regressor) (X : ndarray F) (V : list (list F)) :
  vote self X = Return V -> votes_of self X V.
Proof.
  unfold vote, enumerate. rewrite regressor_vote_fill_from
    by (intros P [= <-]; apply np_zeros2_shape).
  intros HV.
  destruct (np_zeros2_shape (F := F) (n_rows X) (length (learner_list self))) as [Hn Hm].
  assert (Hcol : forall lrn vals, regressor_column X lrn = Return vals ->
                                  length vals = n_rows X).
  { intros lrn vals. unfold regressor_column.
    destruct (ActiveLearner.predict lrn X); cbn [obind]; [| discriminate].
    apply broadcast_to_length. }
  destruct (fill_spec (regressor_column X) (n_rows X) (length (learner_list self))
              Hcol (learner_list self) 0 _ V Hn Hm ltac:(lia) HV)
    as (HlenV & HwV & Hcols & _).
  split; [exact HlenV | split; [exact HwV |]].
  intros j lrn Hj. destruct (Hcols j lrn Hj) as (vals & Hvals & Hall).
  unfold regressor_column in Hvals.
  destruct (ActiveLearner.predict lrn X) as [values | e]; cbn [obind] in Hvals;
    [| discriminate].
  exists values, vals. split; [reflexivity | split; [exact Hvals | exact Hall]].
Qed.

Lemma repeat_of_equal_entries {A : Type} (row : list A) (v : A) (n : nat) :
  length row = n -> (forall j, j < n -> nth_error row j = Some v) -> row = repeat v n.
Proof.
  revert n. induction row as [| a row IH]; intros n Hlen Hall; subst n; [reflexivity |].
  cbn. f_equal.
  - specialize (Hall 0 ltac:(cbn; lia)). cbn in Hall. congruence.
  - apply IH; [reflexivity |]. intros j Hj. apply (Hall (S j)). cbn. lia.
Qed.

(** The row of a sample on which every member predicts [v]. *)
Lemma agreeing_members_row (self : regressor) (X : ndarray F) (V : list (list F))
    (i : nat) (v : F) :
  vote self X = Return V ->
  i < n_rows X ->
  (forall lrn, In lrn (learner_list self) ->
     exists values, ActiveLearner.predict lrn X = Return values /\
                    length values = n_rows X /\ nth_error values i = Some v) ->
  nth_error V i = Some (repeat v (length (learner_list self))).
Proof.
  intros HV Hi Hagree. apply regressor_vote_returns in HV.
  destruct HV as (Hlen & Hwidth & Hcols).
  destruct (nth_error V i) as [row |] eqn:Hrow;
    [| apply nth_error_None in Hrow; lia].
  f_equal. apply repeat_of_equal_entries.
  - rewrite Forall_forall in Hwidth. apply Hwidth. eapply nth_error_In; eauto.
  - intros j Hj.
    destruct (nth_error (learner_list self) j) as [lrn |] eqn:Hlrn;
      [| apply nth_error_None in Hlrn; lia].
    destruct (Hcols j lrn Hlrn) as (values & col & Hp & Hb & Hall).
    destruct (Hagree lrn (nth_error_In _ _ Hlrn)) as (values' & Hp' & Hlen' & Hv).
    rewrite Hp in Hp'. injection Hp' as <-.
    rewrite broadcast_to_same in Hb by exact Hlen'. injection Hb as <-.
    destruct (Hall i Hi) as (row' & v' & Hrow' & Hv' & Hentry).
    congruence.
Qed.

(** The sum of zeros is zero when [0 + 0 = 0]. *)
Lemma pairwise_sum_zeros (n : nat) :
  fadd fzero fzero = fzero -> pairwise_sum (repeat (fzero : F) n) = fzero.
Proof.
  intros H0. apply (pairwise_sum_closed (fun x => x = fzero)).
  - reflexivity.
  - intros a b -> ->. exact H0.
  - apply Forall_forall. intros x Hx. apply repeat_spec in Hx. exact Hx.
Qed.

(** The standard deviation of equal values is zero when their mean is
    computed exactly. *)
Lemma np_std_of_equal_values (v : F) (n : nat) :
  fsub v v = fzero ->
  fmul fzero fzero = fzero ->
  fadd fzero fzero = fzero ->
  fdiv fzero (of_nat (S n)) = fzero ->
  fsqrt fzero = fzero ->
  np_mean_contiguous (repeat v (S n)) = v ->
  np_std (repeat v (S n)) = fzero.
Proof.
  intros Hsub Hmul Hadd Hdiv Hsqrt Hmean. unfold np_std. rewrite Hmean.
  rewrite !map_repeat, Hsub, Hmul, pairwise_sum_zeros by assumption.
  rewrite repeat_length, Hdiv. exact Hsqrt.
Qed.

(** C9 as amended: [predict(X, return_std=True)] returns the pair of the
    per-sample mean of the members' predictions (their sum divided by the
    number of members) and of their per-sample population standard
    deviation (the root of the mean squared deviation from that mean, the
    divisor being the number of members), the sums being NumPy's pairwise
    sums of the row, which for fewer than eight members add the entries in
    order; a sample on which all members predict the same value [v] has the
    row of that many times [v], and the deviation of such a row is exactly 0
    provided its mean is computed exactly, that is, is [v]. *)
Theorem predict_returns_mean_and_population_std (self : regressor) (X : ndarray F) :
  (forall V, vote self X = Return V ->
     votes_of self X V /\
     predict self X true
       = Return (MeanStd (map np_mean_contiguous V) (map np_std V)) /\
     forall i row, nth_error V i = Some row ->
       nth_error (map np_mean_contiguous V) i
         = Some (fdiv (pairwise_sum row) (of_nat (length row))) /\
       nth_error (map np_std V) i
         = Some (fsqrt (fdiv (pairwise_sum
                                (map (fun d => fmul d d)
                                   (map (fun a => fsub a (np_mean_contiguous row)) row)))
                             (of_nat (length row)))) /\
       (length row < 8 ->
        pairwise_sum row = np_sum row /\
        pairwise_sum (map (fun d => fmul d d)
                        (map (fun a => fsub a (np_mean_contiguous row)) row))
        = np_sum (map (fun d => fmul d d)
                    (map (fun a => fsub a (np_mean_contiguous row)) row)))) /\
  (forall V i v,
     vote self X = Return V ->
     i < n_rows X ->
     (forall lrn, In lrn (learner_list self) ->
        exists values, ActiveLearner.predict lrn X = Return values /\
                       length values = n_rows X /\ nth_error values i = Some v) ->
     nth_error V i = Some (repeat v (length (learner_list self)))) /\
  (forall v n,
     fsub v v = fzero ->
     fmul fzero fzero = fzero ->
     fadd fzero fzero = fzero ->
     fdiv fzero (of_nat (S n)) = fzero ->
     fsqrt fzero = fzero ->
     np_mean_contiguous (repeat v (S n)) = v ->
     np_std (repeat v (S n)) = fzero).
Proof.
  split; [| split].
  - intros V HV. split; [apply regressor_vote_returns; exact HV |].
    split; [unfold predict; rewrite HV; reflexivity |].
    intros i row Hi. rewrite !nth_error_map, Hi.
    split; [reflexivity |]. split; [reflexivity |].
    intros Hshort. split; apply pairwise_sum_short; rewrite ?length_map; exact Hshort.
  - intros V i v. apply agreeing_members_row.
  - apply np_std_of_equal_values.
Qed.

End RegressorFacts.

(** Two members that predict 0.5: the mean is 0.5 and the deviation 0. *)
Lemma predict_returns_mean_and_population_std_witness :
  CommitteeRegressor.predict Samples.regressors_half Samples.pool true
    = Return (CommitteeRegressor.MeanStd [0.5%float; 0.5%float]
                (map np_std [[0.5%float; 0.5%float]; [0.5%float; 0.5%float]])) /\
  np_std (repeat 0.5%float 2) = 0%float.
Proof.
  destruct (predict_returns_mean_and_population_std Samples.regressors_half Samples.pool)
    as (Hpair & _ & Hzero).
  split.
  - apply (proj1 (proj2 (Hpair [[0.5%float; 0.5%float]; [0.5%float; 0.5%float]] eq_refl))).
  - apply (Hzero 0.5%float 1); reflexivity.
Defined.

(** The deviation is the population one: for the values 1 and 3 it is 1
    (the sample deviation would be the root of 2). *)
Lemma np_std_is_population_std : np_std [1%float; 3%float] = 1%float.
Proof. reflexivity. Qed.

(** Three members that each predict the binary64 value of 0.1 on both
    samples.  The sum of the row is 0.30000000000000004, its mean
    0.10000000000000002, and the deviation [predict] returns is 2^-56, about
    1.39e-17, not 0. *)
Lemma std_of_agreeing_members_not_zero :
  CommitteeRegressor.vote Samples.regressors_tenth Samples.pool
    = Return (repeat (repeat Samples.tenth 3) 2) /\
  np_mean_contiguous (repeat Samples.tenth 3) = 0x1.999999999999bp-4%float /\
  CommitteeRegressor.predict Samples.regressors_tenth Samples.pool true
    = Return (CommitteeRegressor.MeanStd
                (repeat 0x1.999999999999bp-4%float 2) (repeat 0x1p-56%float 2)) /\
  0x1p-56%float <> 0%float /\
  ~ (forall mean std,
       CommitteeRegressor.predict Samples.regressors_tenth Samples.pool true
         = Return (CommitteeRegressor.MeanStd mean std) ->
       Forall (fun s => s = 0%float) std).
Proof.
  assert (Hne : 0x1p-56%float <> 0%float).
  { intros H. apply (f_equal (fun x => PrimFloat.eqb x 0)) in H. discriminate H. }
  repeat split; try reflexivity; try exact Hne.
  intros Hall.
  specialize (Hall _ _ eq_refl). inversion Hall as [| s std Hs _]; subst.
  exact (Hne Hs).
Qed.

(** The order of the additions decides.  Ten values of 0.1: the pairwise
    sum is exactly 1, so the mean is 0.1 and the deviation 0; added in order
    they give 0.9999999999999999, whose tenth is not 0.1. *)
Lemma pairwise_sum_of_ten_tenths :
  pairwise_sum (repeat Samples.tenth 10) = 1%float /\
  np_mean_contiguous (repeat Samples.tenth 10) = Samples.tenth /\
  np_std (repeat Samples.tenth 10) = 0%float /\
  np_sum (repeat Samples.tenth 10) = 0x1.fffffffffffffp-1%float.
Proof. split; [| split; [| split]]; reflexivity. Qed.

(* ===================================================================== *)
(** * The standard deviation in exact arithmetic *)
(* ===================================================================== *)

(** Over the real numbers the order of the additions does not matter and
    the mean of equal values is that value, so the deviation of members
    that agree is 0 for any number of members: what makes it differ from 0
    above is the rounding of the binary64 mean. *)
Module Exact.
Import Reals Lra.
Local Open Scope R_scope.

#[local] Existing Instance Num_R.
#[local] Existing Instance NumSqrt_R.

Lemma fold_left_Rplus (l : list R) (a : R) :
  fold_left Rplus l a = a + fold_right Rplus 0 l.
Proof.
  revert a. induction l as [| x l IH]; intros a; cbn; [lra |]. rewrite IH. lra.
Qed.

Lemma unrolled_sum_reals (n : nat) :
  forall (a : list R), (length a <= n)%nat ->
  forall r0 r1 r2 r3 r4 r5 r6 r7 : R,
    unrolled_sum r0 r1 r2 r3 r4 r5 r6 r7 a
    = r0 + r1 + r2 + r3 + r4 + r5 + r6 + r7 + fold_right Rplus 0 a.
Proof.
  induction n as [| n IH]; intros a Hlen r0 r1 r2 r3 r4 r5 r6 r7.
  - destruct a; [cbn; lra | cbn in Hlen; lia].
  - destruct a as [| a0 [| a1 [| a2 [| a3 [| a4 [| a5 [| a6 [| a7 rest]]]]]]]];
      cbn [unrolled_sum fadd Num_R];
      try (rewrite fold_left_Rplus; cbn [fold_right]; lra).
    rewrite IH by (cbn in Hlen; lia). cbn [fold_right]. lra.
Qed.

Lemma block_sum_reals (a : list R) : block_sum a = fold_right Rplus 0 a.
Proof.
  destruct a as [| a0 [| a1 [| a2 [| a3 [| a4 [| a5 [| a6 [| a7 rest]]]]]]]];
    cbn [block_sum np_sum fadd fzero Num_R];
    try (rewrite ?fold_left_Rplus; cbn [fold_right fold_left]; lra).
  rewrite (unrolled_sum_reals (length rest)) by lia. cbn [fold_right]. lra.
Qed.

Lemma fold_right_Rplus_app (l1 l2 : list R) :
  fold_right Rplus 0 (l1 ++ l2) = fold_right Rplus 0 l1 + fold_right Rplus 0 l2.
Proof. induction l1 as [| x l1 IH]; cbn; [lra |]. rewrite IH. lra. Qed.

(** Over the reals the pairwise sum is the sum. *)
Lemma pairwise_sum_reals (a : list R) : pairwise_sum a = fold_right Rplus 0 a.
Proof.
  unfold pairwise_sum. generalize (length a) as fuel. intros fuel. revert a.
  induction fuel as [| fuel IH]; intros a; cbn [pairwise_sum_rec].
  - apply block_sum_reals.
  - destruct (Nat.leb (length a) 128); [apply block_sum_reals |].
    rewrite !IH. cbn [fadd Num_R]. rewrite <- fold_right_Rplus_app, firstn_skipn.
    reflexivity.
Qed.

Lemma fold_right_Rplus_repeat (v : R) (n : nat) :
  fold_right Rplus 0 (repeat v n) = INR n * v.
Proof.
  induction n as [| n IH]; [cbn; lra |].
  cbn [repeat fold_right]. rewrite IH, S_INR. lra.
Qed.

Lemma np_mean_of_equal_reals (v : R) (n : nat) :
  np_mean_contiguous (repeat v (S n)) = v.
Proof.
  unfold np_mean_contiguous, of_nat.
  rewrite pairwise_sum_reals, fold_right_Rplus_repeat, repeat_length.
  cbn [fdiv of_int Num_R]. rewrite <- INR_IZR_INZ, S_INR.
  assert (0 <= INR n) by apply pos_INR.
  field. lra.
Qed.

Lemma np_std_of_equal_reals (v : R) (n : nat) : np_std (repeat v (S n)) = 0.
Proof.
  apply (np_std_of_equal_values (num := Num_R) (sq := NumSqrt_R) v n);
    cbn [fzero fadd fsub fmul fdiv fsqrt Num_R NumSqrt_R].
  - lra.
  - lra.
  - lra.
  - unfold Rdiv. lra.
  - apply sqrt_0.
  - apply np_mean_of_equal_reals.
Qed.

End Exact.

(* ===================================================================== *)
(** * ActiveLearner: the buffer across calls *)
(* ===================================================================== *)

Lemma n_rows_appended {A : Type} (a b : ndarray A) :
  n_rows (appended a b) = n_rows a + n_rows b.
Proof. unfold n_rows, appended. cbn. apply length_app. Qed.

Section ActiveLearnerBuffer.
Context {F L Est : Type} {E : Estimator F L Est} {C : Collaborators F L}.
Import ActiveLearner.

Local Abbreviation learner := (ActiveLearner.t F L Est).

Lemma _fit_to_known_keeps_toggle (bootstrap : bool) (self : learner) :
  force_all_finite (snd (_fit_to_known bootstrap self)) = force_all_finite self.
Proof.
  unfold _fit_to_known. run_py.
  destruct bootstrap; cbn [negb].
  - destruct (X_training self) eqn:HX; [| reflexivity].
    destruct (y_training self) eqn:Hy; [| reflexivity].
    match goal with
    | |- context [estimator_fit ?a ?b self] =>
        destruct (estimator_fit_frame a b self) as (_ & _ & H); exact H
    end.
  - destruct (estimator_fit_frame (X_training self) (y_training self) self)
      as (_ & _ & H); exact H.
Qed.

(** What one returned [teach] does to an aligned buffer. *)
Lemma teach_returns_buffer (X : ndarray F) (y : ndarray L) (bootstrap only_new : bool)
    (self self' : learner) :
  aligned self ->
  teach X y bootstrap only_new self = (Return tt, self') ->
  aligned self' /\
  buffer_rows (X_training self')
    = buffer_rows (X_training self) ++ (if only_new then [] else rows X) /\
  buffer_rows (y_training self')
    = buffer_rows (y_training self) ++ (if only_new then [] else rows y).
Proof.
  intros Hal Ht. destruct only_new.
  - assert (HX : X_training self' = X_training self /\ y_training self' = y_training self).
    { unfold teach in Ht. run_py.
      destruct (check_X_y checking_policy (force_all_finite self) X y) as [[] | e];
        [| discriminate].
      destruct (_fit_on_new_frame X y bootstrap self) as [H1 H2].
      rewrite Ht in H1, H2. auto. }
    destruct HX as [HX Hy]. unfold aligned. rewrite HX, Hy, !app_nil_r. auto.
  - unfold teach in Ht. cbn [negb] in Ht. unfold bind in Ht.
    destruct (_add_training_data X y self) as [[[] | e] s1] eqn:Ha; [| discriminate].
    destruct (_add_training_data_returns X y self s1 Ha) as (Hc & _ & _ & Hbuf).
    apply check_X_y_passes in Hc. destruct Hc as [Hrows _].
    destruct (_fit_to_known_frame bootstrap s1) as [H1 H2].
    rewrite Ht in H1, H2. cbn [snd] in H1, H2.
    unfold aligned in *. rewrite H1, H2.
    destruct (X_training self) as [X_old |].
    + destruct Hbuf as (y_old & Hy & -> & ->). rewrite Hy in *.
      rewrite !n_rows_appended. cbn. split; [lia | auto].
    + destruct Hbuf as [-> ->].
      destruct (y_training self); [destruct Hal |]. cbn. auto.
Qed.

(** [fit] resets the buffer: whatever the learner held, a call that
    returned leaves [X_training] and [y_training] holding the batch, with as
    many samples as labels, and the validation toggle as it was. *)
Theorem fit_returned_resets_aligned (X : ndarray F) (y : ndarray L) (bootstrap : bool)
    (self self' : learner) :
  fit X y bootstrap self = (Return tt, self') ->
  X_training self' = Some X /\
  y_training self' = Some y /\
  aligned self' /\
  force_all_finite self' = force_all_finite self.
Proof.
  unfold fit. run_py.
  destruct (check_X_y checking_policy (force_all_finite self) X y) as [[] | e] eqn:Hc;
    [| discriminate].
  apply check_X_y_passes in Hc. destruct Hc as [Hrows _].
  unfold set_X_training, set_y_training. cbn [fst snd].
  match goal with
  | |- _fit_to_known ?b ?s = _ -> _ =>
      intros Hf;
      pose proof (_fit_to_known_frame b s) as [H1 H2];
      pose proof (_fit_to_known_keeps_toggle b s) as H3;
      rewrite Hf in H1, H2, H3; cbn in H1, H2, H3
  end.
  unfold aligned. rewrite H1, H2. auto.
Qed.

(** A sequence of [teach] calls that all returned, on a learner whose
    buffers were aligned: the buffers are still aligned, and they hold the
    rows they held followed by the batches of the calls made without
    [only_new], in the order of the calls. *)
Theorem teach_all_accumulates_in_order (calls : list (call F L)) (self self' : learner) :
  aligned self ->
  teach_all calls self = (Return tt, self') ->
  aligned self' /\
  buffer_rows (X_training self')
    = buffer_rows (X_training self) ++ taught_rows call_X calls /\
  buffer_rows (y_training self')
    = buffer_rows (y_training self) ++ taught_rows call_y calls.
Proof.
  revert self. induction calls as [| c calls IH]; intros self Hal Hrun.
  - cbn in Hrun. injection Hrun as <-. cbn. rewrite !app_nil_r. auto.
  - unfold teach_all in Hrun. cbn [for_each] in Hrun. unfold bind in Hrun.
    destruct (teach (call_X c) (call_y c) (call_bootstrap c) (call_only_new c) self)
      as [[[] | e] s1] eqn:Ht; [| discriminate].
    destruct (teach_returns_buffer _ _ _ _ _ _ Hal Ht) as (Hal1 & HX1 & Hy1).
    destruct (IH s1 Hal1 Hrun) as (Hal' & HX' & Hy').
    split; [exact Hal' |].
    unfold taught_rows in *. cbn [flat_map].
    rewrite HX', Hy', HX1, Hy1, <- !app_assoc. auto.
Qed.

(** On a learner that holds no samples, [teach] without [only_new] is
    [fit]: the same outcome and the same learner afterwards. *)
Theorem teach_on_empty_buffer_is_fit (X : ndarray F) (y : ndarray L) (bootstrap : bool)
    (self : learner) :
  X_training self = None ->
  teach X y bootstrap false self = fit X y bootstrap self.
Proof.
  intros HX. unfold teach, fit, _add_training_data. run_py.
  destruct (check_X_y checking_policy (force_all_finite self) X y) as [[] | e];
    [| reflexivity].
  rewrite HX. reflexivity.
Qed.

(** The constructor checks nothing: when it returns, the learner holds the
    initial data as given and the toggle as given, and a learner built
    without samples holds the model untouched. *)
Theorem init_stores_data_unchecked (est : Est) (faf bootstrap_init : bool)
    (X0 : option (ndarray F)) (y0 : option (ndarray L)) (self : learner) :
  __init__ est faf X0 y0 bootstrap_init = Return self ->
  X_training self = X0 /\
  y_training self = y0 /\
  force_all_finite self = faf /\
  (X0 = None -> estimator self = est).
Proof.
  unfold __init__. destruct X0 as [X0 |].
  - match goal with
    | |- context [_fit_to_known ?b ?s] =>
        pose proof (_fit_to_known_frame b s) as [H1 H2];
        pose proof (_fit_to_known_keeps_toggle b s) as H3;
        destruct (_fit_to_known b s) as [[[] | e] s1]
    end; [| discriminate].
    intros [= <-]. cbn in H1, H2, H3. repeat split; auto. discriminate.
  - intros [= <-]. cbn. auto.
Qed.

End ActiveLearnerBuffer.

(* ===================================================================== *)
(** * Committee: what the loops over the members do *)
(* ===================================================================== *)

Lemma Forall2_compose {A B D : Type} (R : A -> B -> Prop) (S : B -> D -> Prop)
    (a : list A) (b : list B) (c : list D) :
  Forall2 R a b -> Forall2 S b c ->
  Forall2 (fun x z => exists y, R x y /\ S y z) a c.
Proof.
  intros Hab. revert c. induction Hab as [| x y a b Hxy _ IH]; intros c Hbc;
    inversion Hbc; subst; constructor; eauto.
Qed.

Section CommitteeMembers.
Context {F L Est : Type} {num : Num F} {lab : Label L} {cast : FloatCast F L}
        {E : Estimator F L Est} {C : Collaborators F L}.
Import Committee.

Local Abbreviation committee := (Committee.t F L Est).
Local Abbreviation learner := (ActiveLearner.t F L Est).

(** A loop that returned ran the body on every member, and every run
    returned. *)
Lemma each_learner_returns (body : M learner unit) (ls ls' : list learner) :
  each_learner body ls = (Return tt, ls') ->
  Forall2 (fun l l' => body l = (Return tt, l')) ls ls'.
Proof.
  revert ls'. induction ls as [| l ls IH]; intros ls'; cbn.
  - intros [= <-]. constructor.
  - destruct (body l) as [[[] | e] l1] eqn:Hb; [| discriminate].
    destruct (each_learner body ls) as [r rest'] eqn:Hr.
    intros [= -> <-]. constructor; auto.
Qed.

(** A loop stops at the first member on which the body raises: the members
    before it have been through the body, the ones after it have not. *)
Lemma each_learner_stops (body : M learner unit) (pre post : list learner)
    (m m' : learner) (e : exn) :
  Forall (fun l => fst (body l) = Return tt) pre ->
  body m = (Raise e, m') ->
  each_learner body (pre ++ m :: post)
  = (Raise e, map (fun l => snd (body l)) pre ++ m' :: post).
Proof.
  intros Hpre Hm. induction Hpre as [| l pre Hl _ IH]; cbn.
  - rewrite Hm. reflexivity.
  - destruct (body l) as [[[] | e0] l1]; cbn in Hl; [| discriminate].
    rewrite IH. reflexivity.
Qed.


Lemma for_learners_frame (body : M learner unit) (self : committee) :
  classes_ (snd (for_learners body self)) = classes_ self /\
  n_classes_ (snd (for_learners body self)) = n_classes_ self /\
  X_training (snd (for_learners body self)) = X_training self /\
  learner_list (snd (for_learners body self)) = snd (each_learner body (learner_list self)) /\
  fst (for_learners body self) = fst (each_learner body (learner_list self)).
Proof.
  unfold for_learners, zoom. destruct (each_learner body (learner_list self)). cbn. auto.
Qed.

Lemma for_learners_returns (body : M learner unit) (self self' : committee) :
  for_learners body self = (Return tt, self') ->
  classes_ self' = classes_ self /\
  n_classes_ self' = n_classes_ self /\
  Forall2 (fun l l' => body l = (Return tt, l')) (learner_list self) (learner_list self').
Proof.
  intros H. destruct (for_learners_frame body self) as (Hc & Hn & _ & Hl & Hr).
  rewrite H in *. cbn in *. repeat split; auto.
  rewrite Hl. apply each_learner_returns.
  destruct (each_learner body (learner_list self)); cbn in *. congruence.
Qed.

Lemma _add_training_data_keeps_model (X : ndarray F) (y : ndarray L) (l : learner) :
  ActiveLearner.estimator (snd (ActiveLearner._add_training_data X y l))
  = ActiveLearner.estimator l.
Proof.
  unfold ActiveLearner._add_training_data. run_py.
  destruct (check_X_y checking_policy (ActiveLearner.force_all_finite l) X y) as [[] | e];
    [| reflexivity].
  destruct (ActiveLearner.X_training l) as [X_old |]; [| reflexivity].
  destruct (data_vstack X_old X) as [X_new | e]; cbn.
  - destruct (ActiveLearner.y_training l) as [y_old |]; cbn; [| reflexivity].
    destruct (data_vstack y_old y) as [y_new | e]; cbn; [reflexivity |].
    destruct e; reflexivity.
  - destruct e; reflexivity.
Qed.

(** [Committee.teach] adds the batch to every member, with [only_new] as
    without it: after a call that returned there are as many members as
    before and the buffers of each hold the batch after what they held. *)
Theorem committee_teach_grows_every_member (X : ndarray F) (y : ndarray L)
    (bootstrap only_new : bool) (self self' : committee) :
  teach X y bootstrap only_new self = (Return tt, self') ->
  length (learner_list self') = length (learner_list self) /\
  Forall2 (grown_by X y) (learner_list self) (learner_list self').
Proof.
  intros Ht. unfold teach in Ht. unfold bind in Ht.
  destruct (_add_training_data X y self) as [[[] | e] s1] eqn:Ha; [| discriminate].
  assert (Hfit : exists body s2,
             for_learners body s1 = (Return tt, s2) /\
             (forall l, ActiveLearner.X_training (snd (body l)) = ActiveLearner.X_training l /\
                        ActiveLearner.y_training (snd (body l)) = ActiveLearner.y_training l) /\
             learner_list self' = learner_list s2).
  { destruct only_new; cbn [negb] in Ht.
    - unfold _fit_on_new in Ht.
      destruct (for_learners (ActiveLearner._fit_on_new X y bootstrap) s1)
        as [[[] | e] s2] eqn:Hf; [| discriminate].
      exists (ActiveLearner._fit_on_new X y bootstrap), s2.
      split; [exact Hf |]. split; [apply _fit_on_new_frame |].
      injection Ht as <-. reflexivity.
    - unfold _fit_to_known in Ht.
      destruct (for_learners (ActiveLearner._fit_to_known bootstrap) s1)
        as [[[] | e] s2] eqn:Hf; [| discriminate].
      exists (ActiveLearner._fit_to_known bootstrap), s2.
      split; [exact Hf |]. split; [apply _fit_to_known_frame |].
      injection Ht as <-. reflexivity. }
  destruct Hfit as (body & s2 & Hf & Hframe & Hlist).
  apply for_learners_returns in Ha, Hf.
  destruct Ha as (_ & _ & Ha), Hf as (_ & _ & Hf).
  pose proof (Forall2_compose _ _ _ _ _ Ha Hf) as H.
  rewrite Hlist. split.
  - symmetry. eapply Forall2_length. exact H.
  - eapply Forall2_impl; [| exact H]. cbn.
    intros l l' (l1 & Hadd & Hbody).
    destruct (Hframe l1) as [HX Hy]. rewrite Hbody in HX, Hy. cbn in HX, Hy.
    destruct (_add_training_data_returns X y l l1 Hadd) as (_ & _ & _ & Hbuf).
    unfold grown_by. rewrite HX, Hy. exact Hbuf.
Qed.

(** [Committee.fit] replaces the training data of every member by the
    batch and fits every model once: on the whole batch when no [bootstrap]
    keyword reaches the members, and, when [bootstrap=True] is handed on
    through [**fit_kwargs], on rows of the batch drawn with the same indices
    for the samples and for the labels. *)
Theorem committee_fit_replaces_every_buffer (X : ndarray F) (y : ndarray L)
    (bootstrap : bool) (self self' : committee) :
  fit X y bootstrap self = (Return tt, self') ->
  Forall2 (fun l l' =>
             ActiveLearner.X_training l' = Some X /\
             ActiveLearner.y_training l' = Some y /\
             if bootstrap
             then exists idx,
                    est_fit (Some (take_rows X idx)) (Some (take_rows y idx))
                      (ActiveLearner.estimator l)
                    = (Return tt, ActiveLearner.estimator l')
             else est_fit (Some X) (Some y) (ActiveLearner.estimator l)
                  = (Return tt, ActiveLearner.estimator l'))
          (learner_list self) (learner_list self').
Proof.
  intros Ht. unfold fit in Ht. unfold bind in Ht.
  destruct (for_learners (ActiveLearner.fit X y bootstrap) self) as [[[] | e] s1] eqn:Hf;
    [| discriminate].
  injection Ht as <-. cbn [learner_list].
  apply for_learners_returns in Hf. destruct Hf as (_ & _ & Hf).
  eapply Forall2_impl; [| exact Hf]. cbn.
  intros l l'. unfold ActiveLearner.fit. run_py.
  destruct (check_X_y checking_policy (ActiveLearner.force_all_finite l) X y) as [[] | e];
    [| discriminate].
  unfold ActiveLearner.set_X_training, ActiveLearner.set_y_training,
    ActiveLearner._fit_to_known, ActiveLearner.estimator_fit. run_py.
  cbn [ActiveLearner.estimator ActiveLearner.X_training ActiveLearner.y_training].
  destruct bootstrap; cbn [negb].
  - match goal with
    | |- context [est_fit ?a ?b ?e] => destruct (est_fit a b e) as [[[] | e0] est'] eqn:He
    end; [| discriminate].
    intros [= <-]. cbn. split; [reflexivity |]. split; [reflexivity |].
    eexists. exact He.
  - match goal with
    | |- context [est_fit ?a ?b ?e] => destruct (est_fit a b e) as [[[] | e0] est'] eqn:He
    end; [| discriminate].
    intros [= <-]. cbn. split; [reflexivity |]. split; [reflexivity |]. exact He.
Qed.

(** [Committee.teach] is not atomic.  When [_add_training_data] raises on a
    member, the call raises the same exception; the members before that one
    keep the batch in their buffers, the members after it are untouched, no
    model has been refitted and [classes_] is what it was. *)
Theorem committee_teach_failure_is_partial (X : ndarray F) (y : ndarray L)
    (bootstrap only_new : bool) (self : committee)
    (pre post : list learner) (m m' : learner) (e : exn) :
  learner_list self = pre ++ m :: post ->
  Forall (fun l => fst (ActiveLearner._add_training_data X y l) = Return tt) pre ->
  ActiveLearner._add_training_data X y m = (Raise e, m') ->
  exists self',
    teach X y bootstrap only_new self = (Raise e, self') /\
    learner_list self'
      = map (fun l => snd (ActiveLearner._add_training_data X y l)) pre ++ m' :: post /\
    Forall2 (grown_by X y) pre
      (map (fun l => snd (ActiveLearner._add_training_data X y l)) pre) /\
    map ActiveLearner.estimator (learner_list self')
      = map ActiveLearner.estimator (learner_list self) /\
    classes_ self' = classes_ self /\
    n_classes_ self' = n_classes_ self.
Proof.
  intros Hls Hpre Hm.
  pose proof (each_learner_stops (ActiveLearner._add_training_data X y)
                pre post m m' e Hpre Hm) as Hloop.
  unfold teach, _add_training_data, bind, for_learners, zoom.
  rewrite Hls, Hloop. eexists. split; [reflexivity |].
  cbn [learner_list classes_ n_classes_ set_learner_list].
  split; [reflexivity |]. split; [| split; [| auto]].
  - clear Hls Hloop. induction Hpre as [| l pre Hl _ IH]; cbn [map]; constructor; auto.
    destruct (ActiveLearner._add_training_data X y l) as [[[] | e0] l1] eqn:Ha;
      cbn [fst snd] in *; [| discriminate].
    destruct (_add_training_data_returns X y l l1 Ha) as (_ & _ & _ & Hbuf). exact Hbuf.
  - rewrite !map_app, map_map. cbn [map]. f_equal.
    + apply map_ext. intros l. apply _add_training_data_keeps_model.
    + f_equal. pose proof (_add_training_data_keeps_model X y m) as H.
      rewrite Hm in H. exact H.
Qed.


End CommitteeMembers.

(* ===================================================================== *)
(** * Committee: votes of members that agree on the labels, and failures *)
(* ===================================================================== *)

Section CommitteeConsensus.
Context {F L Est : Type} {num : Num F} {lab : Label L} {cast : FloatCast F L}
        {E : Estimator F L Est} {C : Collaborators F L}.
Import Committee.

Local Abbreviation committee := (Committee.t F L Est).
Local Abbreviation learner := (ActiveLearner.t F L Est).

(** When the members know the same label set, [vote_proba] stores the rows
    the members predict as they are: the row for sample [i] and member [j]
    is row [i] of what member [j] predicts. *)
Theorem vote_proba_copies_rows_when_labels_agree (self : committee) (X : ndarray F)
    (T : ndarray3 F) :
  check_class_labels (map known_classes (learner_list self)) = true ->
  vote_proba self X = Return T ->
  shape3 T = (n_rows X, length (learner_list self), n_classes_ self) /\
  forall j m, nth_error (learner_list self) j = Some m ->
    exists p,
      ActiveLearner.predict_proba m X = Return p /\
      (length p = n_rows X ->
       Forall (fun r => length r = n_classes_ self) p ->
       forall i p_i, nth_error p i = Some p_i ->
         exists sample,
           nth_error (cells T) i = Some sample /\
           nth_error sample j = Some p_i).
Proof.
  intros Hsame HT. rewrite (vote_proba_direct_branch self X Hsame) in HT.
  unfold with_shape in HT.
  match type of HT with
  | match ?fold with _ => _ end = _ => destruct fold as [cells' | e] eqn:Hfold
  end; [| discriminate].
  injection HT as <-. cbn [shape3 cells]. split; [reflexivity |].
  unfold enumerate in Hfold.
  destruct (np_zeros3_cells (F := F) (n_rows X) (length (learner_list self))
              (n_classes_ self)) as [Hzn Hzm].
  assert (Hcol : forall lrn vals,
             obind (ActiveLearner.predict_proba lrn X)
               (broadcast_block (n_rows X) (n_classes_ self)) = Return vals ->
             length vals = n_rows X).
  { intros lrn vals. destruct (ActiveLearner.predict_proba lrn X); cbn [obind];
      [apply broadcast_block_length | discriminate]. }
  destruct (fill_spec _ (n_rows X) (length (learner_list self)) Hcol
              (learner_list self) 0 _ cells' Hzn Hzm ltac:(lia) Hfold)
    as (_ & _ & Hcols & _).
  intros j m Hj. destruct (Hcols j m Hj) as (vals & Hvals & Hall).
  destruct (ActiveLearner.predict_proba m X) as [p | e]; cbn [obind] in Hvals;
    [| discriminate].
  exists p. split; [reflexivity |].
  intros Hp Hwidth i p_i Hi.
  rewrite (broadcast_block_same _ _ _ Hp Hwidth) in Hvals. injection Hvals as <-.
  assert (Hin : i < n_rows X) by (rewrite <- Hp; apply nth_error_Some; congruence).
  destruct (Hall i Hin) as (sample & row & Hsample & Hrow & Hentry).
  rewrite Hi in Hrow. injection Hrow as <-.
  exists sample. auto.
Qed.

(** A member whose [predict_proba] raises makes the committee raise: none
    of [vote_proba], [predict_proba] and [predict] returns. *)
Theorem member_failure_fails_committee (self : committee) (X : ndarray F)
    (m : learner) (e : exn) :
  In m (learner_list self) ->
  ActiveLearner.predict_proba m X = Raise e ->
  exists e',
    vote_proba self X = Raise e' /\
    predict_proba self X = Raise e' /\
    predict self X = Raise e'.
Proof.
  intros Hin Hm.
  assert (Hvote : exists e', vote_proba self X = Raise e').
  { destruct (check_class_labels (map known_classes (learner_list self))) eqn:Hc.
    - rewrite (vote_proba_direct_branch self X Hc). unfold enumerate.
      match goal with
      | |- context [fold_left (fill_step ?col) (enumerate_from 0 ?ls) (Return ?P)] =>
          destruct (fill_raises col ls 0 P m e Hin) as [e' He']
      end.
      + rewrite Hm. reflexivity.
      + rewrite He'. cbn. eauto.
    - rewrite (vote_proba_scatter_branch self X Hc). unfold enumerate.
      match goal with
      | |- context [fold_left (fill_step ?col) (enumerate_from 0 ?ls) (Return ?P)] =>
          destruct (fill_raises col ls 0 P m e Hin) as [e' He']
      end.
      + unfold scattered_block. rewrite Hm. reflexivity.
      + rewrite He'. cbn. eauto. }
  destruct Hvote as [e' He']. exists e'.
  unfold predict, predict_proba. rewrite He'. cbn. auto.
Qed.

(** [predict] gives one label per sample, each of them one of [classes_];
    it cannot return on samples when the committee knows no class. *)
Theorem predict_gives_one_known_label_per_sample (self : committee) (X : ndarray F)
    (labels : list L) :
  predict self X = Return labels ->
  length labels = n_rows X /\
  Forall (fun c => In c (classes_ self)) labels /\
  (n_rows X <> 0 -> n_classes_ self <> 0).
Proof.
  unfold predict, predict_proba.
  destruct (vote_proba self X) as [T | e] eqn:HT; cbn [obind]; [| discriminate].
  destruct (vote_proba_shape self X T HT) as (Hshape & Hlen & _).
  destruct (omap np_argmax (np_mean_axis1 T)) as [idx | e] eqn:Hidx; cbn [obind];
    [| discriminate].
  intros Hlab.
  pose proof (omap_Forall2 _ _ _ Hidx) as Hi.
  pose proof (omap_Forall2 _ _ _ Hlab) as Hl.
  assert (Hmean : length (np_mean_axis1 T) = n_rows X).
  { unfold np_mean_axis1. rewrite Hshape, length_map. exact Hlen. }
  split; [| split].
  - rewrite <- (Forall2_length Hl), <- (Forall2_length Hi). exact Hmean.
  - clear - Hl. induction Hl as [| i c idx labels Hic _ IH]; constructor; auto.
    destruct (nth_error (classes_ self) i) eqn:Hn; [| discriminate].
    injection Hic as <-. eapply nth_error_In; eauto.
  - intros Hrows Hzero.
    unfold np_mean_axis1 in Hi. rewrite Hshape, Hzero in Hi. cbn [seq map] in Hi.
    destruct (cells T) as [| sample rest]; [cbn in Hlen; congruence |].
    cbn [map] in Hi. inversion Hi as [| ? ? ? ? Hrow]; subst. discriminate Hrow.
Qed.

End CommitteeConsensus.

(* ===================================================================== *)
(** * DeepCommittee *)
(* ===================================================================== *)

Lemma fold_left_enumerate_related {A B1 B2 : Type}
    (f : A -> nat * B1 -> A) (g : A -> nat * B2 -> A) (l1 : list B1) (l2 : list B2) :
  Forall2 (fun x y => forall acc i, f acc (i, x) = g acc (i, y)) l1 l2 ->
  forall s a, fold_left f (enumerate_from s l1) a = fold_left g (enumerate_from s l2) a.
Proof.
  induction 1 as [| x y l1 l2 Hxy _ IH]; intros s a; cbn; [reflexivity |].
  rewrite Hxy. apply IH.
Qed.

Lemma map_eq_Forall2 {A B D : Type} (f : A -> D) (g : B -> D) (l1 : list A) (l2 : list B) :
  map f l1 = map g l2 -> Forall2 (fun x y => f x = g y) l1 l2.
Proof.
  revert l2. induction l1 as [| x l1 IH]; intros [| y l2] H; cbn in H;
    try discriminate; constructor.
  - congruence.
  - apply IH. congruence.
Qed.

Section DeepCommitteeFacts.
Context {F L Est : Type} {num : Num F} {lab : Label L} {cast : FloatCast F L}
        {E : Estimator F L Est} {C : Collaborators F L}.
Import DeepCommittee.

Local Abbreviation deep_committee := (DeepCommittee.t L Est).
Local Abbreviation deep_learner := (DeepActiveLearner.t Est).



(** The prediction methods of [DeepCommittee] are those of [Committee]: on
    the same models and the same classes, [vote], [vote_proba],
    [predict_proba] and [predict] give the same outcome. *)
Theorem deep_committee_predicts_as_committee (c : Committee.t F L Est)
    (d : deep_committee) (X : ndarray F) :
  same_models c d ->
  Committee.vote c X = vote d X /\
  Committee.vote_proba c X = vote_proba d X /\
  Committee.predict_proba c X = predict_proba d X /\
  Committee.predict c X = predict d X.
Proof.
  intros (Hmodels & Hclasses & Hn).
  pose proof (map_eq_Forall2 _ _ _ _ Hmodels) as Hall.
  assert (Hlen : length (Committee.learner_list c) = length (learner_list d))
    by (eapply Forall2_length; eauto).
  assert (Hknown : map Committee.known_classes (Committee.learner_list c)
                   = map known_classes (learner_list d)).
  { clear - Hall. induction Hall as [| x y l1 l2 Hxy _ IH]; cbn; [reflexivity |].
    rewrite IH. unfold Committee.known_classes, known_classes. rewrite Hxy. reflexivity. }
  assert (Hvote : Committee.vote c X = vote d X).
  { unfold Committee.vote, vote, vote_loop, enumerate. rewrite Hlen.
    apply fold_left_enumerate_related.
    eapply Forall2_impl; [| exact Hall]. cbn. intros x y Hxy acc i.
    unfold ActiveLearner.predict, DeepActiveLearner.predict. rewrite Hxy. reflexivity. }
  assert (Hproba : Committee.vote_proba c X = vote_proba d X).
  { unfold Committee.vote_proba, vote_proba, enumerate.
    rewrite Hknown, Hlen, Hn, Hclasses.
    destruct (check_class_labels (map known_classes (learner_list d)));
      apply fold_left_enumerate_related;
      (eapply Forall2_impl; [| exact Hall]); cbn; intros x y Hxy acc i;
      unfold ActiveLearner.predict_proba, DeepActiveLearner.predict_proba;
      rewrite Hxy; reflexivity. }
  split; [exact Hvote |]. split; [exact Hproba |].
  assert (Hmean : Committee.predict_proba c X = predict_proba d X)
    by (unfold Committee.predict_proba, predict_proba; rewrite Hproba; reflexivity).
  split; [exact Hmean |].
  unfold Committee.predict, predict. rewrite Hmean, Hclasses. reflexivity.
Qed.

Context {laws : LabelLaws L}.

Lemma deep_set_classes_establishes (self : deep_committee) :
  fst (_set_classes self) = Return tt /\
  learner_list (snd (_set_classes self)) = learner_list self /\
  classes_are_union (snd (_set_classes self)).
Proof.
  unfold _set_classes, classes_are_union. cbn.
  do 4 (split; [reflexivity |]).
  split; [apply sorted_union_sorted |].
  split; [apply strictly_sorted_NoDup, sorted_union_sorted |].
  intros l. split.
  - intros Hin. apply sorted_union_In in Hin. destruct Hin as (s & Hs & Hl).
    apply in_map_iff in Hs. destruct Hs as (m & <- & Hm). eauto.
  - intros (m & Hm & Hl). apply sorted_union_In.
    exists (known_classes m). split; [apply in_map; assumption | assumption].
Qed.


(** A [DeepCommittee] is built with [classes_] the sorted union of the
    labels its members know. *)
Theorem deep_committee_init_sets_classes (learners : list deep_learner) :
  learner_list (__init__ learners) = learners /\
  classes_are_union (__init__ learners).
Proof.
  unfold __init__.
  match goal with
  | |- context [_set_classes ?s] =>
      destruct (deep_set_classes_establishes s) as (_ & Hl & Hunion)
  end.
  split; [exact Hl | exact Hunion].
Qed.

End DeepCommitteeFacts.

(* ===================================================================== *)
(** * BayesianOptimizer: ties and labels that are not scalars *)
(* ===================================================================== *)

Lemma map_snd_combine {A B : Type} (a : list A) (b : list B) :
  length a = length b -> map snd (combine a b) = b.
Proof.
  revert b. induction a as [| x a IH]; intros [| y b] H; cbn in *; try discriminate;
    [reflexivity |].
  rewrite IH by congruence. reflexivity.
Qed.

Lemma nth_error_combine {A B : Type} (a : list A) (b : list B) (i : nat) (x : A) (y : B) :
  nth_error a i = Some x -> nth_error b i = Some y ->
  nth_error (combine a b) i = Some (x, y).
Proof.
  revert b i. induction a as [| a0 a IH]; intros b i Ha Hb.
  - destruct i; discriminate.
  - destruct b as [| b0 b]; [destruct i; discriminate |].
    destruct i as [| i]; cbn in *.
    + congruence.
    + apply IH; assumption.
Qed.

Lemma scalar_ravel_length {A : Type} (rs : list (list A)) :
  Forall (fun r => length r = 1) rs -> length (concat rs) = length rs.
Proof.
  induction 1 as [| r rs Hr _ IH]; cbn; [reflexivity |].
  rewrite length_app, IH, Hr. reflexivity.
Qed.

Section FirstMaximum.
Context {F : Type} {num : Num F} {ord : NumOrder F}.

(** The first maximum of a list stays the first maximum when entries that
    do not exceed it are appended. *)
Lemma first_max_app_left (l1 l2 : list F) (i : nat) (m : F) :
  first_max_at l1 i m ->
  (forall w, In w l2 -> fltb m w = false) ->
  first_max_at (l1 ++ l2) i m.
Proof.
  intros (Hnth & Hmax & Hfirst) Hl2.
  assert (Hi : i < length l1) by (apply nth_error_Some; congruence).
  repeat split.
  - rewrite nth_error_app1 by assumption. exact Hnth.
  - intros v Hin. apply in_app_or in Hin. destruct Hin; auto.
  - intros j w Hj Hw. rewrite nth_error_app1 in Hw by lia. eauto.
Qed.

(** The first maximum of appended entries that exceeds every earlier entry
    is the first maximum of the whole. *)
Lemma first_max_app_right (l1 l2 : list F) (k : nat) (m : F) :
  first_max_at l2 k m ->
  (forall w, In w l1 -> fltb w m = true) ->
  first_max_at (l1 ++ l2) (length l1 + k) m.
Proof.
  intros (Hnth & Hmax & Hfirst) Hl1. repeat split.
  - rewrite nth_error_app2 by lia.
    replace (length l1 + k - length l1) with k by lia. exact Hnth.
  - intros v Hin. apply in_app_or in Hin. destruct Hin as [Hin | Hin]; auto.
    destruct (fltb m v) eqn:Hmv; [| reflexivity].
    rewrite <- (fltb_irrefl m). symmetry. eapply fltb_trans; eauto.
  - intros j w Hj Hw. destruct (Nat.lt_ge_cases j (length l1)) as [Hlt | Hge].
    + rewrite nth_error_app1 in Hw by assumption. apply Hl1. eapply nth_error_In; eauto.
    + rewrite nth_error_app2 in Hw by assumption. apply (Hfirst (j - length l1)); [lia | exact Hw].
Qed.

End FirstMaximum.

Section BayesianOptimizerTies.
Context {F Est : Type} {num : Num F} {E : Estimator F F Est} {C : Collaborators F F}.
Import BayesianOptimizer.

Local Abbreviation optimizer := (BayesianOptimizer.t F Est).

Lemma earliest_max_intro (pairs : list (list F * F)) (self : optimizer)
    (i : nat) (x : list F) (v : F) :
  nth_error pairs i = Some (x, v) ->
  first_max_at (map snd pairs) i v ->
  get_max self = (Some x, Val [v]) ->
  earliest_max pairs self.
Proof.
  intros Hnth Hfirst Hget. destruct pairs as [| p pairs]; [destruct i; discriminate |].
  cbn. exists i, x, v. auto.
Qed.

(** [_set_max] raises, and leaves the optimizer as it was, on labels none
    of whose rows is a single entry. *)
Lemma _set_max_wide_raises (X y : ndarray F) (self : optimizer) :
  Forall (fun r => length r <> 1) (rows y) ->
  exists e, _set_max X y self = (Raise e, self).
Proof.
  intros Hwide. unfold _set_max. run_py.
  destruct (np_argmax (ravel y)) as [max_idx | e]; [| eauto].
  unfold retrieve_rows.
  destruct (nth_error (rows y) max_idx) as [y_row |] eqn:Hr; [| eauto].
  rewrite Forall_forall in Hwide. specialize (Hwide y_row (nth_error_In _ _ Hr)).
  destruct y_row as [| a [| b r]]; [| contradiction |];
    destruct (y_max self); cbn; eauto.
Qed.

(** Labels with several outputs per sample cannot be taught: when no row of
    [y] is a single entry, [teach] raises; the maximum is the one before the
    call, yet the batch has been added to the buffer and the model refitted
    whenever these two steps returned. *)
Theorem teach_on_wide_labels_raises_after_adding (X y : ndarray F)
    (bootstrap only_new : bool) (self : optimizer) :
  Forall (fun r => length r <> 1) (rows y) ->
  exists e self',
    teach X y bootstrap only_new self = (Raise e, self') /\
    get_max self' = get_max self /\
    forall b1 b2,
      ActiveLearner._add_training_data X y (base self) = (Return tt, b1) ->
      (if only_new then ActiveLearner._fit_on_new X y bootstrap b1
       else ActiveLearner._fit_to_known bootstrap b1) = (Return tt, b2) ->
      base self' = b2.
Proof.
  intros Hwide. unfold teach, inherited. run_py.
  destruct (ActiveLearner._add_training_data X y (base self)) as [[[] | e] b1] eqn:Ha.
  - destruct only_new; cbn [negb]; change (base (set_base b1 self)) with b1.
    + destruct (ActiveLearner._fit_on_new X y bootstrap b1) as [[[] | e] b2] eqn:Hf.
      * destruct (_set_max_wide_raises X y (set_base b2 (set_base b1 self)) Hwide)
          as [e He].
        exists e, (set_base b2 (set_base b1 self)). split; [exact He |].
        split; [reflexivity |]. intros b1' b2' [= <-] Hf'. cbn. congruence.
      * exists e, (set_base b2 (set_base b1 self)). split; [reflexivity |].
        split; [reflexivity |]. intros b1' b2' [= <-] Hf'. congruence.
    + destruct (ActiveLearner._fit_to_known bootstrap b1) as [[[] | e] b2] eqn:Hf.
      * destruct (_set_max_wide_raises X y (set_base b2 (set_base b1 self)) Hwide)
          as [e He].
        exists e, (set_base b2 (set_base b1 self)). split; [exact He |].
        split; [reflexivity |]. intros b1' b2' [= <-] Hf'. cbn. congruence.
      * exists e, (set_base b2 (set_base b1 self)). split; [reflexivity |].
        split; [reflexivity |]. intros b1' b2' [= <-] Hf'. congruence.
  - exists e, (set_base b1 self). split; [reflexivity |]. split; [reflexivity |].
    intros b1' b2 H. discriminate H.
Qed.

Context {ord : NumOrder F}.

(** One returned [teach] keeps the earliest maximum of the history. *)
Lemma teach_earliest_max (pairs : list (list F * F)) (X y : ndarray F)
    (bootstrap only_new : bool) (self self' : optimizer) :
  earliest_max pairs self ->
  scalar_labels y ->
  teach X y bootstrap only_new self = (Return tt, self') ->
  earliest_max (pairs ++ observed X y) self' /\
  map snd (observed X y) = ravel y.
Proof.
  intros Hinv Hsc Ht.
  apply teach_returns in Ht. destruct Ht as (b1 & b2 & Ha & _ & Hset).
  apply _add_training_data_returns in Ha. destruct Ha as (Hc & _).
  apply check_X_y_passes in Hc. destruct Hc as [Hrows _].
  assert (Hlabels : map snd (observed X y) = ravel y).
  { unfold observed. apply map_snd_combine. unfold ravel.
    rewrite scalar_ravel_length by exact Hsc. exact Hrows. }
  split; [| exact Hlabels].
  apply _set_max_returns in Hset.
  destruct Hset as (_ & max_idx & y_row & greater & Hi & Hy & Hg & Hres).
  destruct (batch_maximum y max_idx y_row Hsc Hi Hy) as (v & -> & Hv & Hvmax).
  apply np_argmax_first_max in Hi. destruct Hi as (m & Hfirst).
  assert (m = v) by (destruct Hfirst as (Hnth & _); congruence). subst m.
  change (y_max (set_base b2 self)) with (y_max self) in Hg.
  change (get_max (set_base b2 self)) with (get_max self) in Hres.
  assert (Hpair : forall x_row, retrieve_rows X max_idx = Return x_row ->
                                nth_error (observed X y) max_idx = Some (x_row, v)).
  { intros x_row Hx. unfold retrieve_rows in Hx.
    destruct (nth_error (rows X) max_idx) as [r |] eqn:Hr; [| discriminate].
    injection Hx as ->. apply nth_error_combine; assumption. }
  destruct pairs as [| p0 pairs].
  - cbn in Hinv. injection Hinv as HX Hymax. rewrite Hymax in Hg. cbn in Hg.
    injection Hg as <-. destruct Hres as (x_row & Hx & Hget).
    cbn [app]. apply earliest_max_intro with (i := max_idx) (x := x_row) (v := v); auto.
    rewrite Hlabels. exact Hfirst.
  - destruct Hinv as (i & x0 & v0 & Hnth0 & Hfirst0 & Hget0).
    injection Hget0 as HX0 Hy0. rewrite Hy0 in Hg. cbn in Hg. injection Hg as <-.
    destruct (fltb v0 v) eqn:Hlt.
    + destruct Hres as (x_row & Hx & Hget).
      apply earliest_max_intro
        with (i := length (p0 :: pairs) + max_idx) (x := x_row) (v := v); auto.
      * rewrite nth_error_app2 by lia.
        replace (length (p0 :: pairs) + max_idx - length (p0 :: pairs)) with max_idx by lia.
        auto.
      * rewrite map_app, Hlabels.
        rewrite <- (length_map snd (p0 :: pairs)).
        apply first_max_app_right; [exact Hfirst |].
        intros w Hw. destruct Hfirst0 as (_ & Hmax0 & _).
        destruct (fltb w v) eqn:Hwv; [reflexivity |].
        rewrite <- Hlt. symmetry. eapply fltb_negtrans; eauto.
    + apply earliest_max_intro with (i := i) (x := x0) (v := v0).
      * rewrite nth_error_app1 by (apply nth_error_Some; congruence). exact Hnth0.
      * rewrite map_app, Hlabels. apply first_max_app_left; [exact Hfirst0 |].
        intros w Hw. eapply fltb_negtrans; eauto.
      * rewrite Hres. unfold get_max. rewrite HX0, Hy0. reflexivity.
Qed.

Lemma teach_all_earliest_max (calls : list (call F)) (pairs : list (list F * F))
    (self self' : optimizer) :
  earliest_max pairs self ->
  Forall (fun c => scalar_labels (call_y c)) calls ->
  teach_all calls self = (Return tt, self') ->
  earliest_max (pairs ++ history_of calls) self' /\
  map snd (history_of calls) = labels_of calls.
Proof.
  revert pairs self.
  induction calls as [| c calls IH]; intros pairs self Hinv Hsc Hrun.
  - cbn in Hrun. injection Hrun as <-. cbn. rewrite app_nil_r. auto.
  - unfold teach_all in Hrun. cbn [for_each] in Hrun. unfold bind in Hrun.
    destruct (teach (call_X c) (call_y c) (call_bootstrap c) (call_only_new c) self)
      as [[[] | e] s1] eqn:Ht; [| discriminate].
    inversion Hsc as [| ? ? Hc Hcs]; subst.
    destruct (teach_earliest_max pairs _ _ _ _ _ _ Hinv Hc Ht) as [Hinv1 Hl1].
    destruct (IH _ s1 Hinv1 Hcs Hrun) as [Hinv' Hl'].
    cbn [history_of labels_of flat_map]. rewrite app_assoc, map_app.
    split; [exact Hinv' |].
    unfold history_of in Hl'. rewrite Hl', Hl1. reflexivity.
Qed.

(** Ties go to the earliest observation.  After any sequence of [teach]
    calls that returned on an optimizer built without data, the labels
    observed are those of the samples observed, in their order, and
    [(X_max, y_max)] is the first observed sample whose label is the maximum
    of them all, with that label. *)
Theorem get_max_is_earliest_maximum (est : Est) (faf bootstrap_init : bool)
    (calls : list (call F)) (self0 self : optimizer) :
  __init__ est faf None None bootstrap_init = Return self0 ->
  Forall (fun c => scalar_labels (call_y c)) calls ->
  teach_all calls self0 = (Return tt, self) ->
  map snd (history_of calls) = labels_of calls /\
  earliest_max (history_of calls) self.
Proof.
  intros Hinit Hsc Hrun. cbn in Hinit. injection Hinit as <-.
  assert (Hstart : earliest_max [] (mk (ActiveLearner.mk est None None faf) None NegInf))
    by reflexivity.
  destruct (teach_all_earliest_max calls [] _ self Hstart Hsc Hrun) as [Hinv Hl].
  auto.
Qed.

End BayesianOptimizerTies.

(* ===================================================================== *)
(** * CommitteeRegressor: the two forms of [predict], and failures *)
(* ===================================================================== *)

Section RegressorPredict.
Context {F Est : Type} {num : Num F} {sq : NumSqrt F}
        {E : Estimator F F Est} {C : Collaborators F F}.
Import CommitteeRegressor.

Local Abbreviation regressor := (CommitteeRegressor.t F Est).

Lemma regressor_vote_raises (self : regressor) (X : ndarray F)
    (lrn : ActiveLearner.t F F Est) (e : exn) :
  In lrn (learner_list self) ->
  regressor_column X lrn = Raise e ->
  exists e', vote self X = Raise e'.
Proof.
  intros Hin Hcol. unfold vote, enumerate.
  rewrite regressor_vote_fill_from.
  - eapply fill_raises; eauto.
  - intros P [= <-]. apply np_zeros2_shape.
Qed.

(** [predict] with and without [return_std] gives the same mean, one value
    per sample (and one deviation per sample); and when a regressor raises,
    or predicts a number of values that is neither one nor the number of
    samples, [predict] raises in both forms. *)
Theorem regressor_predict_forms_agree (self : regressor) (X : ndarray F) :
  (forall mean std,
     predict self X true = Return (MeanStd mean std) ->
     predict self X false = Return (Mean mean) /\
     length mean = n_rows X /\ length std = n_rows X) /\
  (forall lrn e,
     In lrn (learner_list self) ->
     ActiveLearner.predict lrn X = Raise e ->
     exists e', predict self X false = Raise e' /\ predict self X true = Raise e') /\
  (forall lrn values,
     In lrn (learner_list self) ->
     ActiveLearner.predict lrn X = Return values ->
     length values <> n_rows X -> length values <> 1 ->
     exists e', predict self X false = Raise e' /\ predict self X true = Raise e').
Proof.
  split; [| split].
  - intros mean std. unfold predict.
    destruct (vote self X) as [V | e] eqn:HV; cbn [obind negb]; [| discriminate].
    intros [= <- <-]. destruct (regressor_vote_returns self X V HV) as (Hlen & _).
    rewrite !length_map. auto.
  - intros lrn e Hin Hp.
    destruct (regressor_vote_raises self X lrn e Hin) as [e' He'].
    + unfold regressor_column. rewrite Hp. reflexivity.
    + exists e'. unfold predict. rewrite He'. auto.
  - intros lrn values Hin Hp Hn H1.
    assert (Hb : exists e, broadcast_to (n_rows X) values = Raise e).
    { unfold broadcast_to. destruct (Nat.eqb_spec (length values) (n_rows X));
        [contradiction |].
      destruct values as [| x [| ? ?]]; cbn in *; eauto. contradiction. }
    destruct Hb as [e Hb].
    destruct (regressor_vote_raises self X lrn e Hin) as [e' He'].
    + unfold regressor_column. rewrite Hp. exact Hb.
    + exists e'. unfold predict. rewrite He'. auto.
Qed.

End RegressorPredict.

(* ===================================================================== *)
(** * ActiveLearner: batches that are refused *)
(* ===================================================================== *)

Section ActiveLearnerRefusals.
Context {F L Est : Type} {E : Estimator F L Est} {C : Collaborators F L}.
Import ActiveLearner.

Local Abbreviation learner := (ActiveLearner.t F L Est).

(** [teach] refuses a batch without touching the learner in two cases: the
    batch fails the validation (as when samples and labels differ in
    number), with or without [only_new]; or it passes, but the shape of its
    samples is not the shape of the samples in the buffer.  Both raise a
    [ValueError] and leave the buffers, the model and the toggle as they
    were. *)
Theorem teach_refused_batch_keeps_learner (X : ndarray F) (y : ndarray L)
    (bootstrap : bool) (self : learner) :
  (forall only_new, n_rows X <> n_rows y ->
     exists msg, teach X y bootstrap only_new self = (Raise (ValueError msg), self)) /\
  (forall only_new e,
     check_X_y checking_policy (force_all_finite self) X y = Raise e ->
     (exists msg, e = ValueError msg) /\
     teach X y bootstrap only_new self = (Raise e, self)) /\
  (forall X_old,
     check_X_y checking_policy (force_all_finite self) X y = Return tt ->
     X_training self = Some X_old ->
     inner_shape X_old <> inner_shape X ->
     exists msg, teach X y bootstrap false self = (Raise (ValueError msg), self)).
Proof.
  split; [| split].
  - intros only_new Hne.
    pose proof (check_X_y_rows_differ checking_policy (force_all_finite self) X y Hne) as Hc.
    eexists. apply (rejected_call_keeps_learner X y bootstrap only_new self _ Hc).
  - intros only_new e Hc. split.
    + eapply check_X_y_raises_ValueError; eauto.
    + apply (rejected_call_keeps_learner X y bootstrap only_new self _ Hc).
  - intros X_old Hc HX Hne.
    eapply teach_sample_shape_mismatch_keeps_learner; eauto.
Qed.

End ActiveLearnerRefusals.

(* ===================================================================== *)
(** * The statements above on the sample data *)
(* ===================================================================== *)

Lemma fit_returned_resets_aligned_witness :
  exists self',
    ActiveLearner.fit Samples.X_two Samples.y_two false Samples.learner0
      = (Return tt, self') /\
    ActiveLearner.X_training self' = Some Samples.X_two /\
    ActiveLearner.y_training self' = Some Samples.y_two /\
    ActiveLearner.aligned self' /\
    ActiveLearner.force_all_finite self' = true.
Proof.
  exists (snd (ActiveLearner.fit Samples.X_two Samples.y_two false Samples.learner0)).
  split; [reflexivity |].
  apply (fit_returned_resets_aligned Samples.X_two Samples.y_two false Samples.learner0).
  reflexivity.
Defined.

Lemma teach_all_accumulates_in_order_witness :
  exists self',
    ActiveLearner.teach_all Samples.lessons Samples.learner0 = (Return tt, self') /\
    ActiveLearner.aligned self' /\
    ActiveLearner.buffer_rows (ActiveLearner.X_training self')
      = [[1%Q; 2%Q]; [3%Q; 4%Q]; [3%Q; 4%Q]; [5%Q; 6%Q]] /\
    ActiveLearner.buffer_rows (ActiveLearner.y_training self')
      = [[0%Z]; [1%Z]; [1%Z]; [0%Z]].
Proof.
  exists (snd (ActiveLearner.teach_all Samples.lessons Samples.learner0)).
  split; [reflexivity |].
  apply (teach_all_accumulates_in_order Samples.lessons Samples.learner0); reflexivity.
Defined.

Lemma teach_on_empty_buffer_is_fit_witness :
  ActiveLearner.teach Samples.X_one Samples.y_one false false Samples.empty_learner
  = ActiveLearner.fit Samples.X_one Samples.y_one false Samples.empty_learner.
Proof.
  apply (teach_on_empty_buffer_is_fit Samples.X_one Samples.y_one false
           Samples.empty_learner).
  reflexivity.
Defined.

(** Two samples with one label are accepted by the constructor. *)
Lemma init_stores_data_unchecked_witness :
  exists self : ActiveLearner.t Q Z (Samples.PriorClassifier Z),
    ActiveLearner.__init__ {| Samples.prior_labels := None |} true
      (Some Samples.X_two) (Some Samples.y_one) false = Return self /\
    ActiveLearner.X_training self = Some Samples.X_two /\
    ActiveLearner.y_training self = Some Samples.y_one /\
    ActiveLearner.force_all_finite self = true.
Proof.
  assert (Hinit : ActiveLearner.__init__ {| Samples.prior_labels := None |} true
                    (Some Samples.X_two) (Some Samples.y_one) false
                  = Return {| ActiveLearner.estimator :=
                                {| Samples.prior_labels := Some [1%Z] |};
                              ActiveLearner.X_training := Some Samples.X_two;
                              ActiveLearner.y_training := Some Samples.y_one;
                              ActiveLearner.force_all_finite := true |})
    by reflexivity.
  eexists. split; [exact Hinit |].
  destruct (init_stores_data_unchecked {| Samples.prior_labels := None |} true false
              (Some Samples.X_two) (Some Samples.y_one) _ Hinit) as (H1 & H2 & H3 & _).
  auto.
Defined.

Lemma committee_teach_grows_every_member_witness :
  exists self',
    Committee.teach Samples.pool_Q Samples.y_pool false true Samples.committee_012_Q
      = (Return tt, self') /\
    length (Committee.learner_list self') = 2 /\
    Forall2 (Committee.grown_by Samples.pool_Q Samples.y_pool)
      (Committee.learner_list Samples.committee_012_Q) (Committee.learner_list self').
Proof.
  exists (snd (Committee.teach Samples.pool_Q Samples.y_pool false true
                 Samples.committee_012_Q)).
  split; [reflexivity |].
  apply (committee_teach_grows_every_member Samples.pool_Q Samples.y_pool false true
           Samples.committee_012_Q).
  reflexivity.
Defined.

(** With [bootstrap=True] and the draw that takes the first row twice,
    every member holds the whole batch while its model has seen the label 0
    only. *)
Lemma committee_fit_replaces_every_buffer_witness :
  exists self',
    Committee.fit Samples.pool_Q Samples.y_pool true Samples.committee_012_Q
      = (Return tt, self') /\
    Forall (fun l' => ActiveLearner.X_training l' = Some Samples.pool_Q /\
                      ActiveLearner.y_training l' = Some Samples.y_pool)
      (Committee.learner_list self') /\
    Committee.classes_ self' = [0%Z].
Proof.
  assert (Hfit : Committee.fit Samples.pool_Q Samples.y_pool true Samples.committee_012_Q
                 = (Return tt,
                    snd (Committee.fit Samples.pool_Q Samples.y_pool true
                           Samples.committee_012_Q)))
    by reflexivity.
  eexists. split; [exact Hfit |]. split; [| reflexivity].
  pose proof (committee_fit_replaces_every_buffer Samples.pool_Q Samples.y_pool true
                Samples.committee_012_Q _ Hfit) as H.
  clear - H. induction H as [| l l' ls ls' (HX & Hy & _) _ IH]; constructor; auto.
Defined.

Lemma committee_teach_failure_is_partial_witness :
  exists self',
    Committee.teach Samples.pool_Q Samples.y_pool false false Samples.committee_mixed_Q
      = (Raise (ValueError
           "the dimensions of the new training data and label mustagree with the training data and labels provided so far"),
         self') /\
    Committee.learner_list self'
      = [snd (ActiveLearner._add_training_data Samples.pool_Q Samples.y_pool
                (Samples.fitted_member [0; 1]%Z));
         Samples.learner0] /\
    Committee.classes_ self' = [0; 1]%Z.
Proof.
  assert (Hpre : Forall
                    (fun l => fst (ActiveLearner._add_training_data Samples.pool_Q
                                     Samples.y_pool l) = Return tt)
                    [Samples.fitted_member (F := Q) [0; 1]%Z])
    by (constructor; [reflexivity | constructor]).
  destruct (committee_teach_failure_is_partial Samples.pool_Q Samples.y_pool false false
              Samples.committee_mixed_Q [Samples.fitted_member [0; 1]%Z] []
              Samples.learner0 Samples.learner0
              (ValueError
                 "the dimensions of the new training data and label mustagree with the training data and labels provided so far")
              eq_refl Hpre eq_refl)
    as (self' & Ht & Hl & _ & _ & Hc & _).
  exists self'. split; [exact Ht |]. split; [exact Hl | exact Hc].
Defined.

Lemma vote_proba_copies_rows_when_labels_agree_witness :
  exists T sample,
    Committee.vote_proba Samples.committee_01 Samples.pool = Return T /\
    nth_error (cells T) 1 = Some sample /\
    nth_error sample 0 = Some [(3 / 10)%float; (7 / 10)%float].
Proof.
  destruct (Committee.vote_proba Samples.committee_01 Samples.pool) as [T | e] eqn:HT;
    [| vm_compute in HT; discriminate HT].
  assert (Hsame : check_class_labels
                    (map Committee.known_classes
                       (Committee.learner_list Samples.committee_01)) = true)
    by reflexivity.
  destruct (vote_proba_copies_rows_when_labels_agree Samples.committee_01 Samples.pool T
              Hsame HT) as [_ Hrows].
  destruct (Hrows 0 Samples.member_01 eq_refl) as (p & Hp & Hcopy).
  injection Hp as <-.
  assert (Hwidth : Forall (fun r : list float => length r = 2)
                      (repeat [(3 / 10)%float; (7 / 10)%float] 2))
    by (repeat constructor).
  destruct (Hcopy eq_refl Hwidth 1 [(3 / 10)%float; (7 / 10)%float] eq_refl)
    as (sample & Hs & Hr).
  exists T, sample. auto.
Defined.

Lemma member_failure_fails_committee_witness :
  exists e',
    Committee.vote_proba Samples.committee_unfitted Samples.pool = Raise e' /\
    Committee.predict_proba Samples.committee_unfitted Samples.pool = Raise e' /\
    Committee.predict Samples.committee_unfitted Samples.pool = Raise e'.
Proof.
  apply (member_failure_fails_committee Samples.committee_unfitted Samples.pool
           Samples.unfitted_member EstimatorError).
  - right. left. reflexivity.
  - reflexivity.
Defined.

Lemma predict_gives_one_known_label_per_sample_witness :
  exists labels,
    Committee.predict Samples.committee_012 Samples.pool = Return labels /\
    length labels = 2 /\
    Forall (fun c => In c [0; 1; 2]%Z) labels.
Proof.
  destruct (Committee.predict Samples.committee_012 Samples.pool) as [labels | e] eqn:Hp;
    [| vm_compute in Hp; discriminate Hp].
  destruct (predict_gives_one_known_label_per_sample Samples.committee_012 Samples.pool
              labels Hp) as (Hlen & Hin & _).
  exists labels. auto.
Defined.

Lemma deep_committee_predicts_as_committee_witness :
  Committee.vote Samples.committee_012 Samples.pool
    = DeepCommittee.vote Samples.deep_committee_012 Samples.pool /\
  Committee.vote_proba Samples.committee_012 Samples.pool
    = DeepCommittee.vote_proba Samples.deep_committee_012 Samples.pool /\
  Committee.predict_proba Samples.committee_012 Samples.pool
    = DeepCommittee.predict_proba Samples.deep_committee_012 Samples.pool /\
  Committee.predict Samples.committee_012 Samples.pool
    = DeepCommittee.predict Samples.deep_committee_012 Samples.pool.
Proof.
  apply (deep_committee_predicts_as_committee Samples.committee_012
           Samples.deep_committee_012 Samples.pool).
  split; [| split]; reflexivity.
Defined.


Lemma deep_committee_init_sets_classes_witness :
  DeepCommittee.classes_are_union (F := float)
    (DeepCommittee.__init__ (F := float)
       (DeepCommittee.learner_list Samples.deep_committee_012)) /\
  DeepCommittee.classes_
    (DeepCommittee.__init__ (F := float)
       (DeepCommittee.learner_list Samples.deep_committee_012)) = [0; 1; 2]%Z.
Proof.
  split; [| reflexivity].
  apply (deep_committee_init_sets_classes (F := float)
           (DeepCommittee.learner_list Samples.deep_committee_012)).
Defined.

Lemma teach_on_wide_labels_raises_after_adding_witness :
  exists e self',
    BayesianOptimizer.teach Samples.X_one Samples.y_two_outputs false false
      Samples.optimizer0 = (Raise e, self') /\
    BayesianOptimizer.get_max self' = (None, BayesianOptimizer.NegInf) /\
    ActiveLearner.X_training (BayesianOptimizer.base self') = Some Samples.X_one /\
    ActiveLearner.y_training (BayesianOptimizer.base self') = Some Samples.y_two_outputs.
Proof.
  assert (Hwide : Forall (fun r : list Q => length r <> 1) (rows Samples.y_two_outputs)).
  { constructor; [| constructor]. cbn. intros H. discriminate H. }
  destruct (teach_on_wide_labels_raises_after_adding Samples.X_one Samples.y_two_outputs
              false false Samples.optimizer0 Hwide) as (e & self' & Ht & Hg & Hb).
  exists e, self'. split; [exact Ht |]. split; [exact Hg |].
  assert (Hadd : ActiveLearner._add_training_data Samples.X_one Samples.y_two_outputs
                   (BayesianOptimizer.base Samples.optimizer0)
                 = (Return tt,
                    snd (ActiveLearner._add_training_data Samples.X_one
                           Samples.y_two_outputs
                           (BayesianOptimizer.base Samples.optimizer0))))
    by reflexivity.
  assert (Hfit : ActiveLearner._fit_to_known false
                   (snd (ActiveLearner._add_training_data Samples.X_one
                           Samples.y_two_outputs
                           (BayesianOptimizer.base Samples.optimizer0)))
                 = (Return tt,
                    snd (ActiveLearner._fit_to_known false
                           (snd (ActiveLearner._add_training_data Samples.X_one
                                   Samples.y_two_outputs
                                   (BayesianOptimizer.base Samples.optimizer0))))))
    by reflexivity.
  rewrite (Hb _ _ Hadd Hfit).
  split; reflexivity.
Defined.

Lemma get_max_is_earliest_maximum_witness :
  exists self,
    BayesianOptimizer.teach_all (map Samples.point Samples.points_3_5_5_2)
      Samples.optimizer0 = (Return tt, self) /\
    BayesianOptimizer.earliest_max
      (BayesianOptimizer.history_of (map Samples.point Samples.points_3_5_5_2)) self /\
    BayesianOptimizer.get_max self = (Some [10%Q], BayesianOptimizer.Val [5%Q]).
Proof.
  exists (snd (BayesianOptimizer.teach_all (map Samples.point Samples.points_3_5_5_2)
                 Samples.optimizer0)).
  split; [reflexivity |]. split; [| reflexivity].
  apply (get_max_is_earliest_maximum Samples.unfitted_regressor true false
           (map Samples.point Samples.points_3_5_5_2) Samples.optimizer0).
  - reflexivity.
  - repeat constructor.
  - reflexivity.
Defined.
